(** * ELMFlash: the 196EA instruction decoder (disasm/196ea_opc.go)

    A shallow embedding of the decoder [Parse], of its operand resolvers,
    of the control-flow recorder and of the offset calculator, followed by
    the properties of the specification that concern them.

    Conventions of the embedding.
    - A Go [byte] is a [Byte.byte]; [u8] gives its value in [0, 256).
    - A Go [int] is a [Z]; additions that involve the caller's address are
      wrapped to 64 bits by [int]. Bit operations are those of [Z], which
      agree with two's complement on every width.
    - A Go slice is the list of its [len] elements; indexing beyond that
      length is the run-time fault [Panic]. Where the code re-slices a
      slice (the input of [Parse]), the slice comes with the list of the
      elements of its backing array that lie behind it, up to its
      capacity: a slice expression is bounded by the capacity, not by the
      length, and it faults beyond the capacity only.
    - A Go map that may be [nil] is an [option] of a [gmap].
    - [regName] belongs to another file of the package; it is a parameter
      of the section that holds the resolvers. *)

From Stdlib Require Import ZArith List String Ascii Bool Lia.
From Stdlib.Strings Require Import Byte.
From stdpp Require Import gmap strings list.

Local Open Scope string_scope.
Local Open Scope Z_scope.

(** ** Run-time faults *)

Inductive result (A : Type) : Type :=
| Ok (a : A)
| Panic.
Arguments Ok {A} a.
Arguments Panic {A}.

#[global] Instance result_bind : MBind result :=
  fun A B (k : A -> result B) (r : result A) =>
    match r with
    | Ok a => k a
    | Panic => Panic
    end.

#[global] Instance result_ret : MRet result := fun A (a : A) => Ok a.

Definition returns {A : Type} (r : result A) : bool :=
  match r with
  | Ok _ => true
  | Panic => false
  end.

(** ** Bytes, integers and slices *)

Definition u8 (b : byte) : Z := Z.of_N (Byte.to_N b).

(** The value of [z] read as a [w]-bit two's-complement number. *)
Definition wrap_signed (w : Z) (z : Z) : Z :=
  (z + 2 ^ (w - 1)) mod 2 ^ w - 2 ^ (w - 1).

Definition int16 (z : Z) : Z := wrap_signed 16 z.
Definition int (z : Z) : Z := wrap_signed 64 z.

(** [s[i]] *)
Definition index {A : Type} (s : list A) (i : Z) : result A :=
  if i <? 0 then Panic
  else match s !! Z.to_nat i with
       | Some x => Ok x
       | None => Panic
       end.

(** [dropExact] skips [lo] elements and [takeExact] takes the next [n];
    both fault when the list ends before that. *)
Fixpoint dropExact {A : Type} (lo : nat) (s : list A) : result (list A) :=
  match lo with
  | O => Ok s
  | S lo' =>
      match s with
      | _ :: s' => dropExact lo' s'
      | [] => Panic
      end
  end.

Fixpoint takeExact {A : Type} (n : nat) (s : list A) : result (list A) :=
  match n with
  | O => Ok []
  | S n' =>
      match s with
      | x :: s' => r ← takeExact n' s'; Ok (x :: r)
      | [] => Panic
      end
  end.

(** The elements [lo], ..., [hi - 1] of a backing array: the bounds
    [0 <= lo <= hi] are tested, and that the array has [hi] elements is
    found out on the way. *)
Definition segment {A : Type} (s : list A) (lo hi : Z) : result (list A) :=
  if (0 <=? lo) && (lo <=? hi)
  then s' ← dropExact (Z.to_nat lo) s; takeExact (Z.to_nat (hi - lo)) s'
  else Panic.

(** [s[lo:hi]], where [beyond] holds the elements of the backing array
    behind the [len(s)] elements of [s]: [cap(s)] is the length of both
    together. The bounds are [0 <= lo <= hi <= cap(s)], and the elements
    are those of the backing array, also behind [len(s)]. *)
Definition slice {A : Type} (s beyond : list A) (lo hi : Z) : result (list A) :=
  segment (s ++ beyond) lo hi.

Definition len {A : Type} (s : list A) : Z := Z.of_nat (length s).

(** [for i, x := range l { body }] over a state that the body may fault on. *)
Fixpoint forRange {S : Type} (l : list string) (i : Z)
    (body : Z -> string -> S -> result S) (s : S) : result S :=
  match l with
  | [] => Ok s
  | x :: l' => s' ← body i x s; forRange l' (i + 1) body s'
  end.

(** ** The parts of [fmt] and [strings] that the decoder calls *)

Inductive fmtArg : Type :=
| AInt (z : Z)
| AStr (s : string).

Definition digitChar (upper : bool) (d : Z) : ascii :=
  if d <? 10 then ascii_of_N (Z.to_N (48 + d))
  else ascii_of_N (Z.to_N ((if upper then 55 else 87) + d)).

Fixpoint digitsAux (fuel : nat) (base : Z) (upper : bool) (n : Z)
    (acc : string) : string :=
  match fuel with
  | O => acc
  | S fuel' =>
      let acc' := String (digitChar upper (n mod base)) acc in
      if n / base =? 0 then acc' else digitsAux fuel' base upper (n / base) acc'
  end.

(** The digits of the natural number [n] (at least one digit). *)
Definition digits (base : Z) (upper : bool) (n : Z) : string :=
  digitsAux (S (Z.to_nat (Z.log2 n))) base upper n EmptyString.

Fixpoint repeatChar (c : ascii) (n : nat) : string :=
  match n with
  | O => EmptyString
  | S n' => String c (repeatChar c n')
  end.

Definition padLeft (c : ascii) (width : nat) (s : string) : string :=
  repeatChar c (width - String.length s) +:+ s.

(** [fmtInteger]: with the [0] flag the width counts the sign and the
    zeros go between sign and digits; without it the text is padded with
    spaces on the left. *)
Definition fmtInteger (base : Z) (upper zero : bool) (width : option nat)
    (z : Z) : string :=
  let neg := z <? 0 in
  let ds := digits base upper (Z.abs z) in
  let sign := if neg then "-" else EmptyString in
  match width with
  | Some w =>
      if zero
      then sign +:+ padLeft "0" (w - (if neg then 1 else 0)) ds
      else padLeft " " w (sign +:+ ds)
  | None => sign +:+ ds
  end.

Definition isDigit (c : ascii) : bool :=
  let n := Z.of_N (N_of_ascii c) in (48 <=? n) && (n <=? 57).

Fixpoint readWidth (s : string) (acc : option nat) : option nat * string :=
  match s with
  | String c s' =>
      if isDigit c
      then readWidth s'
             (Some (10 * default 0%nat acc + (N.to_nat (N_of_ascii c) - 48))%nat)
      else (acc, s)
  | EmptyString => (acc, s)
  end.

Definition showArg (a : fmtArg) : string :=
  match a with
  | AInt z => "int=" +:+ fmtInteger 10 false false None z
  | AStr s => "string=" +:+ s
  end.

Fixpoint showExtra (args : list fmtArg) : string :=
  match args with
  | [] => EmptyString
  | [a] => showArg a
  | a :: rest => showArg a +:+ ", " +:+ showExtra rest
  end.

(** One directive, its flags and width already read. *)
Definition fmtVerb (verb : ascii) (zero : bool) (width : option nat)
    (arg : option fmtArg) : string :=
  match arg with
  | None => "%!" +:+ String verb "(MISSING)"
  | Some (AInt z) =>
      if Ascii.eqb verb "X" then fmtInteger 16 true zero width z
      else if Ascii.eqb verb "x" then fmtInteger 16 false zero width z
      else if Ascii.eqb verb "d" then fmtInteger 10 false zero width z
      else "%!" +:+ String verb ("(" +:+ showArg (AInt z) +:+ ")")
  | Some (AStr s) =>
      if Ascii.eqb verb "s"
      then match width with
           | Some w => padLeft (if zero then "0" else " ")%char w s
           | None => s
           end
      else "%!" +:+ String verb ("(" +:+ showArg (AStr s) +:+ ")")
  end.

(** [fmt.Sprintf] for the directives of this program: [%X], [%x], [%d] on
    an [int] and [%s] on a string, with an optional [0] flag and width,
    and [%%]. Surplus arguments and arguments of the wrong kind are
    reported the way [fmt] reports them. Other verbs and flags do not
    occur in the program and are outside the model. *)
Fixpoint sprintfAux (fuel : nat) (f : string) (args : list fmtArg) : string :=
  match fuel with
  | O => EmptyString
  | S fuel' =>
      match f with
      | EmptyString =>
          match args with
          | [] => EmptyString
          | _ => "%!(EXTRA " +:+ showExtra args +:+ ")"
          end
      | String "%" EmptyString => "%!(NOVERB)"
      | String "%" (String "%" f') => String "%" (sprintfAux fuel' f' args)
      | String "%" f' =>
          let (zero, f1) :=
            match f' with
            | String "0" r => (true, r)
            | _ => (false, f')
            end in
          let (width, f2) := readWidth f1 None in
          match f2 with
          | EmptyString => "%!(NOVERB)"
          | String verb f3 =>
              fmtVerb verb zero width (head args)
                +:+ sprintfAux fuel' f3 (tail args)
          end
      | String c f' => String c (sprintfAux fuel' f' args)
      end
  end.

Definition Sprintf (f : string) (args : list fmtArg) : string :=
  sprintfAux (S (String.length f)) f args.

Fixpoint dropString (n : nat) (s : string) : string :=
  match n, s with
  | O, _ => s
  | S n', String _ s' => dropString n' s'
  | S _, EmptyString => EmptyString
  end.

(** [strings.Replace(s, old, new, 1)] for a non-empty [old]: the first
    occurrence is replaced. *)
Fixpoint Replace1 (s old new : string) : string :=
  match s with
  | EmptyString => EmptyString
  | String c s' =>
      if String.prefix old s
      then new +:+ dropString (String.length old) s
      else String c (Replace1 s' old new)
  end.

(** ** Data model *)

Inductive FlagsT : Type := mkFlags.

(** The Go struct [Variable]; its fields carry the prefix [Var_]. *)
Record VariableT : Type := mkVariable {
  Var_Description : string;
  Var_Type : string;
  Var_Value : string;
  Var_Bits : Z
}.

Record XRef : Type := mkXRef {
  XRef_String : string;
  XRef_Mnemonic : string;
  XRefFrom : Z;
  XRefTo : Z
}.

Record Call : Type := mkCall {
  Call_String : string;
  Call_Mnemonic : string;
  CallFrom : Z;
  CallTo : Z
}.

Record Jump : Type := mkJump {
  Jump_String : string;
  Jump_Mnemonic : string;
  JumpFrom : Z;
  JumpTo : Z
}.

(** The struct [Instruction]. [LongDescription], a paragraph of manual
    prose that [Parse] copies from the template and nothing reads, is
    left out. *)
Record Instruction : Type := mkInstruction {
  Op : byte;
  Address : Z;
  XRefs : option (gmap Z (list XRef));
  Calls : option (gmap Z (list Call));
  Jumps : option (gmap Z (list Jump));
  Raw : list byte;
  RawOps : list byte;
  Mnemonic : string;
  ByteLength : Z;
  VarCount : Z;
  VarStrings : list string;
  Vars : option (gmap string VariableT);
  PseudoCode : string;
  PseudoString : string;
  VarTypes : list string;
  AddressingMode : string;
  Description : string;
  VariableLength : bool;
  AutoIncrement : bool;
  Flags : FlagsT;
  Signed : bool;
  Ignore : bool;
  Reserved : bool;
  Checked : bool
}.

(** The zero value of the struct. *)
Definition zeroInstruction : Instruction :=
  {| Op := x00;
     Address := 0;
     XRefs := None;
     Calls := None;
     Jumps := None;
     Raw := [];
     RawOps := [];
     Mnemonic := EmptyString;
     ByteLength := 0;
     VarCount := 0;
     VarStrings := [];
     Vars := None;
     PseudoCode := EmptyString;
     PseudoString := EmptyString;
     VarTypes := [];
     AddressingMode := EmptyString;
     Description := EmptyString;
     VariableLength := false;
     AutoIncrement := false;
     Flags := mkFlags;
     Signed := false;
     Ignore := false;
     Reserved := false;
     Checked := false |}.

Definition zeroVariable : VariableT :=
  {| Var_Description := EmptyString; Var_Type := EmptyString; Var_Value := EmptyString; Var_Bits := 0 |}.

Definition set_Var_Type (t : string) (v : VariableT) : VariableT :=
  {| Var_Description := Var_Description v; Var_Type := t;
     Var_Value := Var_Value v; Var_Bits := Var_Bits v |}.

Definition set_Var_Value (s : string) (v : VariableT) : VariableT :=
  {| Var_Description := Var_Description v; Var_Type := Var_Type v;
     Var_Value := s; Var_Bits := Var_Bits v |}.

(** Assignments to one field of an instruction. *)
Definition set_Op (x : byte) (i : Instruction) : Instruction :=
  {| Op := x; Address := Address i; XRefs := XRefs i; Calls := Calls i; Jumps
     := Jumps i; Raw := Raw i; RawOps := RawOps i; Mnemonic := Mnemonic i;
     ByteLength := ByteLength i; VarCount := VarCount i; VarStrings :=
     VarStrings i; Vars := Vars i; PseudoCode := PseudoCode i; PseudoString
     := PseudoString i; VarTypes := VarTypes i; AddressingMode :=
     AddressingMode i; Description := Description i; VariableLength :=
     VariableLength i; AutoIncrement := AutoIncrement i; Flags := Flags i;
     Signed := Signed i; Ignore := Ignore i; Reserved := Reserved i; Checked
     := Checked i |}.

Definition set_Address (x : Z) (i : Instruction) : Instruction :=
  {| Op := Op i; Address := x; XRefs := XRefs i; Calls := Calls i; Jumps :=
     Jumps i; Raw := Raw i; RawOps := RawOps i; Mnemonic := Mnemonic i;
     ByteLength := ByteLength i; VarCount := VarCount i; VarStrings :=
     VarStrings i; Vars := Vars i; PseudoCode := PseudoCode i; PseudoString
     := PseudoString i; VarTypes := VarTypes i; AddressingMode :=
     AddressingMode i; Description := Description i; VariableLength :=
     VariableLength i; AutoIncrement := AutoIncrement i; Flags := Flags i;
     Signed := Signed i; Ignore := Ignore i; Reserved := Reserved i; Checked
     := Checked i |}.

Definition set_XRefs (x : option (gmap Z (list XRef))) (i : Instruction) : Instruction :=
  {| Op := Op i; Address := Address i; XRefs := x; Calls := Calls i; Jumps :=
     Jumps i; Raw := Raw i; RawOps := RawOps i; Mnemonic := Mnemonic i;
     ByteLength := ByteLength i; VarCount := VarCount i; VarStrings :=
     VarStrings i; Vars := Vars i; PseudoCode := PseudoCode i; PseudoString
     := PseudoString i; VarTypes := VarTypes i; AddressingMode :=
     AddressingMode i; Description := Description i; VariableLength :=
     VariableLength i; AutoIncrement := AutoIncrement i; Flags := Flags i;
     Signed := Signed i; Ignore := Ignore i; Reserved := Reserved i; Checked
     := Checked i |}.

Definition set_Calls (x : option (gmap Z (list Call))) (i : Instruction) : Instruction :=
  {| Op := Op i; Address := Address i; XRefs := XRefs i; Calls := x; Jumps :=
     Jumps i; Raw := Raw i; RawOps := RawOps i; Mnemonic := Mnemonic i;
     ByteLength := ByteLength i; VarCount := VarCount i; VarStrings :=
     VarStrings i; Vars := Vars i; PseudoCode := PseudoCode i; PseudoString
     := PseudoString i; VarTypes := VarTypes i; AddressingMode :=
     AddressingMode i; Description := Description i; VariableLength :=
     VariableLength i; AutoIncrement := AutoIncrement i; Flags := Flags i;
     Signed := Signed i; Ignore := Ignore i; Reserved := Reserved i; Checked
     := Checked i |}.

Definition set_Jumps (x : option (gmap Z (list Jump))) (i : Instruction) : Instruction :=
  {| Op := Op i; Address := Address i; XRefs := XRefs i; Calls := Calls i;
     Jumps := x; Raw := Raw i; RawOps := RawOps i; Mnemonic := Mnemonic i;
     ByteLength := ByteLength i; VarCount := VarCount i; VarStrings :=
     VarStrings i; Vars := Vars i; PseudoCode := PseudoCode i; PseudoString
     := PseudoString i; VarTypes := VarTypes i; AddressingMode :=
     AddressingMode i; Description := Description i; VariableLength :=
     VariableLength i; AutoIncrement := AutoIncrement i; Flags := Flags i;
     Signed := Signed i; Ignore := Ignore i; Reserved := Reserved i; Checked
     := Checked i |}.

Definition set_Raw (x : list byte) (i : Instruction) : Instruction :=
  {| Op := Op i; Address := Address i; XRefs := XRefs i; Calls := Calls i;
     Jumps := Jumps i; Raw := x; RawOps := RawOps i; Mnemonic := Mnemonic i;
     ByteLength := ByteLength i; VarCount := VarCount i; VarStrings :=
     VarStrings i; Vars := Vars i; PseudoCode := PseudoCode i; PseudoString
     := PseudoString i; VarTypes := VarTypes i; AddressingMode :=
     AddressingMode i; Description := Description i; VariableLength :=
     VariableLength i; AutoIncrement := AutoIncrement i; Flags := Flags i;
     Signed := Signed i; Ignore := Ignore i; Reserved := Reserved i; Checked
     := Checked i |}.

Definition set_RawOps (x : list byte) (i : Instruction) : Instruction :=
  {| Op := Op i; Address := Address i; XRefs := XRefs i; Calls := Calls i;
     Jumps := Jumps i; Raw := Raw i; RawOps := x; Mnemonic := Mnemonic i;
     ByteLength := ByteLength i; VarCount := VarCount i; VarStrings :=
     VarStrings i; Vars := Vars i; PseudoCode := PseudoCode i; PseudoString
     := PseudoString i; VarTypes := VarTypes i; AddressingMode :=
     AddressingMode i; Description := Description i; VariableLength :=
     VariableLength i; AutoIncrement := AutoIncrement i; Flags := Flags i;
     Signed := Signed i; Ignore := Ignore i; Reserved := Reserved i; Checked
     := Checked i |}.

Definition set_Mnemonic (x : string) (i : Instruction) : Instruction :=
  {| Op := Op i; Address := Address i; XRefs := XRefs i; Calls := Calls i;
     Jumps := Jumps i; Raw := Raw i; RawOps := RawOps i; Mnemonic := x;
     ByteLength := ByteLength i; VarCount := VarCount i; VarStrings :=
     VarStrings i; Vars := Vars i; PseudoCode := PseudoCode i; PseudoString
     := PseudoString i; VarTypes := VarTypes i; AddressingMode :=
     AddressingMode i; Description := Description i; VariableLength :=
     VariableLength i; AutoIncrement := AutoIncrement i; Flags := Flags i;
     Signed := Signed i; Ignore := Ignore i; Reserved := Reserved i; Checked
     := Checked i |}.

Definition set_ByteLength (x : Z) (i : Instruction) : Instruction :=
  {| Op := Op i; Address := Address i; XRefs := XRefs i; Calls := Calls i;
     Jumps := Jumps i; Raw := Raw i; RawOps := RawOps i; Mnemonic := Mnemonic
     i; ByteLength := x; VarCount := VarCount i; VarStrings := VarStrings i;
     Vars := Vars i; PseudoCode := PseudoCode i; PseudoString := PseudoString
     i; VarTypes := VarTypes i; AddressingMode := AddressingMode i;
     Description := Description i; VariableLength := VariableLength i;
     AutoIncrement := AutoIncrement i; Flags := Flags i; Signed := Signed i;
     Ignore := Ignore i; Reserved := Reserved i; Checked := Checked i |}.

Definition set_VarStrings (x : list string) (i : Instruction) : Instruction :=
  {| Op := Op i; Address := Address i; XRefs := XRefs i; Calls := Calls i;
     Jumps := Jumps i; Raw := Raw i; RawOps := RawOps i; Mnemonic := Mnemonic
     i; ByteLength := ByteLength i; VarCount := VarCount i; VarStrings := x;
     Vars := Vars i; PseudoCode := PseudoCode i; PseudoString := PseudoString
     i; VarTypes := VarTypes i; AddressingMode := AddressingMode i;
     Description := Description i; VariableLength := VariableLength i;
     AutoIncrement := AutoIncrement i; Flags := Flags i; Signed := Signed i;
     Ignore := Ignore i; Reserved := Reserved i; Checked := Checked i |}.

Definition set_Vars (x : option (gmap string VariableT)) (i : Instruction) : Instruction :=
  {| Op := Op i; Address := Address i; XRefs := XRefs i; Calls := Calls i;
     Jumps := Jumps i; Raw := Raw i; RawOps := RawOps i; Mnemonic := Mnemonic
     i; ByteLength := ByteLength i; VarCount := VarCount i; VarStrings :=
     VarStrings i; Vars := x; PseudoCode := PseudoCode i; PseudoString :=
     PseudoString i; VarTypes := VarTypes i; AddressingMode := AddressingMode
     i; Description := Description i; VariableLength := VariableLength i;
     AutoIncrement := AutoIncrement i; Flags := Flags i; Signed := Signed i;
     Ignore := Ignore i; Reserved := Reserved i; Checked := Checked i |}.

Definition set_PseudoCode (x : string) (i : Instruction) : Instruction :=
  {| Op := Op i; Address := Address i; XRefs := XRefs i; Calls := Calls i;
     Jumps := Jumps i; Raw := Raw i; RawOps := RawOps i; Mnemonic := Mnemonic
     i; ByteLength := ByteLength i; VarCount := VarCount i; VarStrings :=
     VarStrings i; Vars := Vars i; PseudoCode := x; PseudoString :=
     PseudoString i; VarTypes := VarTypes i; AddressingMode := AddressingMode
     i; Description := Description i; VariableLength := VariableLength i;
     AutoIncrement := AutoIncrement i; Flags := Flags i; Signed := Signed i;
     Ignore := Ignore i; Reserved := Reserved i; Checked := Checked i |}.

Definition set_AddressingMode (x : string) (i : Instruction) : Instruction :=
  {| Op := Op i; Address := Address i; XRefs := XRefs i; Calls := Calls i;
     Jumps := Jumps i; Raw := Raw i; RawOps := RawOps i; Mnemonic := Mnemonic
     i; ByteLength := ByteLength i; VarCount := VarCount i; VarStrings :=
     VarStrings i; Vars := Vars i; PseudoCode := PseudoCode i; PseudoString
     := PseudoString i; VarTypes := VarTypes i; AddressingMode := x;
     Description := Description i; VariableLength := VariableLength i;
     AutoIncrement := AutoIncrement i; Flags := Flags i; Signed := Signed i;
     Ignore := Ignore i; Reserved := Reserved i; Checked := Checked i |}.

Definition set_Description (x : string) (i : Instruction) : Instruction :=
  {| Op := Op i; Address := Address i; XRefs := XRefs i; Calls := Calls i;
     Jumps := Jumps i; Raw := Raw i; RawOps := RawOps i; Mnemonic := Mnemonic
     i; ByteLength := ByteLength i; VarCount := VarCount i; VarStrings :=
     VarStrings i; Vars := Vars i; PseudoCode := PseudoCode i; PseudoString
     := PseudoString i; VarTypes := VarTypes i; AddressingMode :=
     AddressingMode i; Description := x; VariableLength := VariableLength i;
     AutoIncrement := AutoIncrement i; Flags := Flags i; Signed := Signed i;
     Ignore := Ignore i; Reserved := Reserved i; Checked := Checked i |}.

Definition set_AutoIncrement (x : bool) (i : Instruction) : Instruction :=
  {| Op := Op i; Address := Address i; XRefs := XRefs i; Calls := Calls i;
     Jumps := Jumps i; Raw := Raw i; RawOps := RawOps i; Mnemonic := Mnemonic
     i; ByteLength := ByteLength i; VarCount := VarCount i; VarStrings :=
     VarStrings i; Vars := Vars i; PseudoCode := PseudoCode i; PseudoString
     := PseudoString i; VarTypes := VarTypes i; AddressingMode :=
     AddressingMode i; Description := Description i; VariableLength :=
     VariableLength i; AutoIncrement := x; Flags := Flags i; Signed := Signed
     i; Ignore := Ignore i; Reserved := Reserved i; Checked := Checked i |}.

Definition set_Signed (x : bool) (i : Instruction) : Instruction :=
  {| Op := Op i; Address := Address i; XRefs := XRefs i; Calls := Calls i;
     Jumps := Jumps i; Raw := Raw i; RawOps := RawOps i; Mnemonic := Mnemonic
     i; ByteLength := ByteLength i; VarCount := VarCount i; VarStrings :=
     VarStrings i; Vars := Vars i; PseudoCode := PseudoCode i; PseudoString
     := PseudoString i; VarTypes := VarTypes i; AddressingMode :=
     AddressingMode i; Description := Description i; VariableLength :=
     VariableLength i; AutoIncrement := AutoIncrement i; Flags := Flags i;
     Signed := x; Ignore := Ignore i; Reserved := Reserved i; Checked :=
     Checked i |}.

Definition set_Checked (x : bool) (i : Instruction) : Instruction :=
  {| Op := Op i; Address := Address i; XRefs := XRefs i; Calls := Calls i;
     Jumps := Jumps i; Raw := Raw i; RawOps := RawOps i; Mnemonic := Mnemonic
     i; ByteLength := ByteLength i; VarCount := VarCount i; VarStrings :=
     VarStrings i; Vars := Vars i; PseudoCode := PseudoCode i; PseudoString
     := PseudoString i; VarTypes := VarTypes i; AddressingMode :=
     AddressingMode i; Description := Description i; VariableLength :=
     VariableLength i; AutoIncrement := AutoIncrement i; Flags := Flags i;
     Signed := Signed i; Ignore := Ignore i; Reserved := Reserved i; Checked
     := x |}.

(** The catalog of operand variables. A missing key yields the zero
    [Variable], as a Go map does. *)
Definition VarObjs : gmap string VariableT :=
  list_to_map [
    ("aa", mkVariable
       "A 2-bit field within an opcode that selects the basic addressing mode used. This field is present only in those opcodes that allow addressing mode options. "
       EmptyString EmptyString 2);
    ("baop", mkVariable
       "A byte operand that is addressed by any addressing mode."
       EmptyString EmptyString 8);
    ("bbb", mkVariable
       "A 3-bit field within an opcode that selects a specific bit within a register."
       EmptyString EmptyString 3);
    ("bitno", mkVariable
       "A 3-bit field within an opcode that selects one of the eight bits in a byte. "
       EmptyString EmptyString 3);
    ("breg", mkVariable
       "A byte register in the internal register file. When it could be unclear whether this variable refers to a source or a destination register, it is prefixed with an S or a D. The value must be in the range of 00–FFH."
       EmptyString EmptyString 8);
    ("cadd", mkVariable
       "An address in the program code"
       EmptyString EmptyString 0);
    ("Dbreg", mkVariable
       "A byte register in the lower register file that serves as the destination of the instruction operation. "
       EmptyString EmptyString 8);
    ("disp", mkVariable
       "Displacement. The distance between the end of an instruction and the target label."
       EmptyString EmptyString 0);
    ("Dlreg", mkVariable
       "A 32-bit register in the lower register file that serves as the destination of the instruction operation. Must be aligned on an address that is evenly divisible by 4. The value must be in the range of 00–FCH."
       EmptyString EmptyString 8);
    ("Dwreg", mkVariable
       "A word register in the lower register file that serves as the destination of the instruction operation. Must be aligned on an address that is evenly divisible by 2. The value must be in the range of 00–FEH."
       EmptyString EmptyString 8);
    ("lreg", mkVariable
       "A 32-bit register in the lower register file. Must be aligned on an address that is evenly divisible by 4. The value must be in the range of 00–FCH. "
       EmptyString EmptyString 8);
    ("ptr2_reg", mkVariable
       " A double-pointer register, used with the EBMOVI instruction. Must be aligned on an address that is evenly divisible by 8. The value must be in the range of 00–F8H. "
       EmptyString EmptyString 8);
    ("preg", mkVariable
       "A pointer register. Must be aligned on an address that is evenly divisible by 4. The value must be in the range of 00–FCH. "
       EmptyString EmptyString 8);
    ("Sbreg", mkVariable
       "A byte register in the lower register file that serves as the source of the instruction operation."
       EmptyString EmptyString 8);
    ("Slreg", mkVariable
       "A 32-bit register in the lower register file that serves as the source of the instruction operation. Must be aligned on an address that is evenly divisible by 4. The value must be in the range of 00–FCH."
       EmptyString EmptyString 8);
    ("Swreg", mkVariable
       "A word register in the lower register file that serves as the source of the instruction operation. Must be aligned on an address that is evenly divisible by 2. The value must be in the range of 00–FEH."
       EmptyString EmptyString 8);
    ("treg", mkVariable
       "A 24-bit register in the lower register file. Must be aligned on an address that is evenly divisible by 4. The value must be in the range of 00–FCH."
       EmptyString EmptyString 8);
    ("waop", mkVariable
       "A word operand that is addressed by any addressing mode."
       EmptyString EmptyString 16);
    ("w2_reg", mkVariable
       "A double-word register in the lower register file. Must be aligned on an address that is evenly divisible by 4. The value must be in the range of 00–FCH. Although w2_reg is similar to lreg, there is a distinction: w2_reg consists of two halves, each containing a 16-bit address; lreg is indivisible and contains a 32-bit number."
       EmptyString EmptyString 0);
    ("wreg", mkVariable
       "A word register in the lower register file. When it could be unclear whether this variable refers to a source or a destination register, it is prefixed with an S or a D. Must be aligned on an address that is evenly divisible by 2. The value must be in the range of 00–FEH."
       EmptyString EmptyString 0);
    ("xxx", mkVariable
       "The three high-order bits of displacement"
       EmptyString EmptyString 3)
  ].

Definition VarObjs_at (k : string) : VariableT :=
  default zeroVariable (VarObjs !! k).

Definition varsAt (m : option (gmap string VariableT)) (k : string) : VariableT :=
  match m with
  | Some vars => default zeroVariable (vars !! k)
  | None => zeroVariable
  end.

(** [m[v]] on a map of slices that may be [nil]. *)
Definition edgesAt {E : Type} (m : option (gmap Z (list E))) (v : Z) : list E :=
  match m with
  | Some edges => default [] (edges !! v)
  | None => []
  end.

(** [m[v] = l], on the map made when the field was [nil]. *)
Definition edgesPut {E : Type} (m : option (gmap Z (list E))) (v : Z)
    (l : list E) : option (gmap Z (list E)) :=
  Some (<[v := l]> (default ∅ m)).

(** ** Control-flow recorder *)

(** [XRef] writes no other field than [XRefs], so it is the assignment of
    that field: the old value for [v <= 2] and when the slice under [v]
    already holds an edge from this address (the [return] inside the
    loop), and the map with one more edge under [v] otherwise. *)
Definition Instruction_XRef (s : string) (v : Z) (instr : Instruction) : Instruction :=
  set_XRefs
    (if 0x02 <? v then
       let existing := XRefs instr in
       if match existing with
          | None => false
          | Some _ =>
              existsb (fun ins => XRefFrom ins =? Address instr)
                (edgesAt (XRefs instr) v)
          end
       then XRefs instr
       else edgesPut existing v
              (edgesAt existing v ++
               [mkXRef (Sprintf s [AInt v]) (Mnemonic instr) (Address instr) v])
     else XRefs instr)
    instr.

Definition Instruction_Call (s : string) (v : Z) (instr : Instruction) : Instruction :=
  let existing := Calls instr in
  set_Calls
    (edgesPut existing v
       (edgesAt existing v ++
        [mkCall (Sprintf s [AInt v]) (Mnemonic instr) (Address instr) v]))
    instr.

Definition Instruction_Jump (s : string) (v : Z) (instr : Instruction) : Instruction :=
  let existing := Jumps instr in
  set_Jumps
    (edgesPut existing v
       (edgesAt existing v ++
        [mkJump (Sprintf s [AInt v]) (Mnemonic instr) (Address instr) v]))
    instr.

(** ** Offset calculator *)

(** [getOffset]: the 11-bit displacement of the short jump and call. The
    masked first byte stays a byte, so [int16(b1)] is its value; the shift
    and the [or] are taken in 16 bits. *)
Definition getOffset (data : list byte) : result Z :=
  b1 ← index data 0;
  b2 ← index data 1;
  let b1 := Z.land (u8 b1) 0x07 in
  let b1 := if Z.land b1 0x04 =? 0x04 then Z.lor b1 0xFC else b1 in
  let offset := int (Z.lor (int16 (Z.shiftl (int16 b1) 8)) (int16 (u8 b2))) in
  Ok offset.

(** ** Opcode tables *)

(** One table entry, from the fields its literal gives; the fields a
    literal omits have their zero value. *)
Definition template (mnemonic : string) (byteLength varCount : Z)
    (varTypes varStrings : list string) (addressingMode description : string)
    (variableLength autoIncrement ignore signed reserved : bool) : Instruction :=
  {| Op := x00; Address := 0; XRefs := None; Calls := None; Jumps := None;
     Raw := []; RawOps := []; Mnemonic := mnemonic; ByteLength := byteLength;
     VarCount := varCount; VarStrings := varStrings; Vars := None;
     PseudoCode := EmptyString; PseudoString := EmptyString;
     VarTypes := varTypes; AddressingMode := addressingMode;
     Description := description; VariableLength := variableLength;
     AutoIncrement := autoIncrement; Flags := mkFlags; Signed := signed;
     Ignore := ignore; Reserved := reserved; Checked := false |}.

Definition unsignedInstructions (op : byte) : option Instruction :=
  match op with
  | x00 => Some (template "SKIP" 2 0
      ["ByteReg"] ["breg"]
      "direct" "TWO BYTE NO-OPERATION."
      false false true false false)
  | x01 => Some (template "CLR" 2 1
      ["DEST"] ["wreg"]
      "direct" "CLEAR WORD."
      false false false false false)
  | x02 => Some (template "NOT" 2 1
      ["DEST"] ["wreg"]
      "direct" "COMPLEMENT WORD."
      false false false false false)
  | x03 => Some (template "NEG" 2 1
      ["DEST"] ["wreg"]
      "direct" "NEGATE INTEGER."
      false false false false false)
  | x04 => Some (template "XCH" 3 2
      ["DEST"; "SRC"] ["wreg"; "waop"]
      "direct" "EXCHANGE WORD."
      false false false false false)
  | x05 => Some (template "DEC" 2 1
      ["DEST"] ["breg"]
      "direct" "DECREMENT WORD."
      false false false false false)
  | x06 => Some (template "EXT" 2 1
      ["DEST"] ["lreg"]
      "direct" "SIGN-EXTEND INTEGER INTO LONGINTEGER."
      false false false false false)
  | x07 => Some (template "INC" 2 1
      ["DEST"] ["wreg"]
      "direct" "INCREMENT WORD."
      false false false false false)
  | x08 => Some (template "SHR" 3 2
      ["DEST"; "COUNT"] ["wreg"; "breg/#count"]
      "direct" "LOGICAL RIGHT SHIFT WORD."
      false false false false false)
  | x09 => Some (template "SHL" 3 2
      ["DEST"; "COUNT"] ["wreg"; "breg/#count"]
      "direct" "SHIFT WORD LEFT."
      false false false false false)
  | x0a => Some (template "SHRA" 3 2
      ["DEST"; "COUNT"] ["wreg"; "breg/#count"]
      "direct" "ARITHMETIC RIGHT SHIFT WORD."
      false false false false false)
  | x0b => Some (template "XCH" 4 2
      ["DEST"; "SRC"] ["wreg"; "waop"]
      "indexed" "EXCHANGE WORD"
      true false false false false)
  | x0c => Some (template "SHRL" 3 2
      ["DEST"; "COUNT"] ["lreg"; "breg/#count"]
      "direct" "LOGICAL RIGHT SHIFT DOUBLE-WORD."
      false false false false false)
  | x0d => Some (template "SHLL" 3 2
      ["DEST"; "COUNT"] ["lreg"; "breg/#count"]
      "direct" "SHIFT DOUBLE-WORD LEFT."
      false false false false false)
  | x0e => Some (template "SHRAL" 3 2
      ["DEST"; "COUNT"] ["lreg"; "breg/#count"]
      "direct" "ARITHMETIC RIGHT SHIFT DOUBLEWORD."
      false false false false false)
  | x0f => Some (template "NORML" 3 2
      ["SRC"; "DEST"] ["lreg"; "breg"]
      "direct" "NORMALIZE LONG-INTEGER."
      false false false false false)
  | x10 => Some (template "Reserved" 1 0
      [] []
      EmptyString EmptyString
      false false false false true)
  | x11 => Some (template "CLRB" 2 1
      ["DEST"] ["breg"]
      "direct" "CLEAR BYTE."
      false false false false false)
  | x12 => Some (template "NOTB" 2 1
      ["DEST"] ["breg"]
      "direct" "COMPLEMENT BYTE."
      false false false false false)
  | x13 => Some (template "NEGB" 2 1
      ["DEST"] ["breg"]
      "direct" "NEGATE SHORT-INTEGER."
      false false false false false)
  | x14 => Some (template "XCHB" 3 2
      ["DEST"; "SRC"] ["breg"; "baop"]
      "direct" "EXCHANGE BYTE."
      false false false false false)
  | x15 => Some (template "DECB" 2 1
      ["DEST"] ["breg"]
      "direct" "DECREMENT BYTE."
      false false false false false)
  | x16 => Some (template "EXTB" 2 1
      ["DEST"] ["wreg"]
      "direct" "SIGN-EXTEND SHORT-INTEGER INTO INTEGER."
      false false false false false)
  | x17 => Some (template "INCB" 2 1
      ["DEST"] ["breg"]
      "direct" "INCREMENT BYTE."
      false false false false false)
  | x18 => Some (template "SHRB" 3 2
      ["DEST"; "COUNT"] ["breg"; "breg/#count"]
      "direct" "LOGICAL RIGHT SHIFT BYTE."
      false false false false false)
  | x19 => Some (template "SHLB" 3 2
      ["DEST"; "COUNT"] ["breg"; "breg/#count"]
      "direct" "SHIFT BYTE LEFT."
      false false false false false)
  | x1a => Some (template "SHRAB" 3 2
      ["DEST"; "COUNT"] ["breg"; "breg/#count"]
      "direct" EmptyString
      false false false false false)
  | x1b => Some (template "XCHB" 4 2
      ["DEST"; "COUNT"] ["breg"; "breg/#count"]
      "indexed" "ARITHMETIC RIGHT SHIFT BYTE."
      true false false false false)
  | x1c => Some (template "EST" 3 2
      ["SRC"; "DEST"] ["wreg"; "treg"]
      "extended-indirect" "EXTENDED STORE WORD."
      false false false false false)
  | x1d => Some (template "EST" 6 2
      ["SRC"; "DEST"] ["wreg"; "treg"]
      "extended-indexed" "EXTENDED STORE WORD."
      false false false false false)
  | x1e => Some (template "ESTB" 3 2
      ["SRC"; "DEST"] ["breg"; "treg"]
      "extended-indirect" "EXTENDED STORE BYTE."
      false false false false false)
  | x1f => Some (template "ESTB" 6 2
      ["SRC"; "DEST"] ["breg"; "treg"]
      "extended-indexed" "EXTENDED STORE BYTE."
      false false false false false)
  | x20 => Some (template "SJMP" 2 1
      ["ADDR"] ["cadd"]
      "indexed" "SHORT JUMP."
      false false false false false)
  | x21 => Some (template "SJMP" 2 1
      ["ADDR"] ["cadd"]
      "indexed" "SHORT JUMP."
      false false false false false)
  | x22 => Some (template "SJMP" 2 1
      ["ADDR"] ["cadd"]
      "indexed" "SHORT JUMP."
      false false false false false)
  | x23 => Some (template "SJMP" 2 1
      ["ADDR"] ["cadd"]
      "indexed" "SHORT JUMP."
      false false false false false)
  | x24 => Some (template "SJMP" 2 1
      ["ADDR"] ["cadd"]
      "indexed" "SHORT JUMP."
      false false false false false)
  | x25 => Some (template "SJMP" 2 1
      ["ADDR"] ["cadd"]
      "indexed" "SHORT JUMP."
      false false false false false)
  | x26 => Some (template "SJMP" 2 1
      ["ADDR"] ["cadd"]
      "indexed" "SHORT JUMP."
      false false false false false)
  | x27 => Some (template "SJMP" 2 1
      ["ADDR"] ["cadd"]
      "indexed" "SHORT JUMP."
      false false false false false)
  | x28 => Some (template "SCALL" 2 1
      ["ADDR"] ["cadd"]
      "indexed" "SHORT CALL."
      false false false false false)
  | x29 => Some (template "SCALL" 2 1
      ["ADDR"] ["cadd"]
      "indexed" "SHORT CALL."
      false false false false false)
  | x2a => Some (template "SCALL" 2 1
      ["ADDR"] ["cadd"]
      "indexed" "SHORT CALL."
      false false false false false)
  | x2b => Some (template "SCALL" 2 1
      ["ADDR"] ["cadd"]
      "indexed" "SHORT CALL."
      false false false false false)
  | x2c => Some (template "SCALL" 2 1
      ["ADDR"] ["cadd"]
      "indexed" "SHORT CALL."
      false false false false false)
  | x2d => Some (template "SCALL" 2 1
      ["ADDR"] ["cadd"]
      "indexed" "SHORT CALL."
      false false false false false)
  | x2e => Some (template "SCALL" 2 1
      ["ADDR"] ["cadd"]
      "indexed" "SHORT CALL."
      false false false false false)
  | x2f => Some (template "SCALL" 2 1
      ["ADDR"] ["cadd"]
      "indexed" "SHORT CALL."
      false false false false false)
  | x30 => Some (template "JBC" 3 3
      ["BYTEREG"; "BITNO"; "ADDR"] ["breg"; "bitno"; "cadd"]
      "indexed" "JUMP IF BIT IS CLEAR."
      false false false false false)
  | x31 => Some (template "JBC" 3 3
      ["BYTEREG"; "BITNO"; "ADDR"] ["breg"; "bitno"; "cadd"]
      "indexed" "JUMP IF BIT IS CLEAR."
      false false false false false)
  | x32 => Some (template "JBC" 3 3
      ["BYTEREG"; "BITNO"; "ADDR"] ["breg"; "bitno"; "cadd"]
      "indexed" "JUMP IF BIT IS CLEAR."
      false false false false false)
  | x33 => Some (template "JBC" 3 3
      ["BYTEREG"; "BITNO"; "ADDR"] ["breg"; "bitno"; "cadd"]
      "indexed" "JUMP IF BIT IS CLEAR."
      false false false false false)
  | x34 => Some (template "JBC" 3 3
      ["BYTEREG"; "BITNO"; "ADDR"] ["breg"; "bitno"; "cadd"]
      "indexed" "JUMP IF BIT IS CLEAR."
      false false false false false)
  | x35 => Some (template "JBC" 3 3
      ["BYTEREG"; "BITNO"; "ADDR"] ["breg"; "bitno"; "cadd"]
      "indexed" "JUMP IF BIT IS CLEAR."
      false false false false false)
  | x36 => Some (template "JBC" 3 3
      ["BYTEREG"; "BITNO"; "ADDR"] ["breg"; "bitno"; "cadd"]
      "indexed" "JUMP IF BIT IS CLEAR."
      false false false false false)
  | x37 => Some (template "JBC" 3 3
      ["BYTEREG"; "BITNO"; "ADDR"] ["breg"; "bitno"; "cadd"]
      "indexed" "JUMP IF BIT IS CLEAR."
      false false false false false)
  | x38 => Some (template "JBS" 3 3
      ["BYTEREG"; "BITNO"; "ADDR"] ["breg"; "bitno"; "cadd"]
      "indexed" "JUMP IF BIT IS SET."
      false false false false false)
  | x39 => Some (template "JBS" 3 3
      ["BYTEREG"; "BITNO"; "ADDR"] ["breg"; "bitno"; "cadd"]
      "indexed" "JUMP IF BIT IS SET."
      false false false false false)
  | x3a => Some (template "JBS" 3 3
      ["BYTEREG"; "BITNO"; "ADDR"] ["breg"; "bitno"; "cadd"]
      "indexed" "JUMP IF BIT IS SET."
      false false false false false)
  | x3b => Some (template "JBS" 3 3
      ["BYTEREG"; "BITNO"; "ADDR"] ["breg"; "bitno"; "cadd"]
      "indexed" "JUMP IF BIT IS SET."
      false false false false false)
  | x3c => Some (template "JBS" 3 3
      ["BYTEREG"; "BITNO"; "ADDR"] ["breg"; "bitno"; "cadd"]
      "indexed" "JUMP IF BIT IS SET."
      false false false false false)
  | x3d => Some (template "JBS" 3 3
      ["BYTEREG"; "BITNO"; "ADDR"] ["breg"; "bitno"; "cadd"]
      "indexed" "JUMP IF BIT IS SET."
      false false false false false)
  | x3e => Some (template "JBS" 3 3
      ["BYTEREG"; "BITNO"; "ADDR"] ["breg"; "bitno"; "cadd"]
      "indexed" "JUMP IF BIT IS SET."
      false false false false false)
  | x3f => Some (template "JBS" 3 3
      ["BYTEREG"; "BITNO"; "ADDR"] ["breg"; "bitno"; "cadd"]
      "indexed" "JUMP IF BIT IS SET."
      false false false false false)
  | x40 => Some (template "AND" 4 3
      ["DEST"; "SRC1"; "SRC2"] ["Dwreg"; "Swreg"; "waop"]
      "direct" "LOGICAL AND WORDS."
      false false false false false)
  | x41 => Some (template "AND" 5 3
      ["DEST"; "SRC1"; "SRC2"] ["Dwreg"; "Swreg"; "waop"]
      "immediate" "LOGICAL AND WORDS."
      false false false false false)
  | x42 => Some (template "AND" 4 3
      ["DEST"; "SRC1"; "SRC2"] ["Dwreg"; "Swreg"; "waop"]
      "indirect" "LOGICAL AND WORDS."
      false false false false false)
  | x43 => Some (template "AND" 5 3
      ["DEST"; "SRC1"; "SRC2"] ["Dwreg"; "Swreg"; "waop"]
      "indexed" "LOGICAL AND WORDS."
      true false false false false)
  | x44 => Some (template "ADD" 4 3
      ["DEST"; "SRC1"; "SRC2"] ["Dwreg"; "Swreg"; "waop"]
      "direct" "ADD WORDS."
      false false false false false)
  | x45 => Some (template "ADD" 5 3
      ["DEST"; "SRC1"; "SRC2"] ["Dwreg"; "Swreg"; "waop"]
      "immediate" "ADD WORDS."
      false false false false false)
  | x46 => Some (template "ADD" 4 3
      ["DEST"; "SRC1"; "SRC2"] ["Dwreg"; "Swreg"; "waop"]
      "indirect" "ADD WORDS."
      false false false false false)
  | x47 => Some (template "ADD" 5 3
      ["DEST"; "SRC1"; "SRC2"] ["Dwreg"; "Swreg"; "waop"]
      "indexed" "ADD WORDS."
      true false false false false)
  | x48 => Some (template "SUB" 4 3
      ["DEST"; "SRC1"; "SRC2"] ["Dwreg"; "Swreg"; "waop"]
      "direct" "SUBTRACT WORDS."
      false false false false false)
  | x49 => Some (template "SUB" 5 3
      ["DEST"; "SRC1"; "SRC2"] ["Dwreg"; "Swreg"; "waop"]
      "immediate" "SUBTRACT WORDS."
      false false false false false)
  | x4a => Some (template "SUB" 4 3
      ["DEST"; "SRC1"; "SRC2"] ["Dwreg"; "Swreg"; "waop"]
      "indirect" "SUBTRACT WORDS."
      false false false false false)
  | x4b => Some (template "SUB" 5 3
      ["DEST"; "SRC1"; "SRC2"] ["Dwreg"; "Swreg"; "waop"]
      "indexed" "SUBTRACT WORDS."
      true false false false false)
  | x4c => Some (template "MULU" 4 3
      ["DEST"; "SRC1"; "SRC2"] ["lreg"; "wreg"; "waop"]
      "direct" "MULTIPLY WORDS, UNSIGNED."
      false false false false false)
  | x4d => Some (template "MULU" 5 3
      ["DEST"; "SRC1"; "SRC2"] ["lreg"; "wreg"; "waop"]
      "immediate" "MULTIPLY WORDS, UNSIGNED."
      false false false false false)
  | x4e => Some (template "MULU" 4 3
      ["DEST"; "SRC1"; "SRC2"] ["lreg"; "wreg"; "waop"]
      "indirect" "MULTIPLY WORDS, UNSIGNED."
      false false false false false)
  | x4f => Some (template "MULU" 5 3
      ["DEST"; "SRC1"; "SRC2"] ["lreg"; "wreg"; "waop"]
      "indexed" "MULTIPLY WORDS, UNSIGNED."
      true false false false false)
  | x50 => Some (template "ANDB" 4 3
      ["DEST"; "SRC1"; "SRC2"] ["Dbreg"; "Sbreg"; "baop"]
      "direct" "LOGICAL AND BYTES."
      false false false false false)
  | x51 => Some (template "ANDB" 4 3
      ["DEST"; "SRC1"; "SRC2"] ["Dbreg"; "Sbreg"; "baop"]
      "immediate" "LOGICAL AND BYTES."
      false false false false false)
  | x52 => Some (template "ANDB" 4 3
      ["DEST"; "SRC1"; "SRC2"] ["Dbreg"; "Sbreg"; "baop"]
      "indirect" "LOGICAL AND BYTES."
      false false false false false)
  | x53 => Some (template "ANDB" 5 3
      ["DEST"; "SRC1"; "SRC2"] ["Dbreg"; "Sbreg"; "baop"]
      "indexed" "LOGICAL AND BYTES."
      true false false false false)
  | x54 => Some (template "ADDB" 4 3
      ["DEST"; "SRC1"; "SRC2"] ["Dbreg"; "Sbreg"; "baop"]
      "direct" "ADD BYTES."
      false false false false false)
  | x55 => Some (template "ADDB" 4 3
      ["DEST"; "SRC1"; "SRC2"] ["Dbreg"; "Sbreg"; "baop"]
      "immediate" "ADD BYTES."
      false false false false false)
  | x56 => Some (template "ADDB" 4 3
      ["DEST"; "SRC1"; "SRC2"] ["Dbreg"; "Sbreg"; "baop"]
      "indirect" "ADD BYTES."
      false false false false false)
  | x57 => Some (template "ADDB" 5 3
      ["DEST"; "SRC1"; "SRC2"] ["Dbreg"; "Sbreg"; "baop"]
      "indexed" "ADD BYTES."
      true false false false false)
  | x58 => Some (template "SUBB" 4 3
      ["DEST"; "SRC1"; "SRC2"] ["Dbreg"; "Sbreg"; "baop"]
      "direct" "SUBTRACT BYTES."
      false false false false false)
  | x59 => Some (template "SUBB" 4 3
      ["DEST"; "SRC1"; "SRC2"] ["Dbreg"; "Sbreg"; "baop"]
      "immediate" "SUBTRACT BYTES."
      false false false false false)
  | x5a => Some (template "SUBB" 4 3
      ["DEST"; "SRC1"; "SRC2"] ["Dbreg"; "Sbreg"; "baop"]
      "indirect" "SUBTRACT BYTES."
      false false false false false)
  | x5b => Some (template "SUBB" 5 3
      ["DEST"; "SRC1"; "SRC2"] ["Dbreg"; "Sbreg"; "baop"]
      "indexed" "SUBTRACT BYTES."
      true false false false false)
  | x5c => Some (template "MULUB" 4 3
      ["DEST"; "SRC1"; "SRC2"] ["wreg"; "breg"; "baop"]
      "direct" "MULTIPLY BYTES, UNSIGNED."
      false false false false false)
  | x5d => Some (template "MULUB" 4 3
      ["DEST"; "SRC1"; "SRC2"] ["wreg"; "breg"; "baop"]
      "immediate" "MULTIPLY BYTES, UNSIGNED."
      false false false false false)
  | x5e => Some (template "MULUB" 4 3
      ["DEST"; "SRC1"; "SRC2"] ["wreg"; "breg"; "baop"]
      "indirect" "MULTIPLY BYTES, UNSIGNED."
      false false false false false)
  | x5f => Some (template "MULUB" 5 3
      ["DEST"; "SRC1"; "SRC2"] ["wreg"; "breg"; "baop"]
      "indexed" "MULTIPLY BYTES, UNSIGNED."
      true false false false false)
  | x60 => Some (template "AND" 3 2
      ["DEST"; "SRC"] ["wreg"; "waop"]
      "direct" "LOGICAL AND WORDS."
      false false false false false)
  | x61 => Some (template "AND" 4 2
      ["DEST"; "SRC"] ["wreg"; "waop"]
      "immediate" "LOGICAL AND WORDS."
      false false false false false)
  | x62 => Some (template "AND" 3 2
      ["DEST"; "SRC"] ["wreg"; "waop"]
      "indirect" "LOGICAL AND WORDS."
      false false false false false)
  | x63 => Some (template "AND" 4 2
      ["DEST"; "SRC"] ["wreg"; "waop"]
      "indexed" "LOGICAL AND WORDS."
      true false false false false)
  | x64 => Some (template "ADD" 3 2
      ["DEST"; "SRC"] ["wreg"; "waop"]
      "direct" "ADD WORDS."
      false false false false false)
  | x65 => Some (template "ADD" 4 2
      ["DEST"; "SRC"] ["wreg"; "waop"]
      "immediate" "ADD WORDS."
      false false false false false)
  | x66 => Some (template "ADD" 3 2
      ["DEST"; "SRC"] ["wreg"; "waop"]
      "indirect" "ADD WORDS."
      false false false false false)
  | x67 => Some (template "ADD" 4 2
      ["DEST"; "SRC"] ["wreg"; "waop"]
      "indexed" "ADD WORDS."
      true false false false false)
  | x68 => Some (template "SUB" 3 2
      ["DEST"; "SRC"] ["wreg"; "waop"]
      "direct" "SUBTRACT WORDS."
      false false false false false)
  | x69 => Some (template "SUB" 4 2
      ["DEST"; "SRC"] ["wreg"; "waop"]
      "immediate" "SUBTRACT WORDS."
      false false false false false)
  | x6a => Some (template "SUB" 3 2
      ["DEST"; "SRC"] ["wreg"; "waop"]
      "indirect" "SUBTRACT WORDS."
      false false false false false)
  | x6b => Some (template "SUB" 4 2
      ["DEST"; "SRC"] ["wreg"; "waop"]
      "indexed" "SUBTRACT WORDS."
      true false false false false)
  | x6c => Some (template "MULU" 3 2
      ["DEST"; "SRC"] ["lreg"; "waop"]
      "direct" "MULTIPLY WORDS, UNSIGNED."
      false false false false false)
  | x6d => Some (template "MULU" 4 2
      ["DEST"; "SRC"] ["lreg"; "waop"]
      "immediate" "MULTIPLY WORDS, UNSIGNED."
      false false false false false)
  | x6e => Some (template "MULU" 3 2
      ["DEST"; "SRC"] ["lreg"; "waop"]
      "indirect" "MULTIPLY WORDS, UNSIGNED."
      false false false false false)
  | x6f => Some (template "MULU" 4 2
      ["DEST"; "SRC"] ["lreg"; "waop"]
      "indexed" "MULTIPLY WORDS, UNSIGNED."
      true false false false false)
  | x70 => Some (template "ANDB" 3 2
      ["DEST"; "SRC"] ["breg"; "baop"]
      "direct" "LOGICAL AND BYTES."
      false false false false false)
  | x71 => Some (template "ANDB" 3 2
      ["DEST"; "SRC"] ["breg"; "baop"]
      "immediate" "LOGICAL AND BYTES."
      false false false false false)
  | x72 => Some (template "ANDB" 3 2
      ["DEST"; "SRC"] ["breg"; "baop"]
      "indirect" "LOGICAL AND BYTES."
      false false false false false)
  | x73 => Some (template "ANDB" 4 2
      ["DEST"; "SRC"] ["breg"; "baop"]
      "indexed" "LOGICAL AND BYTES."
      true false false false false)
  | x74 => Some (template "ADDB" 3 2
      ["DEST"; "SRC"] ["breg"; "baop"]
      "direct" "ADD BYTES."
      false false false false false)
  | x75 => Some (template "ADDB" 3 2
      ["DEST"; "SRC"] ["breg"; "baop"]
      "immediate" "ADD BYTES."
      false false false false false)
  | x76 => Some (template "ADDB" 3 2
      ["DEST"; "SRC"] ["breg"; "baop"]
      "indirect" "ADD BYTES."
      false false false false false)
  | x77 => Some (template "ADDB" 4 2
      ["DEST"; "SRC"] ["breg"; "baop"]
      "indexed" "ADD BYTES."
      true false false false false)
  | x78 => Some (template "SUBB" 3 2
      ["DEST"; "SRC"] ["breg"; "baop"]
      "direct" "SUBTRACT BYTES."
      false false false false false)
  | x79 => Some (template "SUBB" 3 2
      ["DEST"; "SRC"] ["breg"; "baop"]
      "immediate" "SUBTRACT BYTES."
      false false false false false)
  | x7a => Some (template "SUBB" 3 2
      ["DEST"; "SRC"] ["breg"; "baop"]
      "indirect" "SUBTRACT BYTES."
      false false false false false)
  | x7b => Some (template "SUBB" 4 2
      ["DEST"; "SRC"] ["breg"; "baop"]
      "indexed" "SUBTRACT BYTES."
      true false false false false)
  | x7c => Some (template "MULUB" 3 2
      ["DEST"; "SRC"] ["wreg"; "baop"]
      "direct" "MULTIPLY BYTES"
      false false false false false)
  | x7d => Some (template "MULUB" 3 2
      ["DEST"; "SRC"] ["wreg"; "baop"]
      "immediate" "MULTIPLY BYTES"
      false false false false false)
  | x7e => Some (template "MULUB" 3 2
      ["DEST"; "SRC"] ["wreg"; "baop"]
      "indirect" "MULTIPLY BYTES"
      false false false false false)
  | x7f => Some (template "MULUB" 4 2
      ["DEST"; "SRC"] ["wreg"; "baop"]
      "indexed" "MULTIPLY BYTES"
      true false false false false)
  | x80 => Some (template "OR" 3 2
      ["DEST"; "SRC"] ["wreg"; "waop"]
      "direct" "LOGICAL OR WORDS."
      false false false false false)
  | x81 => Some (template "OR" 4 2
      ["DEST"; "SRC"] ["wreg"; "waop"]
      "immediate" "LOGICAL OR WORDS."
      false false false false false)
  | x82 => Some (template "OR" 3 2
      ["DEST"; "SRC"] ["wreg"; "waop"]
      "indirect" "LOGICAL OR WORDS."
      false false false false false)
  | x83 => Some (template "OR" 4 2
      ["DEST"; "SRC"] ["wreg"; "waop"]
      "indexed" "LOGICAL OR WORDS."
      true false false false false)
  | x84 => Some (template "XOR" 3 2
      ["DEST"; "SRC"] ["wreg"; "waop"]
      "direct" "LOGICAL EXCLUSIVE-OR WORDS"
      false false false false false)
  | x85 => Some (template "XOR" 4 2
      ["DEST"; "SRC"] ["wreg"; "waop"]
      "immediate" "LOGICAL EXCLUSIVE-OR WORDS"
      false false false false false)
  | x86 => Some (template "XOR" 3 2
      ["DEST"; "SRC"] ["wreg"; "waop"]
      "indirect" "LOGICAL EXCLUSIVE-OR WORDS"
      false false false false false)
  | x87 => Some (template "XOR" 4 2
      ["DEST"; "SRC"] ["wreg"; "waop"]
      "indexed" "LOGICAL EXCLUSIVE-OR WORDS"
      true false false false false)
  | x88 => Some (template "CMP" 3 2
      ["DEST"; "SRC"] ["wreg"; "waop"]
      "direct" "COMPARE WORDS."
      false false false false false)
  | x89 => Some (template "CMP" 4 2
      ["DEST"; "SRC"] ["wreg"; "waop"]
      "immediate" "COMPARE WORDS."
      false false false false false)
  | x8a => Some (template "CMP" 3 2
      ["DEST"; "SRC"] ["wreg"; "waop"]
      "indirect" "COMPARE WORDS."
      false false false false false)
  | x8b => Some (template "CMP" 4 2
      ["DEST"; "SRC"] ["wreg"; "waop"]
      "indexed" "COMPARE WORDS."
      true false false false false)
  | x8c => Some (template "DIVU" 3 2
      ["DEST"; "SRC"] ["lreg"; "waop"]
      "direct" "DIVIDE WORDS, UNSIGNED."
      false false false false false)
  | x8d => Some (template "DIVU" 4 2
      ["DEST"; "SRC"] ["lreg"; "waop"]
      "immediate" "DIVIDE WORDS, UNSIGNED."
      false false false false false)
  | x8e => Some (template "DIVU" 3 2
      ["DEST"; "SRC"] ["lreg"; "waop"]
      "indirect" "DIVIDE WORDS, UNSIGNED."
      false false false false false)
  | x8f => Some (template "DIVU" 4 2
      ["DEST"; "SRC"] ["lreg"; "waop"]
      "indexed" "DIVIDE WORDS, UNSIGNED."
      true false false false false)
  | x90 => Some (template "ORB" 3 2
      ["DEST"; "SRC"] ["breg"; "baop"]
      "direct" "LOGICAL OR BYTES."
      false false false false false)
  | x91 => Some (template "ORB" 3 2
      ["DEST"; "SRC"] ["breg"; "baop"]
      "immediate" "LOGICAL OR BYTES."
      false false false false false)
  | x92 => Some (template "ORB" 3 2
      ["DEST"; "SRC"] ["breg"; "baop"]
      "indirect" "LOGICAL OR BYTES."
      false false false false false)
  | x93 => Some (template "ORB" 4 2
      ["DEST"; "SRC"] ["breg"; "baop"]
      "indexed" "LOGICAL OR BYTES."
      true false false false false)
  | x94 => Some (template "XORB" 3 2
      ["DEST"; "SRC"] ["breg"; "baop"]
      "direct" "LOGICAL EXCLUSIVE-OR BYTES."
      false false false false false)
  | x95 => Some (template "XORB" 3 2
      ["DEST"; "SRC"] ["breg"; "baop"]
      "immediate" "LOGICAL EXCLUSIVE-OR BYTES."
      false false false false false)
  | x96 => Some (template "XORB" 3 2
      ["DEST"; "SRC"] ["breg"; "baop"]
      "indirect" "LOGICAL EXCLUSIVE-OR BYTES."
      false false false false false)
  | x97 => Some (template "XORB" 4 2
      ["DEST"; "SRC"] ["breg"; "baop"]
      "indexed" "LOGICAL EXCLUSIVE-OR BYTES."
      true false false false false)
  | x98 => Some (template "CMPB" 3 2
      ["DEST"; "SRC"] ["breg"; "baop"]
      "direct" "COMPARE BYTES."
      false false false false false)
  | x99 => Some (template "CMPB" 3 2
      ["DEST"; "SRC"] ["breg"; "baop"]
      "immediate" "COMPARE BYTES."
      false false false false false)
  | x9a => Some (template "CMPB" 3 2
      ["DEST"; "SRC"] ["breg"; "baop"]
      "indirect" "COMPARE BYTES."
      false false false false false)
  | x9b => Some (template "CMPB" 4 2
      ["DEST"; "SRC"] ["breg"; "baop"]
      "indexed" "COMPARE BYTES."
      true false false false false)
  | x9c => Some (template "DIVUB" 3 2
      ["DEST"; "SRC"] ["wreg"; "baop"]
      "direct" "DIVIDE BYTES, UNSIGNED."
      false false false false false)
  | x9d => Some (template "DIVUB" 3 2
      ["DEST"; "SRC"] ["wreg"; "baop"]
      "immediate" "DIVIDE BYTES, UNSIGNED."
      false false false false false)
  | x9e => Some (template "DIVUB" 3 2
      ["DEST"; "SRC"] ["wreg"; "baop"]
      "indirect" "DIVIDE BYTES, UNSIGNED."
      false false false false false)
  | x9f => Some (template "DIVUB" 4 2
      ["DEST"; "SRC"] ["wreg"; "baop"]
      "indexed" "DIVIDE BYTES, UNSIGNED."
      true false false false false)
  | xa0 => Some (template "LD" 3 2
      ["DEST"; "SRC"] ["wreg"; "waop"]
      "direct" "LOAD WORD."
      false false false false false)
  | xa1 => Some (template "LD" 4 2
      ["DEST"; "SRC"] ["wreg"; "waop"]
      "immediate" "LOAD WORD."
      false false false false false)
  | xa2 => Some (template "LD" 3 2
      ["DEST"; "SRC"] ["wreg"; "waop"]
      "indirect" "LOAD WORD."
      false false false false false)
  | xa3 => Some (template "LD" 4 2
      ["DEST"; "SRC"] ["wreg"; "waop"]
      "indexed" "LOAD WORD."
      true false false false false)
  | xa4 => Some (template "ADDC" 3 2
      ["DEST"; "SRC"] ["wreg"; "waop"]
      "direct" "ADD WORDS WITH CARRY."
      false false false false false)
  | xa5 => Some (template "ADDC" 4 2
      ["DEST"; "SRC"] ["wreg"; "waop"]
      "immediate" "ADD WORDS WITH CARRY."
      false false false false false)
  | xa6 => Some (template "ADDC" 3 2
      ["DEST"; "SRC"] ["wreg"; "waop"]
      "indirect" "ADD WORDS WITH CARRY."
      false false false false false)
  | xa7 => Some (template "ADDC" 4 2
      ["DEST"; "SRC"] ["wreg"; "waop"]
      "indexed" "ADD WORDS WITH CARRY."
      true false false false false)
  | xa8 => Some (template "SUBC" 3 2
      ["DEST"; "SRC"] ["wreg"; "waop"]
      "direct" "SUBTRACT WORDS WITH BORROW."
      false false false false false)
  | xa9 => Some (template "SUBC" 4 2
      ["DEST"; "SRC"] ["wreg"; "waop"]
      "immediate" "SUBTRACT WORDS WITH BORROW."
      false false false false false)
  | xaa => Some (template "SUBC" 3 2
      ["DEST"; "SRC"] ["wreg"; "waop"]
      "indirect" "SUBTRACT WORDS WITH BORROW."
      false false false false false)
  | xab => Some (template "SUBC" 4 2
      ["DEST"; "SRC"] ["wreg"; "waop"]
      "indexed" "SUBTRACT WORDS WITH BORROW."
      true false false false false)
  | xac => Some (template "LDBZE" 3 2
      ["DEST"; "SRC"] ["wreg"; "baop"]
      "direct" "LOAD BYTE ZERO-EXTENDED."
      false false false false false)
  | xad => Some (template "LDBZE" 3 2
      ["DEST"; "SRC"] ["wreg"; "baop"]
      "immediate" "LOAD BYTE ZERO-EXTENDED."
      false false false false false)
  | xae => Some (template "LDBZE" 3 2
      ["DEST"; "SRC"] ["wreg"; "baop"]
      "indirect" "LOAD BYTE ZERO-EXTENDED."
      false false false false false)
  | xaf => Some (template "LDBZE" 4 2
      ["DEST"; "SRC"] ["wreg"; "baop"]
      "indexed" "LOAD BYTE ZERO-EXTENDED."
      true false false false false)
  | xb0 => Some (template "LDB" 3 2
      ["DEST"; "SRC"] ["breg"; "baop"]
      "direct" "LOAD BYTE."
      false false false false false)
  | xb1 => Some (template "LDB" 3 2
      ["DEST"; "SRC"] ["breg"; "baop"]
      "immediate" "LOAD BYTE."
      false false false false false)
  | xb2 => Some (template "LDB" 3 2
      ["DEST"; "SRC"] ["breg"; "baop"]
      "indirect" "LOAD BYTE."
      false false false false false)
  | xb3 => Some (template "LDB" 4 2
      ["DEST"; "SRC"] ["breg"; "baop"]
      "indexed" "LOAD BYTE."
      true false false false false)
  | xb4 => Some (template "ADDCB" 3 2
      ["DEST"; "SRC"] ["breg"; "baop"]
      "direct" "ADD BYTES WITH CARRY."
      false false false false false)
  | xb5 => Some (template "ADDCB" 3 2
      ["DEST"; "SRC"] ["breg"; "baop"]
      "immediate" "ADD BYTES WITH CARRY."
      false false false false false)
  | xb6 => Some (template "ADDCB" 3 2
      ["DEST"; "SRC"] ["breg"; "baop"]
      "indirect" "ADD BYTES WITH CARRY."
      false false false false false)
  | xb7 => Some (template "ADDCB" 4 2
      ["DEST"; "SRC"] ["breg"; "baop"]
      "indexed" "ADD BYTES WITH CARRY."
      true false false false false)
  | xb8 => Some (template "SUBCB" 3 2
      ["DEST"; "SRC"] ["breg"; "baop"]
      "direct" "SUBTRACT BYTES WITH BORROW."
      false false false false false)
  | xb9 => Some (template "SUBCB" 3 2
      ["DEST"; "SRC"] ["breg"; "baop"]
      "immediate" "SUBTRACT BYTES WITH BORROW."
      false false false false false)
  | xba => Some (template "SUBCB" 3 2
      ["DEST"; "SRC"] ["breg"; "baop"]
      "indirect" "SUBTRACT BYTES WITH BORROW."
      false false false false false)
  | xbb => Some (template "SUBCB" 4 2
      ["DEST"; "SRC"] ["breg"; "baop"]
      "indexed" "SUBTRACT BYTES WITH BORROW."
      true false false false false)
  | xbc => Some (template "LDBSE" 3 2
      ["DEST"; "SRC"] ["wreg"; "baop"]
      "direct" "LOAD BYTE SIGN-EXTENDED."
      false false false false false)
  | xbd => Some (template "LDBSE" 3 2
      ["DEST"; "SRC"] ["wreg"; "baop"]
      "immediate" "LOAD BYTE SIGN-EXTENDED."
      false false false false false)
  | xbe => Some (template "LDBSE" 3 2
      ["DEST"; "SRC"] ["wreg"; "baop"]
      "indirect" "LOAD BYTE SIGN-EXTENDED."
      false false false false false)
  | xbf => Some (template "LDBSE" 4 2
      ["DEST"; "SRC"] ["wreg"; "baop"]
      "indexed" "LOAD BYTE SIGN-EXTENDED."
      true false false false false)
  | xc0 => Some (template "ST" 3 2
      ["SRC"; "DEST"] ["wreg"; "waop"]
      "direct" "STORE WORD."
      false false false false false)
  | xc1 => Some (template "BMOV" 3 2
      ["PTRS"; "CNTREG"] ["lreg"; "wreg"]
      EmptyString "BLOCK MOVE."
      false false false false false)
  | xc2 => Some (template "ST" 3 2
      ["SRC"; "DEST"] ["wreg"; "waop"]
      "indirect" "STORE WORD."
      false false false false false)
  | xc3 => Some (template "ST" 4 2
      ["SRC"; "DEST"] ["wreg"; "waop"]
      "indexed" "STORE WORD."
      true false false false false)
  | xc4 => Some (template "STB" 3 2
      ["SRC"; "DEST"] ["breg"; "baop"]
      "direct" "STORE BYTE."
      false false false false false)
  | xc5 => Some (template "CMPL" 3 2
      ["DEST"; "SRC"] ["Dlreg"; "Slreg"]
      "direct" "COMPARE LONG."
      false false false false false)
  | xc6 => Some (template "STB" 3 2
      ["SRC"; "DEST"] ["breg"; "baop"]
      "indirect" "STORE BYTE."
      false false false false false)
  | xc7 => Some (template "STB" 4 2
      ["SRC"; "DEST"] ["breg"; "baop"]
      "indexed" "STORE BYTE."
      true false false false false)
  | xc8 => Some (template "PUSH" 2 1
      ["SRC"] ["waop"]
      "direct" "PUSH WORD."
      false false false false false)
  | xc9 => Some (template "PUSH" 3 1
      ["SRC"] ["waop"]
      "immediate" "PUSH WORD."
      false false false false false)
  | xca => Some (template "PUSH" 2 1
      ["SRC"] ["waop"]
      "indirect" "PUSH WORD."
      false false false false false)
  | xcb => Some (template "PUSH" 3 1
      ["SRC"] ["waop"]
      "indexed" "PUSH WORD."
      true false false false false)
  | xcc => Some (template "POP" 2 1
      ["DEST"] ["waop"]
      "direct" "POP WORD."
      false false false false false)
  | xcd => Some (template "BMOVI" 3 2
      ["PTRS"; "CNTREG"] ["lreg"; "wreg"]
      "indirect" "INTERRUPTIBLE BLOCK MOVE."
      false false false false false)
  | xce => Some (template "POP" 2 1
      ["DEST"] ["waop"]
      "indirect" "POP WORD."
      false false false false false)
  | xcf => Some (template "POP" 3 1
      ["DEST"] ["waop"]
      "indexed" "POP WORD."
      true false false false false)
  | xd0 => Some (template "JNST" 2 1
      ["ADDR"] ["cadd"]
      "indexed" "JUMP IF STICKY BIT FLAG IS CLEAR."
      false false false false false)
  | xd1 => Some (template "JNH" 2 1
      ["ADDR"] ["cadd"]
      "indexed" "JUMP IF NOT HIGHER (UNSIGNED)."
      false false false false false)
  | xd2 => Some (template "JGT" 2 1
      ["ADDR"] ["cadd"]
      "indexed" "JUMP IF SIGNED GREATER THAN."
      false false false false false)
  | xd3 => Some (template "JNC" 2 1
      ["ADDR"] ["cadd"]
      "indexed" "JUMP IF CARRY FLAG IS CLEAR."
      false false false false false)
  | xd4 => Some (template "JNVT" 2 1
      ["ADDR"] ["cadd"]
      "indexed" "JUMP IF OVERFLOW-TRAP FLAG IS CLEAR."
      false false false false false)
  | xd5 => Some (template "JNV" 2 1
      ["ADDR"] ["cadd"]
      "indexed" "JUMP IF OVERFLOW FLAG IS CLEAR."
      false false false false false)
  | xd6 => Some (template "JGE" 2 1
      ["ADDR"] ["cadd"]
      "indexed" "JUMP IF SIGNED GREATER THAN OR EQUAL."
      false false false false false)
  | xd7 => Some (template "JNE" 2 1
      ["ADDR"] ["cadd"]
      "indexed" "JUMP IF NOT EQUAL."
      false false false false false)
  | xd8 => Some (template "JST" 2 1
      ["ADDR"] ["cadd"]
      "indexed" "JUMP IF STICKY BIT FLAG IS SET."
      false false false false false)
  | xd9 => Some (template "JH" 2 1
      ["ADDR"] ["cadd"]
      "indexed" "JUMP IF HIGHER (UNSIGNED)."
      false false false false false)
  | xda => Some (template "JLE" 2 1
      ["ADDR"] ["cadd"]
      "indexed" "JUMP IF SIGNED LESS THAN OR EQUAL."
      false false false false false)
  | xdb => Some (template "JC" 2 1
      ["ADDR"] ["cadd"]
      "indexed" "JUMP IF CARRY FLAG IS SET."
      false false false false false)
  | xdc => Some (template "JVT" 2 1
      ["ADDR"] ["cadd"]
      "indexed" "JUMP IF OVERFLOW-TRAP FLAG IS SET."
      false false false false false)
  | xdd => Some (template "JV" 2 1
      ["ADDR"] ["cadd"]
      "indexed" "JUMP IF OVERFLOW FLAG IS SET."
      false false false false false)
  | xde => Some (template "JLT" 2 1
      ["ADDR"] ["cadd"]
      "indexed" "JUMP IF SIGNED LESS THAN."
      false false false false false)
  | xdf => Some (template "JE" 2 1
      ["ADDR"] ["cadd"]
      "indexed" "JUMP IF EQUAL."
      false false false false false)
  | xe0 => Some (template "DJNZ" 3 1
      ["BREG"; "ADDR"] ["breg"; "cadd"]
      "indexed" "DECREMENT AND JUMP IF NOT ZERO."
      false false false false false)
  | xe1 => Some (template "DJNZW" 3 1
      ["WREG"; "ADDR"] ["wreg"; "cadd"]
      "indexed" "DECREMENT AND JUMP IF NOT ZERO WORD."
      false false false false false)
  | xe2 => Some (template "TIJMP" 4 3
      ["TBASE"; "INDEX"; "#MASK"] ["TBASE"; "INDEX"; "#MASK"]
      "indexed" "TABLE INDIRECT JUMP."
      false false false false false)
  | xe3 => Some (template "EBR" 2 1
      ["ADDR"] ["cadd"]
      "extended-indirect" "EXTENDED BRANCH INDIRECT."
      false false false false false)
  | xe4 => Some (template "EBMOVI" 3 2
      ["PTRS"; "CNTREG"] ["prt2_reg"; "wreg"]
      "extended-indirect" "EXTENDED INTERRUPTIBLE BLOCK MOVE."
      false false false false false)
  | xe5 => Some (template "Reserved" 1 0
      [] []
      EmptyString EmptyString
      false false false false true)
  | xe6 => Some (template "EJMP" 4 1
      ["ADDR"] ["cadd"]
      "extended-indexed" "EXTENDED JUMP."
      false false false false false)
  | xe7 => Some (template "LJMP" 3 1
      ["ADDR"] ["cadd"]
      "long-indexed" "LONG JUMP."
      false false false false false)
  | xe8 => Some (template "ELD" 3 2
      ["DEST"; "SRC"] ["wreg"; "treg"]
      "extended-indirect" "EXTENDED LOAD WORD."
      false false false false false)
  | xe9 => Some (template "ELD" 6 2
      ["DEST"; "SRC"] ["wreg"; "treg"]
      "extended-indexed" "EXTENDED LOAD WORD."
      false false false false false)
  | xea => Some (template "ELDB" 3 2
      ["DEST"; "SRC"] ["breg"; "treg"]
      "extended-indirect" "EXTENDED LOAD BYTE."
      false false false false false)
  | xeb => Some (template "ELDB" 6 2
      ["DEST"; "SRC"] ["breg"; "treg"]
      "extended-indexed" "EXTENDED LOAD BYTE."
      false false false false false)
  | xec => Some (template "DPTS" 1 0
      [] []
      "direct" "DISABLE PERIPHERAL TRANSACTION SERVER (PTS)."
      false false false false false)
  | xed => Some (template "EPTS" 1 0
      [] []
      "direct" "ENABLE PERIPHERAL TRANSACTION SERVER (PTS)."
      false false false false false)
  | xee => Some (template "Reserved" 1 0
      [] []
      EmptyString EmptyString
      false false false false true)
  | xef => Some (template "LCALL" 3 1
      ["ADDR"] ["cadd"]
      "long-indexed" "LONG CALL."
      false false false false false)
  | xf0 => Some (template "RET" 1 0
      [] []
      "indirect" "RETURN FROM SUBROUTINE."
      false false false false false)
  | xf1 => Some (template "ECALL" 4 1
      ["ADDR"] ["cadd"]
      "extended-indexed" "EXTENDED CALL."
      false false false false false)
  | xf2 => Some (template "PUSHF" 1 0
      [] []
      "direct" "PUSH FLAGS."
      false false false false false)
  | xf3 => Some (template "POPF" 1 0
      [] []
      "direct" "POP FLAGS."
      false false false false false)
  | xf4 => Some (template "PUSHA" 1 0
      [] []
      "direct" "PUSH ALL."
      false false false false false)
  | xf5 => Some (template "POPA" 1 0
      [] []
      "direct" "POP ALL."
      false false false false false)
  | xf6 => Some (template "IDLPD" 1 0
      [] []
      "immediate" "IDLE/POWERDOWN."
      false false false false false)
  | xf7 => Some (template "TRAP" 1 0
      [] []
      "direct" "SOFTWARE TRAP."
      false false false false false)
  | xf8 => Some (template "CLRC" 1 0
      [] []
      "direct" "CLEAR CARRY FLAG."
      false false false false false)
  | xf9 => Some (template "SETC" 1 0
      [] []
      "direct" "SET CARRY FLAG."
      false false false false false)
  | xfa => Some (template "DI" 1 0
      [] []
      "direct" "DISABLE INTERRUPTS."
      false false false false false)
  | xfb => Some (template "EI" 1 0
      [] []
      "direct" "ENABLE INTERRUPTS."
      false false false false false)
  | xfc => Some (template "CLRVT" 1 0
      [] []
      "direct" "CLEAR OVERFLOW-TRAP FLAG."
      false false false false false)
  | xfd => Some (template "NOP" 1 0
      [] []
      "direct" "NO OPERATION."
      false false false false false)
  | xfe => Some (template "(Note 2) Prefix for signed multiplication and division." 1 0
      [] []
      EmptyString EmptyString
      false false true false false)
  | xff => Some (template "RST" 1 0
      [] []
      "direct" "RESET SYSTEM."
      false false false false false)
  end.

Definition signedInstructions (op : byte) : option Instruction :=
  match op with
  | x1c => Some (template "MYSTERY" 4 3
      ["DEST"; "SRC1"; "SRC2"] ["lreg"; "wreg"; "waop"]
      "indirect" "MYSTERY."
      false false false false false)
  | x4c => Some (template "MUL" 4 3
      ["DEST"; "SRC1"; "SRC2"] ["lreg"; "wreg"; "waop"]
      "direct" "MULTIPLY INTEGERS."
      false false false false false)
  | x4d => Some (template "MUL" 5 3
      ["DEST"; "SRC1"; "SRC2"] ["lreg"; "wreg"; "waop"]
      "immediate" "MULTIPLY INTEGERS."
      false false false false false)
  | x4e => Some (template "MUL" 4 3
      ["DEST"; "SRC1"; "SRC2"] ["lreg"; "wreg"; "waop"]
      "indirect" "MULTIPLY INTEGERS."
      false false false false false)
  | x4f => Some (template "MUL" 5 3
      ["DEST"; "SRC1"; "SRC2"] ["lreg"; "wreg"; "waop"]
      "indexed" "MULTIPLY INTEGERS."
      true false false false false)
  | x5c => Some (template "MULB" 4 3
      ["DEST"; "SRC1"; "SRC2"] ["wreg"; "breg"; "baop"]
      "direct" "MULTIPLY SHORT-INTEGERS."
      false false false false false)
  | x5d => Some (template "MULB" 4 3
      ["DEST"; "SRC1"; "SRC2"] ["wreg"; "breg"; "baop"]
      "immediate" "MULTIPLY SHORT-INTEGERS."
      false false false false false)
  | x5e => Some (template "MULB" 4 3
      ["DEST"; "SRC1"; "SRC2"] ["wreg"; "breg"; "baop"]
      "indirect" "MULTIPLY SHORT-INTEGERS."
      false false false false false)
  | x5f => Some (template "MULB" 5 3
      ["DEST"; "SRC1"; "SRC2"] ["wreg"; "breg"; "baop"]
      "indexed" "MULTIPLY SHORT-INTEGERS."
      true false false false false)
  | x6c => Some (template "MUL" 3 2
      ["DEST"; "SRC"] ["lreg"; "waop"]
      "direct" "MULTIPLY INTEGERS."
      false false false false false)
  | x6d => Some (template "MUL" 4 2
      ["DEST"; "SRC"] ["lreg"; "waop"]
      "immediate" "MULTIPLY INTEGERS."
      false false false false false)
  | x6e => Some (template "MUL" 3 2
      ["DEST"; "SRC"] ["lreg"; "waop"]
      "indirect" "MULTIPLY INTEGERS."
      false false false false false)
  | x6f => Some (template "MUL" 4 2
      ["DEST"; "SRC"] ["lreg"; "waop"]
      "indexed" "MULTIPLY INTEGERS."
      true false false false false)
  | x7c => Some (template "MULB" 3 2
      ["DEST"; "SRC"] ["wreg"; "baop"]
      "direct" "MULTIPLY SHORT-INTEGERS."
      false false false false false)
  | x7d => Some (template "MULB" 3 2
      ["DEST"; "SRC"] ["wreg"; "baop"]
      "immediate" "MULTIPLY SHORT-INTEGERS."
      false false false false false)
  | x7e => Some (template "MULB" 3 2
      ["DEST"; "SRC"] ["wreg"; "baop"]
      "indirect" "MULTIPLY SHORT-INTEGERS."
      false false false false false)
  | x7f => Some (template "MULB" 4 2
      ["DEST"; "SRC"] ["wreg"; "baop"]
      "indexed" "MULTIPLY SHORT-INTEGERS."
      true false false false false)
  | x8c => Some (template "DIV" 3 2
      ["DEST"; "SRC"] ["lreg"; "waop"]
      "direct" "DIVIDE INTEGERS."
      false false false false false)
  | x8d => Some (template "DIV" 4 2
      ["DEST"; "SRC"] ["lreg"; "waop"]
      "immediate" "DIVIDE INTEGERS."
      false false false false false)
  | x8e => Some (template "DIV" 3 2
      ["DEST"; "SRC"] ["lreg"; "waop"]
      "indirect" "DIVIDE INTEGERS."
      false false false false false)
  | x8f => Some (template "DIV" 4 2
      ["DEST"; "SRC"] ["lreg"; "waop"]
      "indexed" "DIVIDE INTEGERS."
      true false false false false)
  | x9c => Some (template "DIVB" 3 2
      ["DEST"; "SRC"] ["wreg"; "baop"]
      "direct" "DIVIDE SHORT-INTEGERS."
      false false false false false)
  | x9d => Some (template "DIVB" 3 2
      ["DEST"; "SRC"] ["wreg"; "baop"]
      "immediate" "DIVIDE SHORT-INTEGERS."
      false false false false false)
  | x9e => Some (template "DIVB" 3 2
      ["DEST"; "SRC"] ["wreg"; "baop"]
      "indirect" "DIVIDE SHORT-INTEGERS."
      false false false false false)
  | x9f => Some (template "DIVB" 4 2
      ["DEST"; "SRC"] ["wreg"; "baop"]
      "indexed" "DIVIDE SHORT-INTEGERS."
      true false false false false)
  | _ => None
  end.

(** ** Operand resolvers *)

(** The local state of a resolver loop: the instruction (for the edges it
    records), the map [vars] being filled and the cursor [b]. *)
Record loopState : Type := mkLoop {
  ls_instr : Instruction;
  ls_vars : gmap string VariableT;
  ls_b : Z
}.

(** [vo := VarObjs[name]; vo.Value = value; vo.Type = type] *)
Definition resolved (name value type : string) : VariableT :=
  set_Var_Type type (set_Var_Value value (VarObjs_at name)).

Definition isMode (instr : Instruction) (m : string) : bool :=
  String.eqb (AddressingMode instr) m.

Definition isOp (instr : Instruction) (b : byte) : bool :=
  Byte.eqb (Op instr) b.

Section Resolvers.

(** The register-name service of the package: it receives a format and a
    value and returns the format to print the value with. *)
Variable regName : string -> Z -> string.

Definition doSJMP (instr : Instruction) : result Instruction :=
  let vars : gmap string VariableT := ∅ in
  r0 ← index (RawOps instr) 0;
  offset ← getOffset [Op instr; r0];
  let str := "0x%X" in
  let val := int (int (Address instr + ByteLength instr) + offset) in
  let instr := Instruction_Jump str val instr in
  t0 ← index (VarTypes instr) 0;
  let cadd := resolved "cadd" (Sprintf "0x%X" [AInt val]) t0 in
  let vars := <["cadd" := cadd]> vars in
  Ok (set_Checked true (set_Vars (Some vars) instr)).

Definition doSCALL (instr : Instruction) : result Instruction :=
  let vars : gmap string VariableT := ∅ in
  r0 ← index (RawOps instr) 0;
  offset ← getOffset [Op instr; r0];
  let str := "0x%X" in
  let val := int (int (Address instr + ByteLength instr) + offset) in
  let instr := Instruction_Call str val instr in
  t0 ← index (VarTypes instr) 0;
  let cadd := resolved "cadd" (Sprintf str [AInt val]) t0 in
  let vars := <["cadd" := cadd]> vars in
  Ok (set_Checked true (set_Vars (Some vars) instr)).

(** [doJBC] and [doJBS] have the same text in the source. *)
Definition doJBC (instr : Instruction) : result Instruction :=
  let vars : gmap string VariableT := ∅ in
  r1 ← index (RawOps instr) 1;
  let offset := u8 r1 in
  r0 ← index (RawOps instr) 0;
  let val := u8 r0 in
  let str := regName "R_%X" val in
  let instr := Instruction_XRef str val instr in
  t0 ← index (VarTypes instr) 0;
  let vars := <["breg" := resolved "breg" (Sprintf str [AInt val]) t0]> vars in
  t1 ← index (VarTypes instr) 1;
  let bitno :=
    resolved "bitno" (Sprintf "%d" [AInt (Z.land (u8 (Op instr)) 0x07)]) t1 in
  let vars := <["bitno" := bitno]> vars in
  let val := int (int (Address instr + ByteLength instr) + offset) in
  let str := regName "0x%X" val in
  let instr := Instruction_Jump str val instr in
  t2 ← index (VarTypes instr) 2;
  let vars := <["cadd" := resolved "cadd" (Sprintf str [AInt val]) t2]> vars in
  Ok (set_Checked true (set_Vars (Some vars) instr)).

Definition doJBS (instr : Instruction) : result Instruction :=
  let vars : gmap string VariableT := ∅ in
  r1 ← index (RawOps instr) 1;
  let offset := u8 r1 in
  r0 ← index (RawOps instr) 0;
  let val := u8 r0 in
  let str := regName "R_%X" val in
  let instr := Instruction_XRef str val instr in
  t0 ← index (VarTypes instr) 0;
  let vars := <["breg" := resolved "breg" (Sprintf str [AInt val]) t0]> vars in
  t1 ← index (VarTypes instr) 1;
  let bitno :=
    resolved "bitno" (Sprintf "%d" [AInt (Z.land (u8 (Op instr)) 0x07)]) t1 in
  let vars := <["bitno" := bitno]> vars in
  let val := int (int (Address instr + ByteLength instr) + offset) in
  let str := regName "0x%X" val in
  let instr := Instruction_Jump str val instr in
  t2 ← index (VarTypes instr) 2;
  let vars := <["cadd" := resolved "cadd" (Sprintf str [AInt val]) t2]> vars in
  Ok (set_Checked true (set_Vars (Some vars) instr)).

Definition doCONDJMP (instr : Instruction) : result Instruction :=
  let vars : gmap string VariableT := ∅ in
  r0 ← index (RawOps instr) 0;
  let offset := u8 r0 in
  let str := "0x%X" in
  let val := int (int (Address instr + ByteLength instr) + offset) in
  let instr := Instruction_Jump str val instr in
  t0 ← index (VarTypes instr) 0;
  let vars := <["cadd" := resolved "cadd" (Sprintf str [AInt val]) t0]> vars in
  Ok (set_Checked true (set_Vars (Some vars) instr)).

(** [int(b3)<<16 | int(b2)<<8 | int(b1)] *)
Definition le24 (b1 b2 b3 : byte) : Z :=
  Z.lor (Z.lor (Z.shiftl (u8 b3) 16) (Z.shiftl (u8 b2) 8)) (u8 b1).

(** [int(b2)<<8 | int(b1)] *)
Definition le16 (b1 b2 : byte) : Z :=
  Z.lor (Z.shiftl (u8 b2) 8) (u8 b1).

Definition doF0 (instr : Instruction) : result Instruction :=
  let vars : gmap string VariableT := ∅ in
  b1 ← index (RawOps instr) 0;
  b2 ← index (RawOps instr) 1;
  b3 ← index (RawOps instr) 2;
  let offset := le24 b1 b2 b3 in
  let val := int (int (Address instr + ByteLength instr) + offset) in
  let val := Z.land val 0x1FFFFF in
  let str := "0x%X" in
  let instr :=
    if String.eqb (Mnemonic instr) "ECALL"
    then Instruction_Call str val instr
    else Instruction_XRef str val instr in
  t0 ← index (VarTypes instr) 0;
  let vars := <["cadd" := resolved "cadd" (Sprintf str [AInt val]) t0]> vars in
  Ok (set_Checked true (set_Vars (Some vars) instr)).

(** The two extended addressing cases, whose text [doE0] and [do00]
    share; [vars] is returned with the instruction. *)
Definition extendedIndexed (instr : Instruction) (vars : gmap string VariableT)
    : result (Instruction * gmap string VariableT) :=
  b1 ← index (RawOps instr) 1;
  b2 ← index (RawOps instr) 2;
  b3 ← index (RawOps instr) 3;
  let offset := le24 b1 b2 b3 in
  let offStr := regName "0x%06X" offset in
  let instr := Instruction_XRef offStr offset instr in
  r0 ← index (RawOps instr) 0;
  let val := u8 r0 in
  let str := regName "[R_%02X" val in
  let instr := Instruction_XRef str val instr in
  t1 ← index (VarTypes instr) 1;
  let treg :=
    resolved "treg" (Sprintf (offStr +:+ str +:+ "]") [AInt offset; AInt val]) t1 in
  name ← index (VarStrings instr) 0;
  r4 ← index (RawOps instr) 4;
  let val := u8 r4 in
  let str := regName "R_%02X" val in
  let instr := Instruction_XRef str val instr in
  t0 ← index (VarTypes instr) 0;
  let _reg := resolved name (Sprintf str [AInt val]) t0 in
  let vars := <["treg" := treg]> vars in
  name' ← index (VarStrings instr) 0;
  let vars := <[name' := _reg]> vars in
  Ok (set_Checked true instr, vars).

Definition extendedIndirect (instr : Instruction) (vars : gmap string VariableT)
    : result (Instruction * gmap string VariableT) :=
  r0 ← index (RawOps instr) 0;
  let val := u8 r0 in
  let str := regName "[R_%02X" val in
  let instr := Instruction_XRef str val instr in
  t1 ← index (VarTypes instr) 1;
  let treg := resolved "treg" (Sprintf (str +:+ "]") [AInt val]) t1 in
  r1 ← index (RawOps instr) 1;
  let val := u8 r1 in
  let str := regName "R_%02X" val in
  let instr := Instruction_XRef str val instr in
  name ← index (VarStrings instr) 0;
  t0 ← index (VarTypes instr) 0;
  let _reg := resolved name (Sprintf str [AInt val]) t0 in
  let vars := <["treg" := treg]> vars in
  name' ← index (VarStrings instr) 0;
  let vars := <[name' := _reg]> vars in
  Ok (set_Checked true instr, vars).

Definition doE0 (instr : Instruction) : result Instruction :=
  let vars : gmap string VariableT := ∅ in
  '(instr, vars) ←
    (if isOp instr xe0 || isOp instr xe1 then
       (* DJNZ, DJNZW *)
       r1 ← index (RawOps instr) 1;
       let offset := u8 r1 in
       r0 ← index (RawOps instr) 0;
       let val := u8 r0 in
       let str := regName "R_%X" val in
       let instr := Instruction_XRef str val instr in
       t0 ← index (VarTypes instr) 0;
       let vars := <["breg" := resolved "breg" (Sprintf str [AInt val]) t0]> vars in
       let val := int (int (Address instr + ByteLength instr) + offset) in
       let str := "0x%X" in
       let instr := Instruction_Jump str val instr in
       t1 ← index (VarTypes instr) 1;
       let vars := <["cadd" := resolved "cadd" (Sprintf str [AInt val]) t1]> vars in
       Ok (set_Checked true instr, vars)
     else if isOp instr xea || isOp instr xeb || isOp instr xe8 || isOp instr xe9 then
       (* ELD, ELDB *)
       if isMode instr "extended-indexed" then extendedIndexed instr vars
       else if isMode instr "extended-indirect" then extendedIndirect instr vars
       else Ok (instr, vars)
     else if isOp instr xe6 then
       (* EJMP *)
       b1 ← index (RawOps instr) 0;
       b2 ← index (RawOps instr) 1;
       b3 ← index (RawOps instr) 2;
       let offset := le24 b1 b2 b3 in
       let val := int (int (Address instr + ByteLength instr) + offset) in
       let val := Z.land val 0x1FFFFF in
       let str := regName "0x%X" val in
       let instr := Instruction_Jump str val instr in
       t0 ← index (VarTypes instr) 0;
       let vars := <["cadd" := resolved "cadd" (Sprintf str [AInt val]) t0]> vars in
       Ok (set_Checked true instr, vars)
     else if isOp instr xe3 then
       (* BR / EBR *)
       r0 ← index (RawOps instr) 0;
       let val := u8 r0 in
       r0' ← index (RawOps instr) 0;
       let '(instr, val) :=
         if Z.land (u8 r0') 0x01 =? 0x00
         then (set_VarStrings ["wreg"]
                 (set_AddressingMode "indirect"
                    (set_Mnemonic "BR"
                       (set_Description "BRANCH INDIRECT." instr))), val)
         else (instr, Z.land val 0xFE) in
       name ← index (VarStrings instr) 0;
       let str := regName "[R_%02X]" val in
       let instr := Instruction_Jump str val instr in
       let instr := Instruction_XRef str val instr in
       t0 ← index (VarTypes instr) 0;
       let vo := resolved name (Sprintf str [AInt val]) t0 in
       name' ← index (VarStrings instr) 0;
       let vars := <[name' := vo]> vars in
       Ok (set_Checked true instr, vars)
     else if isOp instr xe7 || isOp instr xef then
       (* LJMP, LCALL *)
       b1 ← index (RawOps instr) 0;
       b2 ← index (RawOps instr) 1;
       let offset := le16 b1 b2 in
       let val := int (int (Address instr + ByteLength instr) + offset) in
       let str := regName "0x%X" val in
       let instr :=
         if String.eqb (Mnemonic instr) "LCALL"
         then Instruction_Call str val instr
         else Instruction_Jump str val instr in
       t0 ← index (VarTypes instr) 0;
       let vars := <["cadd" := resolved "cadd" (Sprintf str [AInt val]) t0]> vars in
       Ok (set_Checked true instr, vars)
     else Ok (instr, vars));
  Ok (set_Vars (Some vars) instr).

(** The loop that most cases run: one operand byte per declared variable,
    read back to front, recorded as a register and cross-referenced.
    [BMOV], [CMPL] and the direct mode of [doC0] and of [doMIDDLE]. *)
Definition directBody (i : Z) (varStr : string) (st : loopState) : result loopState :=
  let instr := ls_instr st in
  r ← index (RawOps instr) (ls_b st);
  let val := u8 r in
  let str := regName "R_%02X" val in
  let instr := Instruction_XRef str val instr in
  t ← index (VarTypes instr) i;
  let vars := <[varStr := resolved varStr (Sprintf str [AInt val]) t]> (ls_vars st) in
  Ok (mkLoop instr vars (ls_b st - 1)).

(** Indexed and short-indexed mode of [doC0]: the last declared operand
    is printed from the offset byte and the masked base register. *)
Definition c0IndexedBody (i : Z) (varStr : string) (st : loopState) : result loopState :=
  let instr := ls_instr st in
  let b := ls_b st in
  r ← index (RawOps instr) b;
  let val := u8 r in
  let str := regName "R_%02X" val in
  let instr := Instruction_XRef str val instr in
  '(instr, value) ←
    (if i + 1 =? VarCount instr then
       ro ← index (RawOps instr) b;
       let offset := u8 ro in
       let offStr := regName "0x%02X" offset in
       let instr := Instruction_XRef offStr offset instr in
       rb ← index (RawOps instr) (b - 1);
       let val := Z.land (u8 rb) 0xFE in
       let str := "[R_%02X" in
       let str := Sprintf (offStr +:+ str +:+ "]") [AInt offset; AInt val] in
       let str := regName str val in
       Ok (instr, str)
     else Ok (instr, Sprintf str [AInt val]));
  t ← index (VarTypes instr) i;
  let vars := <[varStr := resolved varStr value t]> (ls_vars st) in
  Ok (mkLoop instr vars (b - 1)).

(** Long-indexed mode, the same text in [doC0] and in [doMIDDLE]. *)
Definition longIndexedBody (i : Z) (varStr : string) (st : loopState) : result loopState :=
  let instr := ls_instr st in
  let b := ls_b st in
  r ← index (RawOps instr) b;
  let val := u8 r in
  let str := "R_%02X" in
  '(instr, value) ←
    (if i + 1 =? VarCount instr then
       hi ← index (RawOps instr) b;
       lo ← index (RawOps instr) (b - 1);
       let offset := Z.lor (Z.shiftl (u8 hi) 8) (u8 lo) in
       let offStr := regName "0x%04X" offset in
       let instr := Instruction_XRef offStr offset instr in
       rb ← index (RawOps instr) (b - 2);
       let val := Z.land (u8 rb) 0xFE in
       let str := regName "[R_%02X" val in
       let instr := Instruction_XRef str val instr in
       Ok (instr, Sprintf (offStr +:+ str +:+ "]") [AInt offset; AInt val])
     else
       let str := regName str val in
       let value := Sprintf str [AInt val] in
       Ok (Instruction_XRef str val instr, value));
  t ← index (VarTypes instr) i;
  let vars := <[varStr := resolved varStr value t]> (ls_vars st) in
  Ok (mkLoop instr vars (b - 1)).

(** Immediate mode of [doC0]: every variable gets the word constant. *)
Definition c0ImmediateBody (i : Z) (varStr : string) (st : loopState) : result loopState :=
  let instr := ls_instr st in
  hi ← index (RawOps instr) 1;
  lo ← index (RawOps instr) 0;
  let val := Z.lor (Z.shiftl (u8 hi) 8) (u8 lo) in
  let str := regName "#%04X" val in
  let instr := Instruction_XRef str val instr in
  t ← index (VarTypes instr) i;
  let vars := <[varStr := resolved varStr (Sprintf str [AInt val]) t]> (ls_vars st) in
  Ok (mkLoop instr vars (ls_b st)).

(** Indirect mode of [doC0]: every operand byte is masked with [0xFE];
    the byte at [b == 0] is printed as a pointer. No edge is recorded. *)
Definition c0IndirectBody (i : Z) (varStr : string) (st : loopState) : result loopState :=
  let instr := ls_instr st in
  let b := ls_b st in
  let str := "R_%02X" in
  r ← index (RawOps instr) b;
  let val := Z.land (u8 r) 0xFE in
  let '(str, val) :=
    if b =? 0 then
      let str := "[R_%02X]" in
      if AutoIncrement instr then (str +:+ "+", Z.land val 0xFE) else (str, val)
    else (str, val) in
  let str := regName str val in
  t ← index (VarTypes instr) i;
  let vars := <[varStr := resolved varStr (Sprintf str [AInt val]) t]> (ls_vars st) in
  Ok (mkLoop instr vars (b - 1)).

Definition doC0 (instr : Instruction) : result Instruction :=
  let vars : gmap string VariableT := ∅ in
  let instr := set_Checked true instr in
  st ←
    (if isOp instr xc1 || isOp instr xc5 || isMode instr "direct" then
       (* BMOV / CMPL / all other direct *)
       let b := len (RawOps instr) - 1 in
       st ← forRange (VarStrings instr) 0
              (fun i varStr st =>
                 st ← directBody i varStr st;
                 Ok (mkLoop (set_Checked true (ls_instr st)) (ls_vars st) (ls_b st)))
              (mkLoop instr vars b);
       Ok st
     else if isMode instr "immediate" then
       st ← forRange (VarStrings instr) 0 c0ImmediateBody (mkLoop instr vars 0);
       Ok (mkLoop (set_Checked true (ls_instr st)) (ls_vars st) (ls_b st))
     else if isMode instr "indirect" || isMode instr "indirect+" then
       let b := len (RawOps instr) - 1 in
       st ← forRange (VarStrings instr) 0 c0IndirectBody (mkLoop instr vars b);
       Ok (mkLoop (set_Checked true (ls_instr st)) (ls_vars st) (ls_b st))
     else if isMode instr "indexed" || isMode instr "short-indexed" then
       let b := len (RawOps instr) - 1 in
       st ← forRange (VarStrings instr) 0 c0IndexedBody (mkLoop instr vars b);
       Ok (mkLoop (set_Checked true (ls_instr st)) (ls_vars st) (ls_b st))
     else if isMode instr "long-indexed" then
       let b := len (RawOps instr) - 1 in
       st ← forRange (VarStrings instr) 0 longIndexedBody (mkLoop instr vars b);
       Ok (mkLoop (set_Checked true (ls_instr st)) (ls_vars st) (ls_b st))
     else Ok (mkLoop instr vars 0));
  Ok (set_Vars (Some (ls_vars st)) (ls_instr st)).

(** The walk of [do00]: a register per operand byte, except that the byte
    at [b == 0] of a shift (bit 3 of the opcode set, not [NORML]) is
    printed as an immediate count when it is below [0x10]. *)
Definition lowBody (i : Z) (varStr : string) (st : loopState) : result loopState :=
  let instr := ls_instr st in
  let b := ls_b st in
  r ← index (RawOps instr) b;
  let val := u8 r in
  let str := regName "R_%02X" val in
  let instr := Instruction_XRef str val instr in
  str ←
    (if (Z.land (u8 (Op instr)) 0x08 =? 0x08) && (b =? 0)
        && negb (isOp instr x0f)
     then r0 ← index (RawOps instr) 0;
          Ok (if u8 r0 <? 0x10 then "#%02X" else str)
     else Ok str);
  t ← index (VarTypes instr) i;
  let vars := <[varStr := resolved varStr (Sprintf str [AInt val]) t]> (ls_vars st) in
  Ok (mkLoop instr vars (b - 1)).

Definition do00 (instr : Instruction) : result Instruction :=
  let vars : gmap string VariableT := ∅ in
  if isOp instr x1f || isOp instr x1d then
    if isMode instr "extended-indexed" then
      (* ESTB *)
      '(instr, vars) ← extendedIndexed instr vars;
      Ok (set_Checked true (set_Vars (Some vars) instr))
    else if isMode instr "extended-indirect" then
      '(instr, vars) ← extendedIndirect instr vars;
      Ok (set_Checked true (set_Vars (Some vars) instr))
    else Ok instr
  else
    let b := len (RawOps instr) - 1 in
    st ← forRange (VarStrings instr) 0 lowBody (mkLoop instr vars b);
    Ok (set_Checked true (set_Vars (Some (ls_vars st)) (ls_instr st))).

(** Immediate mode of [doMIDDLE] with a byte constant. *)
Definition byteConstBody (i : Z) (varStr : string) (st : loopState) : result loopState :=
  let instr := ls_instr st in
  let b := ls_b st in
  r ← index (RawOps instr) b;
  let val := u8 r in
  let str := regName "R_%02X" val in
  let '(instr, str) :=
    if b =? 0 then (instr, "#%02X") else (Instruction_XRef str val instr, str) in
  t ← index (VarTypes instr) i;
  let vars := <[varStr := resolved varStr (Sprintf str [AInt val]) t]> (ls_vars st) in
  Ok (mkLoop instr vars (b - 1)).

(** Immediate mode of [doMIDDLE] with a word constant. *)
Definition wordConstBody (i : Z) (varStr : string) (st : loopState) : result loopState :=
  let instr := ls_instr st in
  let b := ls_b st in
  r ← index (RawOps instr) b;
  let val := u8 r in
  let str := regName "R_%02X" val in
  '(instr, str, val) ←
    (if b =? 1 then
       hi ← index (RawOps instr) 1;
       lo ← index (RawOps instr) 0;
       Ok (instr, "#%04X", Z.lor (Z.shiftl (u8 hi) 8) (u8 lo))
     else Ok (Instruction_XRef str val instr, str, val));
  t ← index (VarTypes instr) i;
  let vars := <[varStr := resolved varStr (Sprintf str [AInt val]) t]> (ls_vars st) in
  Ok (mkLoop instr vars (b - 1)).

(** Indirect mode of [doMIDDLE]: every operand byte is masked with
    [0xFE] before it is named; the byte at [b == 0] is the pointer. *)
Definition middleIndirectBody (i : Z) (varStr : string) (st : loopState) : result loopState :=
  let instr := ls_instr st in
  let b := ls_b st in
  let str := "R_%02X" in
  r ← index (RawOps instr) b;
  let val := Z.land (u8 r) 0xFE in
  let str := regName str val in
  let '(str, val) :=
    if b =? 0 then
      let str := "[R_%02X" in
      let '(str, val) :=
        if AutoIncrement instr then (str +:+ "+", Z.land val 0xFE) else (str, val) in
      (regName str val +:+ "]", val)
    else (str, val) in
  let instr := Instruction_XRef str val instr in
  t ← index (VarTypes instr) i;
  let vars := <[varStr := resolved varStr (Sprintf str [AInt val]) t]> (ls_vars st) in
  Ok (mkLoop instr vars (b - 1)).

(** Indexed and short-indexed mode of [doMIDDLE]. *)
Definition middleIndexedBody (i : Z) (varStr : string) (st : loopState) : result loopState :=
  let instr := ls_instr st in
  let b := ls_b st in
  let str := "R_%02X" in
  r ← index (RawOps instr) b;
  let val := u8 r in
  let str := regName str val in
  let instr := Instruction_XRef str val instr in
  '(instr, value) ←
    (if i + 1 =? VarCount instr then
       ro ← index (RawOps instr) b;
       let offset := u8 ro in
       let offStr := regName "0x%02X" offset in
       let instr := Instruction_XRef offStr offset instr in
       rb ← index (RawOps instr) (b - 1);
       let val := Z.land (u8 rb) 0xFE in
       let str := regName "[R_%02X" val in
       let instr := Instruction_XRef str val instr in
       Ok (instr, Sprintf (offStr +:+ str +:+ "]") [AInt offset; AInt val])
     else Ok (instr, Sprintf str [AInt val]));
  t ← index (VarTypes instr) i;
  let vars := <[varStr := resolved varStr value t]> (ls_vars st) in
  Ok (mkLoop instr vars (b - 1)).

Definition doMIDDLE (instr : Instruction) : result Instruction :=
  let vars : gmap string VariableT := ∅ in
  let b := len (RawOps instr) - 1 in
  st ←
    (if isMode instr "direct" then
       st ← forRange (VarStrings instr) 0 directBody (mkLoop instr vars b);
       Ok (mkLoop (set_Checked true (ls_instr st)) (ls_vars st) (ls_b st))
     else if isMode instr "immediate" then
       st ← (if Z.land (u8 (Op instr)) 0x10 =? 0x10
             then forRange (VarStrings instr) 0 byteConstBody (mkLoop instr vars b)
             else forRange (VarStrings instr) 0 wordConstBody (mkLoop instr vars b));
       Ok (mkLoop (set_Checked true (ls_instr st)) (ls_vars st) (ls_b st))
     else if isMode instr "indirect" || isMode instr "indirect+" then
       st ← forRange (VarStrings instr) 0 middleIndirectBody (mkLoop instr vars b);
       Ok (mkLoop (set_Checked true (ls_instr st)) (ls_vars st) (ls_b st))
     else if isMode instr "indexed" || isMode instr "short-indexed" then
       st ← forRange (VarStrings instr) 0 middleIndexedBody (mkLoop instr vars b);
       Ok (mkLoop (set_Checked true (ls_instr st)) (ls_vars st) (ls_b st))
     else if isMode instr "long-indexed" then
       st ← forRange (VarStrings instr) 0 longIndexedBody (mkLoop instr vars b);
       Ok (mkLoop (set_Checked true (ls_instr st)) (ls_vars st) (ls_b st))
     else Ok (mkLoop instr vars b));
  Ok (set_Vars (Some (ls_vars st)) (ls_instr st)).

End Resolvers.

(** ** Pseudocode synthesizer *)

(** The cosmetic replacements that [doPseudo] applies to a value. *)
Definition cosmetic (val : string) : string :=
  let val := Replace1 val "[R_00 ~(Zero Register)]" EmptyString in
  let val := Replace1 val "R_" "$r_" in
  let val := Replace1 val "[$r_00]" EmptyString in
  let val := Replace1 val "$r_00" "0x00" in
  let val := Replace1 val "$r_02" "0x11" in
  let val := Replace1 val " ~(" " (" in
  let val := Replace1 val " ~" EmptyString in
  let val := Replace1 val "$r_02 (Ones Register)" "0x11" in
  let val := Replace1 val " (Ones Register)" EmptyString in
  let val := Replace1 val "#" "0x" in
  let val := Replace1 val " ( GP Reg RAM )" EmptyString in
  val.

Definition memberOf (s : string) (l : list string) : bool :=
  existsb (String.eqb s) l.

(** The loop of [doPseudo] over the declared variables; [v] is the array
    of three strings. [DJNZ] and [DJNZW] leave the loop at its first
    iteration. *)
Fixpoint pseudoLoop (instr : Instruction) (vs : list string)
    (v : string * string * string) : string * string * string :=
  match vs with
  | [] => v
  | varStr :: vs' =>
      let '(v0, v1, v2) := v in
      if memberOf (Mnemonic instr) ["DJNZ"; "DJNZW"]
      then (Var_Value (varsAt (Vars instr) "cadd"),
            Var_Value (varsAt (Vars instr) "breg"), v2)
      else
        let val := cosmetic (Var_Value (varsAt (Vars instr) varStr)) in
        let ty := Var_Type (varsAt (Vars instr) varStr) in
        let v' :=
          if String.eqb ty "DEST" then
            let val := Replace1 val "0x000" "$r_" in
            let val := Replace1 val "0x" "$r_" in
            (val, v1, v2)
          else if String.eqb ty "ADDR" then (val, v1, v2)
          else if String.eqb ty "PTRS" then (val, v1, v2)
          else if String.eqb ty "BYTEREG" then (v0, v1, val)
          else (v0, val, v2) in
        pseudoLoop instr vs' v'
  end.

Definition tab : string := String (ascii_of_nat 9) EmptyString.

Definition doPseudo (instr : Instruction) : Instruction :=
  let '(v0, v1, v2) :=
    pseudoLoop instr (VarStrings instr) (EmptyString, EmptyString, EmptyString) in
  let m := Mnemonic instr in
  let among := memberOf m in
  let code :=
    if among ["CLR"; "CLRB"] then Sprintf "%s = 0x00" [AStr v0]
    else if among ["EXT"] then Sprintf "SIGN EXTEND INT %s TO LONG INT" [AStr v0]
    else if among ["EXTB"] then Sprintf "SIGN EXTEND SHORT INT %s TO INT" [AStr v0]
    else if among ["JNST"; "JNH"; "JGT"; "JNC"; "JNVT"; "JNV"; "JGE"; "JNE";
                "JST"; "JH"; "JLE"; "JC"; "JVT"; "JV"; "JLT"; "JE"]
    then Sprintf (tab +:+ "JUMP TO: %s") [AStr v0]
    else if among ["JBS"]
    then Sprintf "if bitno: (%s) of %s is set { JUMP TO: %s }" [AStr v1; AStr v2; AStr v0]
    else if among ["JBC"]
    then Sprintf "if bitno: (%s) of %s is clear { JUMP TO: %s }" [AStr v1; AStr v2; AStr v0]
    else if among ["LJMP"; "SJMP"; "EBR"; "EJMP"] then Sprintf "JUMP TO: %s" [AStr v0]
    else if among ["ECALL"; "CALL"; "SCALL"; "LCALL"] then Sprintf "CALL SUB_ %s" [AStr v0]
    else if among ["PUSH"] then Sprintf "PUSH %s ONTO THE STACK" [AStr v1]
    else if among ["POP"] then Sprintf "POP THE STACK TO %s" [AStr v0]
    else if among ["CMPB"; "CMP"; "CMPL"] then Sprintf "if (%s == %s) {" [AStr v0; AStr v1]
    else if among ["ANDB"; "AND"; "ADDB"]
    then Sprintf "%s = %s & %s" [AStr v0; AStr v0; AStr v1]
    else if among ["ORB"; "OR"; "XOR"; "XORB"]
    then Sprintf "%s = %s %s %s" [AStr v0; AStr v0; AStr m; AStr v1]
    else if among ["NOT"; "NOTB"; "NEG"; "NEGB"]
    then Sprintf "%s = %s %s %s" [AStr v0; AStr v0; AStr m; AStr v0]
    else if among ["ADD"; "ADDC"; "ADDCB"]
    then Sprintf "%s = %s + %s" [AStr v0; AStr v0; AStr v1]
    else if among ["XCH"; "XCHB"] then Sprintf "%s <=%s=> %s" [AStr v0; AStr m; AStr v1]
    else if among ["SUB"; "SUBC"; "SUBCB"; "SUBB"]
    then Sprintf "%s = %s - %s" [AStr v0; AStr v0; AStr v1]
    else if among ["MUL"; "MULB"; "MULU"; "MULUB"; "SGN MUL"; "SGN MULB"]
    then Sprintf "%s = %s * %s" [AStr v0; AStr v0; AStr v1]
    else if among ["DIV"; "DIVU"; "DIVUB"; "SGN DIVB"; "SGN DIV"]
    then Sprintf "%s = %s / %s" [AStr v0; AStr v0; AStr v1]
    else if among ["SHR"; "SHRL"; "SHRAL"; "SHRB"] then Sprintf "%s >> %s" [AStr v0; AStr v1]
    else if among ["SHL"; "SHLL"; "SHLB"; "SHRA"] then Sprintf "%s << %s" [AStr v0; AStr v1]
    else if among ["DEC"; "DECB"] then Sprintf "%s--" [AStr v0]
    else if among ["INC"; "INCB"] then Sprintf "%s++" [AStr v0]
    else if among ["LD"; "LDB"; "ELD"; "ELDB"; "STB"; "ESTB"; "ST"; "EST"; "LDBZE"; "LDBSE"]
    then Sprintf "%s = %s" [AStr v0; AStr v1]
    else if among ["NORML"] then Sprintf "NORMALIZE %s (todo)" [AStr v0]
    else if among ["BMOV"; "BMOVI"] then Sprintf "BMOV %s count(%s) (todo)" [AStr v0; AStr v1]
    else if among ["DJNZ"; "DJNZW"]
    then Sprintf "%s--; if ( %s != 0 ) { JUMP TO: %s }" [AStr v1; AStr v1; AStr v0]
    else Sprintf "########### %s = %s" [AStr v0; AStr v1] in
  set_PseudoCode code instr.

(** ** Decoder entry point *)

(** The blocks of [Parse], under the comments that head them in the
    source. *)

(** Check for Indexed Addressing Mode Instruction Type *)
Definition indexedMode (input : list byte) (instruction : Instruction)
    : result Instruction :=
  if isMode instruction "indexed" && VariableLength instruction then
    b ← index input 1;
    if Z.land (u8 b) 1 =? 1
    then Ok (set_AddressingMode "long-indexed"
               (set_ByteLength (ByteLength instruction + 1) instruction))
    else Ok (set_AddressingMode "short-indexed" instruction)
  else Ok instruction.

(** Check for Indirect Addressing Mode Instruction Type *)
Definition indirectMode (input : list byte) (instruction : Instruction)
    : result Instruction :=
  if isMode instruction "indirect" then
    b ← index input 1;
    if Z.land (u8 b) 1 =? 1
    then Ok (set_AutoIncrement true (set_AddressingMode "indirect+" instruction))
    else Ok instruction
  else Ok instruction.

(** Adjust for signed instructions *)
Definition signedAdjust (input beyond : list byte) (signed : bool)
    (instruction : Instruction) : result Instruction :=
  if signed then
    let instruction := set_ByteLength (ByteLength instruction + 1) instruction in
    let instruction := set_Signed signed instruction in
    let instruction := set_Mnemonic ("SGN " +:+ Mnemonic instruction) instruction in
    ops ← slice input beyond 2 (ByteLength instruction);
    Ok (set_RawOps ops instruction)
  else
    ops ← slice input beyond 1 (ByteLength instruction);
    Ok (set_RawOps ops instruction).

Section Decoder.

Variable regName : string -> Z -> string.

(** The resolver group of an opcode, and the synthesizer after it. *)
Definition dispatch (firstByte : byte) (instruction : Instruction) : result Instruction :=
  let op := u8 firstByte in
  if Z.land op 0xf8 =? 0x20 then
    i ← doSJMP instruction; Ok (doPseudo i)
  else if Z.land op 0xf8 =? 0x28 then
    i ← doSCALL instruction; Ok (doPseudo i)
  else if Z.land op 0xf8 =? 0x30 then
    i ← doJBC regName instruction; Ok (doPseudo i)
  else if Z.land op 0xf8 =? 0x38 then
    i ← doJBS regName instruction; Ok (doPseudo i)
  else if Z.land op 0xf0 =? 0xd0 then
    i ← doCONDJMP instruction; Ok (doPseudo i)
  else if Z.land op 0xf0 =? 0xf0 then
    i ← doF0 instruction; Ok (doPseudo i)
  else if Z.land op 0xf0 =? 0xe0 then
    i ← doE0 regName instruction; Ok (doPseudo i)
  else if Z.land op 0xf0 =? 0xc0 then
    i ← doC0 regName instruction; Ok (doPseudo i)
  else if Z.land op 0xe0 =? 0 then
    i ← do00 regName instruction; Ok (doPseudo i)
  else
    i ← doMIDDLE regName instruction; Ok (doPseudo i).

(** Build our Vars object from the VarStrings object *)
Definition buildVars (firstByte : byte) (instruction : Instruction)
    : result Instruction :=
  if 0 <? VarCount instruction
  then dispatch firstByte instruction
  else Ok (set_Checked true instruction).

(** [Parse] returns the instruction and the error ([None] for [nil]).
    Its argument [in] is the slice of the elements [input] with the
    elements [beyond] of its backing array behind them. *)
Definition Parse (input beyond : list byte) (address : Z)
    : result (Instruction * option string) :=
  firstByte ← index input 0;
  '(signed, firstByte, instructions) ←
    (* Check if this is a signed operation *)
    (if Byte.eqb firstByte xfe
     then b ← index input 1; Ok (true, b, signedInstructions)
     else Ok (false, firstByte, unsignedInstructions));
  match instructions firstByte with
  | Some instruction =>
      let instruction := set_Op firstByte instruction in
      let instruction := set_Signed signed instruction in
      let instruction := set_Address address instruction in
      instruction ← indexedMode input instruction;
      instruction ← indirectMode input instruction;
      instruction ← signedAdjust input beyond signed instruction;
      raw ← slice input beyond 0 (ByteLength instruction);
      let instruction := set_Raw raw instruction in
      instruction ← buildVars firstByte instruction;
      Ok (instruction, None)
  | None =>
      Ok (set_ByteLength 1 zeroInstruction, Some "Unable to find instruction!")
  end.

End Decoder.

(** ** Definitions used to state the properties *)

(** Modelled from the spec: the register-name service, which is not in
    this file of the package, in the degenerate form that the
    specification allows it (plain numeric formatting: the format is
    returned as it came). *)
Definition plainRegName (s : string) (v : Z) : string := s.

(** The placeholder that [Parse] returns with its error. *)
Definition placeholder : Instruction := set_ByteLength 1 zeroInstruction.

(** The 11-bit field [256 * hi + lo] read in two's complement. *)
Definition disp11 (hi lo : Z) : Z :=
  let u := 256 * hi + lo in
  if u <? 1024 then u else u - 2048.

(** The operations of the recorder, to state what a run of them leaves. *)
Inductive recorderOp : Type :=
| OpXRef (s : string) (v : Z)
| OpCall (s : string) (v : Z)
| OpJump (s : string) (v : Z).

Definition runOp (o : recorderOp) (instr : Instruction) : Instruction :=
  match o with
  | OpXRef s v => Instruction_XRef s v instr
  | OpCall s v => Instruction_Call s v instr
  | OpJump s v => Instruction_Jump s v instr
  end.

Definition runOps (ops : list recorderOp) (instr : Instruction) : Instruction :=
  fold_left (fun i o => runOp o i) ops instr.

(** How often a run calls [Call] on the target [v]. *)
Fixpoint countCalls (v : Z) (ops : list recorderOp) : nat :=
  match ops with
  | [] => 0
  | OpCall _ w :: ops' => if w =? v then S (countCalls v ops') else countCalls v ops'
  | _ :: ops' => countCalls v ops'
  end.

(** How often a run calls [Jump] on the target [v]. *)
Fixpoint countJumps (v : Z) (ops : list recorderOp) : nat :=
  match ops with
  | [] => 0
  | OpJump _ w :: ops' => if w =? v then S (countJumps v ops') else countJumps v ops'
  | _ :: ops' => countJumps v ops'
  end.

(** Every slice of the map holds at most one edge, from [a] to its key. *)
Definition xrefsOnce (a : Z) (m : option (gmap Z (list XRef))) : Prop :=
  forall v : Z,
    (length (edgesAt m v) <= 1)%nat /\
    Forall (fun x => XRefFrom x = a /\ XRefTo x = v) (edgesAt m v).

(** Whether [XRef] finds an edge from the instruction's own address. *)
Definition seen (v : Z) (instr : Instruction) : bool :=
  existsb (fun ins => XRefFrom ins =? Address instr) (edgesAt (XRefs instr) v).

(** The template that [Parse] selects: the signed table at the second
    byte after the prefix [0xFE], the unsigned table at the first byte
    otherwise. *)
Definition selected (input : list byte) : result (option Instruction) :=
  firstByte ← index input 0;
  if Byte.eqb firstByte xfe
  then b ← index input 1; Ok (signedInstructions b)
  else Ok (unsignedInstructions firstByte).

(** What [Parse] knows of the instruction before it slices its input,
    through the same blocks: a fault when [in[0]] or a needed [in[1]] is
    missing, [None] when the opcode has no template, and else the
    template with its addressing mode settled and its final
    [ByteLength]. *)
Definition header (input : list byte) : result (option Instruction) :=
  firstByte ← index input 0;
  '(signed, firstByte, instructions) ←
    (if Byte.eqb firstByte xfe
     then b ← index input 1; Ok (true, b, signedInstructions)
     else Ok (false, firstByte, unsignedInstructions));
  match instructions firstByte with
  | Some instruction =>
      instruction ← indexedMode input instruction;
      instruction ← indirectMode input instruction;
      Ok (Some (if signed : bool
                then set_ByteLength (ByteLength instruction + 1) instruction
                else instruction))
  | None => Ok None
  end.

(** The final byte length. *)
Definition headerLength (input : list byte) : result (option Z) :=
  match header input with
  | Ok (Some h) => Ok (Some (ByteLength h))
  | Ok None => Ok None
  | Panic => Panic
  end.

(** The input covers the reads of the header, and its capacity the
    final length. *)
Definition fits (input beyond : list byte) : Prop :=
  match headerLength input with
  | Ok (Some n) => n <= len input + len beyond
  | Ok None => True
  | Panic => False
  end.

(** The header branches on the content of its input in one place only,
    bit 0 of [in[1]]. The definitions marked [With] are the blocks, the
    decoder and the header over a given value of that bit, for
    the case analysis on the opcode; [Parse_secondBit] and
    [header_secondBit] relate them to the decoder itself. *)
Definition secondBit (input : list byte) : bool :=
  match index input 1 with
  | Ok b => Z.land (u8 b) 1 =? 1
  | Panic => false
  end.

Definition indexedModeWith (bit : bool) (input : list byte)
    (instruction : Instruction) : result Instruction :=
  if isMode instruction "indexed" && VariableLength instruction then
    b ← index input 1;
    if bit
    then Ok (set_AddressingMode "long-indexed"
               (set_ByteLength (ByteLength instruction + 1) instruction))
    else Ok (set_AddressingMode "short-indexed" instruction)
  else Ok instruction.

Definition indirectModeWith (bit : bool) (input : list byte)
    (instruction : Instruction) : result Instruction :=
  if isMode instruction "indirect" then
    b ← index input 1;
    if bit
    then Ok (set_AutoIncrement true (set_AddressingMode "indirect+" instruction))
    else Ok instruction
  else Ok instruction.

Definition ParseWith (regName : string -> Z -> string) (bit : bool)
    (input beyond : list byte) (address : Z)
    : result (Instruction * option string) :=
  firstByte ← index input 0;
  '(signed, firstByte, instructions) ←
    (if Byte.eqb firstByte xfe
     then b ← index input 1; Ok (true, b, signedInstructions)
     else Ok (false, firstByte, unsignedInstructions));
  match instructions firstByte with
  | Some instruction =>
      let instruction := set_Op firstByte instruction in
      let instruction := set_Signed signed instruction in
      let instruction := set_Address address instruction in
      instruction ← indexedModeWith bit input instruction;
      instruction ← indirectModeWith bit input instruction;
      instruction ← signedAdjust input beyond signed instruction;
      raw ← slice input beyond 0 (ByteLength instruction);
      let instruction := set_Raw raw instruction in
      instruction ← buildVars regName firstByte instruction;
      Ok (instruction, None)
  | None =>
      Ok (set_ByteLength 1 zeroInstruction, Some "Unable to find instruction!")
  end.

Definition headerWith (bit : bool) (input : list byte)
    : result (option Instruction) :=
  firstByte ← index input 0;
  '(signed, firstByte, instructions) ←
    (if Byte.eqb firstByte xfe
     then b ← index input 1; Ok (true, b, signedInstructions)
     else Ok (false, firstByte, unsignedInstructions));
  match instructions firstByte with
  | Some instruction =>
      instruction ← indexedModeWith bit input instruction;
      instruction ← indirectModeWith bit input instruction;
      Ok (Some (if signed : bool
                then set_ByteLength (ByteLength instruction + 1) instruction
                else instruction))
  | None => Ok None
  end.

(** [l] has at least [n] elements. *)
Fixpoint atLeast {A : Type} (n : nat) (l : list A) : bool :=
  match n with
  | O => true
  | S n' =>
      match l with
      | [] => false
      | _ :: l' => atLeast n' l'
      end
  end.

Definition fitsWith (bit : bool) (input beyond : list byte) : bool :=
  match headerWith bit input with
  | Ok (Some h) => atLeast (Z.to_nat (ByteLength h)) (input ++ beyond)
  | Ok None => true
  | Panic => false
  end.

(** Whether the header of [Parse] reads [in[1]] after this first byte. *)
Definition readsSecondByte (b0 : byte) : bool :=
  Byte.eqb b0 xfe ||
  match unsignedInstructions b0 with
  | Some t => (isMode t "indexed" && VariableLength t) || isMode t "indirect"
  | None => false
  end.

Definition modeIn (instr : Instruction) (modes : list string) : bool :=
  existsb (String.eqb (AddressingMode instr)) modes.

(** The instructions that [Parse] returns with [Checked = false]. *)
Definition unchecked : list string := ["TIJMP"; "EBMOVI"].

(** What the case analysis checks on a returned instruction against the
    header [h]: [Checked] against the mnemonic and the operand count,
    the byte length, the addressing mode (which only [BR], an
    extended-indirect template, rewrites) and the autoincrement flag
    against the header, and the slices against the length. *)
Definition outcomeChecks (h : result (option Instruction))
    (r : Instruction * option string) : bool :=
  let '(i, e) := r in
  match e with
  | Some _ => true
  | None =>
      Bool.eqb (Checked i) (negb (memberOf (Mnemonic i) unchecked))
      && (negb (VarCount i =? 0) || Checked i)
      && match h with
         | Ok (Some t) =>
             (ByteLength t =? ByteLength i)
             && (String.eqb (AddressingMode t) (AddressingMode i)
                 || String.eqb (AddressingMode t) "extended-indirect")
             && Bool.eqb (AutoIncrement t) (AutoIncrement i)
         | _ => false
         end
      && (len (Raw i) =? ByteLength i)
      && (len (RawOps i) =? ByteLength i - (if Signed i then 2 else 1))
  end.

(** A prefixed instruction is not short-indexed. *)
Definition longWhenSigned (i : Instruction) : bool :=
  negb (Signed i && String.eqb (AddressingMode i) "short-indexed").

(** The outcome of the decoder on an input, as one boolean: it returns
    exactly when the input fits, and what it returns passes the checks;
    [longWhenSigned] is checked where the bit is the one of the input. *)
Definition outcomeOk (bit : bool) (input beyond : list byte)
    (r : result (Instruction * option string)) : bool :=
  match r with
  | Ok r =>
      fitsWith bit input beyond && outcomeChecks (headerWith bit input) r
      && (longWhenSigned (fst r) || negb (Bool.eqb bit (secondBit input)))
  | Panic => negb (fitsWith bit input beyond)
  end.

(** ** Listings *)

(** [Instructions], a slice of instructions that is sorted by address
    through [sort.Interface]. [Swap] writes into the slice: it returns
    the slice after the two assignments. *)
Definition Instructions : Type := list Instruction.

Definition Instructions_Len (inst : Instructions) : Z := len inst.

Definition Instructions_Less (inst : Instructions) (i j : Z) : result bool :=
  a ← index inst i;
  b ← index inst j;
  Ok (Address a <? Address b).

(** [inst[i], inst[j] = inst[j], inst[i]]: the two reads of the right-hand
    side, then the two writes, left to right; the writes are at the
    positions that were read, so they do not fault. *)
Definition Instructions_Swap (inst : Instructions) (i j : Z) : result Instructions :=
  a ← index inst j;
  b ← index inst i;
  Ok (<[Z.to_nat j := b]> (<[Z.to_nat i := a]> inst)).

(** ** The fields of a decoded instruction *)

(** Whether a map field is not [nil]. *)
Definition present {A : Type} (m : option A) : bool :=
  match m with
  | Some _ => true
  | None => false
  end.

(** Every name has a variable in [m], of the type at its position. *)
Fixpoint typed (m : gmap string VariableT) (names types : list string) : bool :=
  match names, types with
  | n :: names', t :: types' =>
      match m !! n with
      | Some v => String.eqb (Var_Type v) t
      | None => false
      end && typed m names' types'
  | [], [] => true
  | _, _ => false
  end.

(** The mnemonics whose resolvers call [Call], and those whose resolvers
    call [Jump]. *)
Definition callMnemonics : list string := ["SCALL"; "LCALL"; "ECALL"].

Definition jumpMnemonics : list string :=
  ["SJMP"; "JBC"; "JBS";
   "JNST"; "JNH"; "JGT"; "JNC"; "JNVT"; "JNV"; "JGE"; "JNE";
   "JST"; "JH"; "JLE"; "JC"; "JVT"; "JV"; "JLT"; "JE";
   "DJNZ"; "DJNZW"; "BR"; "EBR"; "EJMP"; "LJMP"].

(** The opcode byte of an input and whether it stands behind the prefix. *)
Definition prefixed (input : list byte) : bool :=
  match input with
  | b0 :: _ => Byte.eqb b0 xfe
  | [] => false
  end.

Definition opcodeOf (input : list byte) : byte :=
  match input with
  | b0 :: b1 :: _ => if Byte.eqb b0 xfe then b1 else b0
  | b0 :: _ => b0
  | [] => x00
  end.

(** [doE0] turns the template of [0xE3], [EBR], into [BR] when bit 0 of
    the operand byte is clear; the argument is the input with what lies
    behind it in its backing array, which is where the operand byte is
    when the input is the opcode alone. *)
Definition branchIndirect (input : list byte) : bool :=
  Byte.eqb (opcodeOf input) xe3 && negb (prefixed input) && negb (secondBit input).

(** The declared operand names that the catalog [VarObjs] has no entry
    for. *)
Definition uncatalogued : list string :=
  ["breg/#count"; "TBASE"; "INDEX"; "#MASK"; "prt2_reg"].

(** Whether the description and the size of every variable are those of
    the catalog entry of its name. *)
Definition fromCatalog (m : gmap string VariableT) : bool :=
  forallb
    (fun kv =>
       String.eqb (Var_Description (snd kv)) (Var_Description (VarObjs_at (fst kv)))
       && (Var_Bits (snd kv) =? Var_Bits (VarObjs_at (fst kv))))
    (map_to_list m).

(** What is checked on a template: its byte length, its names against
    its types and its operand count, and its names against the
    catalog. *)
Definition templateChecks (t : Instruction) : bool :=
  (1 <=? ByteLength t) && (ByteLength t <=? 6)
  && (len (VarTypes t) =? len (VarStrings t))
  && bool_decide (NoDup (VarStrings t))
  && (0 <=? VarCount t) && (VarCount t <=? len (VarStrings t))
  && ((VarCount t =? len (VarStrings t))
      || memberOf (Mnemonic t) ["SKIP"; "DJNZ"; "DJNZW"])
  && negb (Signed t) && negb (AutoIncrement t)
  && forallb
       (fun name =>
          Bool.eqb (negb (present (VarObjs !! name))) (memberOf name uncatalogued))
       (VarStrings t).

(** What the case analysis checks on a returned instruction against the
    template [t] of its opcode: the fields that [Parse] copies or sets,
    the map fields against the operand count and the mnemonic, and the
    variables against the declared names and types, none when the
    instruction is not checked. *)
Definition shapeChecks (input beyond : list byte) (t : Instruction)
    (i : Instruction) : bool :=
  let br := branchIndirect (input ++ beyond) in
  Byte.eqb (Op i) (opcodeOf input)
  && Bool.eqb (Signed i) (prefixed input)
  && String.eqb (Mnemonic i)
       (if prefixed input then "SGN " +:+ Mnemonic t
        else if br then "BR" else Mnemonic t)
  && (VarCount i =? VarCount t)
  && bool_decide (VarTypes i = VarTypes t)
  && bool_decide (VarStrings i = if br then ["wreg"] else VarStrings t)
  && String.eqb (Description i)
       (if br then "BRANCH INDIRECT." else Description t)
  && Bool.eqb (Ignore i) (Ignore t)
  && Bool.eqb (Reserved i) (Reserved t)
  && Bool.eqb (VariableLength i) (VariableLength t)
  && String.eqb (PseudoString i) ""
  && Bool.eqb (present (Vars i)) (0 <? VarCount i)
  && (negb (VarCount i =? 0)
      || (String.eqb (PseudoCode i) "" && negb (present (XRefs i))
          && negb (present (Calls i)) && negb (present (Jumps i))))
  && Bool.eqb (present (Calls i)) (memberOf (Mnemonic i) callMnemonics)
  && Bool.eqb (present (Jumps i)) (memberOf (Mnemonic i) jumpMnemonics)
  && (negb (Checked i && (0 <? VarCount i))
      || String.eqb (Mnemonic i) "DJNZW"
      || match Vars i with
         | Some m =>
             typed m (VarStrings i) (VarTypes i)
             && (Z.of_nat (size m) =? len (VarStrings i))
         | None => false
         end)
  && (1 <=? ByteLength i) && (ByteLength i <=? 7)
  && match Vars i with
     | Some m => fromCatalog m
     | None => true
     end
  && (negb (Checked i && String.eqb (Mnemonic i) "DJNZW")
      || match Vars i with
         | Some m =>
             present (m !! "breg") && present (m !! "cadd")
             && negb (present (m !! "wreg"))
         | None => false
         end)
  && (Checked i
      || match Vars i with
         | Some m => Z.of_nat (size m) =? 0
         | None => false
         end).

Definition shapeOk (input beyond : list byte)
    (r : result (Instruction * option string)) : bool :=
  match r, selected input with
  | Ok (i, None), Ok (Some t) => shapeChecks input beyond t i
  | Ok (_, None), _ => false
  | _, _ => true
  end.

(** The address and the two slices of a returned instruction against
    the input and what lies behind it in its backing array: [Raw] is
    [in[0:ByteLength]] and [RawOps] is what follows the opcode in it. *)
Definition coreOk (input beyond : list byte) (address : Z)
    (r : result (Instruction * option string)) : Prop :=
  match r with
  | Ok (i, None) =>
      Address i = address
      /\ Raw i = firstn (Z.to_nat (ByteLength i)) (input ++ beyond)
      /\ RawOps i = skipn (if Signed i then 2 else 1) (Raw i)
  | _ => True
  end.

(** The edges that a run of recorder operations files under the target
    [v] of the calls and of the jumps, in the order of the run. *)
Fixpoint callsTo (a : Z) (m : string) (v : Z) (ops : list recorderOp) : list Call :=
  match ops with
  | [] => []
  | OpCall s w :: ops' =>
      if w =? v then mkCall (Sprintf s [AInt w]) m a w :: callsTo a m v ops'
      else callsTo a m v ops'
  | _ :: ops' => callsTo a m v ops'
  end.

Fixpoint jumpsTo (a : Z) (m : string) (v : Z) (ops : list recorderOp) : list Jump :=
  match ops with
  | [] => []
  | OpJump s w :: ops' =>
      if w =? v then mkJump (Sprintf s [AInt w]) m a w :: jumpsTo a m v ops'
      else jumpsTo a m v ops'
  | _ :: ops' => jumpsTo a m v ops'
  end.

(** * Properties *)

(** ** The formatter and the slices on known values *)

Example sprintf_hex : Sprintf "0x%X" [AInt 263] = "0x107".
Proof. reflexivity. Qed.

Example sprintf_pad : Sprintf "R_%02X" [AInt 10] = "R_0A".
Proof. reflexivity. Qed.

Example sprintf_pad_neg : Sprintf "%04X|%d" [AInt (-5); AInt 0] = "-005|0".
Proof. reflexivity. Qed.

Example sprintf_two :
  Sprintf "0x%06X[R_%02X]" [AInt 74565; AInt 16] = "0x012345[R_10]".
Proof. reflexivity. Qed.

Example sprintf_extra : Sprintf "abc" [AInt 7] = "abc%!(EXTRA int=7)".
Proof. reflexivity. Qed.

Example replace_first : Replace1 "R_10 R_11" "R_" "$r_" = "$r_10 R_11".
Proof. reflexivity. Qed.

Example slice_inside : slice [x10; x20; x30; x40] [] 1 3 = Ok [x20; x30].
Proof. reflexivity. Qed.

Example slice_into_capacity : slice [x10; x20] [x30; x40] 1 3 = Ok [x20; x30].
Proof. reflexivity. Qed.

Example slice_past_capacity : slice [x10; x20] [] 1 3 = Panic.
Proof. reflexivity. Qed.

Example slice_empty_at_end : slice [x10] [] 1 1 = Ok [].
Proof. reflexivity. Qed.

Example slice_inverted : slice [x10; x20] [] 2 1 = Panic.
Proof. reflexivity. Qed.

Example index_not_into_capacity : index [x10] 1 = Panic.
Proof. reflexivity. Qed.

(** ** Indexing and slicing *)

(** [dropExact] and [takeExact] are [skipn] and [firstn] with the bound
    checked. *)
Lemma dropExact_spec {A : Type} (n : nat) (s : list A) :
  dropExact n s = if (n <=? length s)%nat then Ok (skipn n s) else Panic.
Proof.
  revert s. induction n as [| n IH]; intros s; [reflexivity |].
  destruct s as [| x s]; [reflexivity |]. cbn [dropExact length skipn].
  rewrite IH. reflexivity.
Qed.

Lemma takeExact_spec {A : Type} (n : nat) (s : list A) :
  takeExact n s = if (n <=? length s)%nat then Ok (firstn n s) else Panic.
Proof.
  revert s. induction n as [| n IH]; intros s; [reflexivity |].
  destruct s as [| x s]; [reflexivity |]. cbn [takeExact length firstn].
  rewrite IH. change (S n <=? S (length s))%nat with (n <=? length s)%nat.
  destruct (n <=? length s)%nat; reflexivity.
Qed.

Lemma segment_spec {A : Type} (s : list A) (lo hi : Z) :
  segment s lo hi =
    if (0 <=? lo) && (lo <=? hi) && (hi <=? len s)
    then Ok (firstn (Z.to_nat (hi - lo)) (skipn (Z.to_nat lo) s))
    else Panic.
Proof.
  unfold segment, len.
  destruct (Z.leb_spec 0 lo) as [H0 | H0]; [| reflexivity].
  destruct (Z.leb_spec lo hi) as [H1 | H1]; [| reflexivity].
  cbn [andb]. rewrite dropExact_spec.
  destruct (Nat.leb_spec (Z.to_nat lo) (length s)) as [H2 | H2].
  - cbn [mbind result_bind]. rewrite takeExact_spec, length_skipn.
    destruct (Z.leb_spec hi (Z.of_nat (length s))) as [H3 | H3];
      destruct (Nat.leb_spec (Z.to_nat (hi - lo)) (length s - Z.to_nat lo))
        as [H4 | H4]; first [reflexivity | lia].
  - cbn [mbind result_bind].
    destruct (Z.leb_spec hi (Z.of_nat (length s))) as [H3 | H3];
      first [reflexivity | lia].
Qed.

(** [s[lo:hi]] is the part of the backing array between the two
    positions when [0 <= lo <= hi <= cap(s)], and faults otherwise. *)
Lemma slice_within_capacity {A : Type} (s beyond : list A) (lo hi : Z) :
  slice s beyond lo hi =
    if (0 <=? lo) && (lo <=? hi) && (hi <=? len s + len beyond)
    then Ok (firstn (Z.to_nat (hi - lo)) (skipn (Z.to_nat lo) (s ++ beyond)))
    else Panic.
Proof.
  unfold slice. rewrite segment_spec. unfold len. rewrite length_app.
  rewrite Nat2Z.inj_add. reflexivity.
Qed.

(** [s[i]] is the element at [i] when [0 <= i < len(s)], and faults
    otherwise. *)
Lemma index_spec {A : Type} (s : list A) (i : Z) (x : A) :
  index s i = Ok x <-> 0 <= i < len s /\ nth_error s (Z.to_nat i) = Some x.
Proof.
  unfold index, len.
  destruct (Z.ltb_spec i 0) as [H | H].
  - split; [discriminate | intros [? _]; lia].
  - change (s !! Z.to_nat i) with (list_lookup (Z.to_nat i) s).
    assert (E : list_lookup (Z.to_nat i) s = nth_error s (Z.to_nat i)).
    { generalize (Z.to_nat i). induction s as [| y s IH]; intros [| n]; cbn;
        try reflexivity. apply IH. }
    rewrite E. destruct (nth_error s (Z.to_nat i)) as [y |] eqn:En.
    + split.
      * intros [= ->]. split; [| reflexivity].
        assert (Z.to_nat i < length s)%nat by (apply nth_error_Some; congruence).
        lia.
      * intros [_ [= ->]]. reflexivity.
    + split; [discriminate | intros [_ ?]; discriminate].
Qed.

(** ** Arithmetic of bytes *)

Lemma u8_range (b : byte) : 0 <= u8 b < 256.
Proof.
  unfold u8. pose proof (Byte.to_N_bounded b) as H.
  lia.
Qed.

Lemma int16_small (z : Z) : -32768 <= z < 32768 -> int16 z = z.
Proof.
  intros H. unfold int16, wrap_signed.
  change (2 ^ (16 - 1)) with 32768. change (2 ^ 16) with 65536.
  rewrite Z.mod_small; lia.
Qed.

Lemma int_small (z : Z) : - 2 ^ 63 <= z < 2 ^ 63 -> int z = z.
Proof.
  intros H. unfold int, wrap_signed.
  change (64 - 1) with 63. replace (2 ^ 64) with (2 * 2 ^ 63) by reflexivity.
  rewrite Z.mod_small; lia.
Qed.


(** A value shifted left by eight bits and a byte have no bit in common. *)
Lemma lor_shifted_byte (k y : Z) :
  0 <= y < 256 -> Z.lor (Z.shiftl k 8) y = 256 * k + y.
Proof.
  intros Hy.
  assert (Hdisj : Z.land (Z.shiftl k 8) y = 0).
  { apply Z.bits_inj'. intros n Hn.
    rewrite Z.land_spec, Z.bits_0.
    destruct (Z.ltb_spec n 8) as [Hlt | Hge].
    - rewrite Z.shiftl_spec_low by lia. reflexivity.
    - replace (Z.testbit y n) with false; [apply andb_false_r |].
      symmetry. destruct (Z.eq_dec y 0) as [-> | Hy0]; [apply Z.bits_0 |].
      apply Z.bits_above_log2; [lia |].
      apply Z.log2_lt_pow2; [lia |].
      apply Z.lt_le_trans with (2 ^ 8); [lia |].
      apply Z.pow_le_mono_r; lia. }
  rewrite <- Z.lxor_lor by exact Hdisj.
  rewrite <- Z.add_nocarry_lxor by exact Hdisj.
  rewrite Z.shiftl_mul_pow2 by lia. lia.
Qed.

Lemma lor_mult256 (c y : Z) :
  c mod 256 = 0 -> 0 <= y < 256 -> Z.lor c y = c + y.
Proof.
  intros Hc Hy.
  assert (Hs : c = Z.shiftl (c / 256) 8).
  { rewrite Z.shiftl_mul_pow2 by lia. change (2 ^ 8) with 256.
    pose proof (Z.div_mod c 256 ltac:(lia)). lia. }
  rewrite Hs at 1. rewrite lor_shifted_byte by exact Hy.
  pose proof (Z.div_mod c 256 ltac:(lia)). lia.
Qed.

Lemma int16_high (z : Z) : 32768 <= z < 65536 -> int16 z = z - 65536.
Proof.
  intros H. unfold int16, wrap_signed.
  change (2 ^ (16 - 1)) with 32768. change (2 ^ 16) with 65536.
  replace (z + 32768) with (z - 32768 + 1 * 65536) by lia.
  rewrite Z.mod_add by lia. rewrite Z.mod_small; lia.
Qed.

Lemma getOffset_unfold (b1 b2 : byte) :
  getOffset [b1; b2] =
  let m := Z.land (u8 b1) 0x07 in
  let h := if Z.land m 0x04 =? 0x04 then Z.lor m 0xFC else m in
  Ok (int (Z.lor (int16 (Z.shiftl (int16 h) 8)) (int16 (u8 b2)))).
Proof. reflexivity. Qed.

Lemma low3_cases (x : Z) :
  0 <= x -> In (Z.land x 0x07) [0; 1; 2; 3; 4; 5; 6; 7].
Proof.
  intros Hx. change 0x07 with (Z.ones 3). rewrite Z.land_ones by lia.
  pose proof (Z.mod_pos_bound x (2 ^ 3) ltac:(lia)) as H.
  change (2 ^ 3) with 8 in *. simpl.
  assert (x mod 8 = 0 \/ x mod 8 = 1 \/ x mod 8 = 2 \/ x mod 8 = 3 \/
          x mod 8 = 4 \/ x mod 8 = 5 \/ x mod 8 = 6 \/ x mod 8 = 7) by lia.
  intuition auto.
Qed.

(** C1. [getOffset] keeps the low three bits of the first byte, extends
    bit 2 of them over the byte by [or] with [0xFC], and reads that byte
    followed by the second byte as a signed 16-bit number. The result is
    the 11-bit two's-complement displacement: it lies in [-1024, 1023],
    low bits [0x03] with second byte [0xFF] give 1023 and low bits [0x04]
    with second byte [0x00] give -1024. *)
Theorem getOffset_displacement (b1 b2 : byte) :
  let m := Z.land (u8 b1) 0x07 in
  let h := if Z.testbit m 2 then Z.lor m 0xFC else m in
  let off := int16 (256 * h + u8 b2) in
  getOffset [b1; b2] = Ok off
  /\ -1024 <= off <= 1023
  /\ off = disp11 m (u8 b2)
  /\ disp11 0x03 0xFF = 1023
  /\ disp11 0x04 0x00 = -1024
  /\ getOffset [x23; xff] = Ok 1023
  /\ getOffset [x24; x00] = Ok (-1024).
Proof.
  intros m h off.
  pose proof (u8_range b1) as H1. pose proof (u8_range b2) as H2.
  assert (Hm : In m [0; 1; 2; 3; 4; 5; 6; 7]) by (apply low3_cases; lia).
  assert (Hoff : off = disp11 m (u8 b2) /\
                 Z.lor (int16 (Z.shiftl (int16 h) 8)) (int16 (u8 b2)) = off).
  { subst off h. simpl in Hm.
    destruct Hm as [E|[E|[E|[E|[E|[E|[E|[E|[]]]]]]]]]; rewrite <- E.
    all: match goal with
         | |- context [if ?c then _ else _] =>
             let v := eval vm_compute in c in change c with v; cbv iota
         end.
    all: match goal with
         | |- context [Z.lor ?a 0xFC] =>
             let v := eval vm_compute in (Z.lor a 0xFC) in
             change (Z.lor a 0xFC) with v
         | _ => idtac
         end.
    all: match goal with
         | |- context [int16 (Z.shiftl (int16 ?k) 8)] =>
             let v := eval vm_compute in (int16 (Z.shiftl (int16 k) 8)) in
             change (int16 (Z.shiftl (int16 k) 8)) with v
         end.
    all: rewrite (int16_small (u8 b2)) by lia.
    all: rewrite lor_mult256 by (reflexivity || lia).
    all: unfold disp11; cbv zeta.
    all: first [ rewrite int16_small by lia | rewrite int16_high by lia ].
    all: match goal with
         | |- context [?a <? ?b] => destruct (Z.ltb_spec a b)
         end; lia. }
  destruct Hoff as [Hd Hl].
  rewrite getOffset_unfold. fold m. cbv zeta.
  replace (Z.land m 4 =? 4) with (Z.testbit m 2).
  2:{ subst m. simpl in Hm.
      destruct Hm as [E|[E|[E|[E|[E|[E|[E|[E|[]]]]]]]]]; rewrite <- E; reflexivity. }
  fold h. rewrite Hl.
  assert (Hr : -1024 <= off <= 1023).
  { rewrite Hd. unfold disp11. cbv zeta. simpl in Hm.
    destruct (Z.ltb_spec (256 * m + u8 b2) 1024); intuition lia. }
  rewrite int_small by lia.
  repeat split; try reflexivity; try lia; exact Hd.
Qed.

(** ** Control-flow recorder *)

Lemma edgesAt_put_eq {E : Type} (m : option (gmap Z (list E))) v l :
  edgesAt (edgesPut m v l) v = l.
Proof. unfold edgesAt, edgesPut. rewrite lookup_insert_eq. reflexivity. Qed.

Lemma edgesAt_put_ne {E : Type} (m : option (gmap Z (list E))) v w l :
  v <> w -> edgesAt (edgesPut m v l) w = edgesAt m w.
Proof.
  intros Hne. unfold edgesAt, edgesPut.
  destruct m as [m |]; cbn [default]; rewrite lookup_insert_ne by exact Hne.
  - reflexivity.
  - rewrite lookup_empty. reflexivity.
Qed.

Lemma XRef_fields (s : string) (v : Z) (i : Instruction) :
  XRefs (Instruction_XRef s v i) =
  if (0x02 <? v) && negb (seen v i)
  then edgesPut (XRefs i) v
         (edgesAt (XRefs i) v ++
          [mkXRef (Sprintf s [AInt v]) (Mnemonic i) (Address i) v])
  else XRefs i.
Proof.
  unfold Instruction_XRef, seen. cbn [XRefs set_XRefs].
  destruct (0x02 <? v); [| reflexivity].
  destruct (XRefs i) as [m |] eqn:Hm; cbn [andb negb].
  - destruct (existsb _ _); reflexivity.
  - reflexivity.
Qed.

Lemma XRef_once (s : string) (v : Z) (i : Instruction) :
  xrefsOnce (Address i) (XRefs i) ->
  xrefsOnce (Address i) (XRefs (Instruction_XRef s v i)).
Proof.
  intros Hinv. rewrite XRef_fields.
  destruct (0x02 <? v) eqn:Hv; cbn [andb]; [| exact Hinv].
  destruct (seen v i) eqn:Hs; cbn [negb]; [exact Hinv |].
  assert (Hnil : edgesAt (XRefs i) v = []).
  { destruct (Hinv v) as [_ Hall]. unfold seen in Hs.
    destruct (edgesAt (XRefs i) v) as [| x l]; [reflexivity |].
    apply Forall_cons in Hall as [[Hx _] _].
    cbn [existsb] in Hs. rewrite Hx, Z.eqb_refl in Hs. discriminate. }
  intros w. destruct (Z.eq_dec v w) as [<- | Hne].
  - rewrite edgesAt_put_eq, Hnil. cbn. split; [lia |].
    constructor; [split; reflexivity | constructor].
  - rewrite edgesAt_put_ne by exact Hne. apply Hinv.
Qed.

Lemma runOps_Address ops i : Address (runOps ops i) = Address i.
Proof.
  revert i. induction ops as [| o ops IH]; intros i; [reflexivity |].
  cbn [runOps fold_left]. fold (runOps ops (runOp o i)). rewrite IH.
  destruct o; reflexivity.
Qed.

Lemma runOps_once ops i :
  xrefsOnce (Address i) (XRefs i) ->
  xrefsOnce (Address i) (XRefs (runOps ops i)).
Proof.
  revert i. induction ops as [| o ops IH]; intros i Hinv; [exact Hinv |].
  cbn [runOps fold_left]. fold (runOps ops (runOp o i)).
  assert (Ha : Address (runOp o i) = Address i) by (destruct o; reflexivity).
  rewrite <- Ha. apply IH. rewrite Ha.
  destruct o; [apply XRef_once; exact Hinv | exact Hinv | exact Hinv].
Qed.

Lemma runOps_calls ops i v :
  length (edgesAt (Calls (runOps ops i)) v) =
  (length (edgesAt (Calls i) v) + countCalls v ops)%nat.
Proof.
  revert i. induction ops as [| o ops IH]; intros i.
  - cbn. lia.
  - cbn [runOps fold_left]. fold (runOps ops (runOp o i)). rewrite IH.
    destruct o as [s w | s w | s w]; cbn [runOp countCalls].
    + reflexivity.
    + unfold Instruction_Call. cbn [Calls set_Calls].
      destruct (Z.eqb_spec w v) as [-> | Hne].
      * rewrite edgesAt_put_eq, length_app. cbn. lia.
      * rewrite edgesAt_put_ne by exact Hne. reflexivity.
    + reflexivity.
Qed.

(** C5. [XRef] records an edge exactly when the target is above 2 and
    the slice under the target holds no edge from the instruction's own
    address, and then appends one edge; from the empty recorder of a
    fresh instruction any run of recorder operations leaves at most one
    cross-reference under each target, all from the instruction's
    address. [Call] and [Jump] append one edge whatever the target and
    whatever is recorded already, so a run that calls [Call] [n] times
    on a target leaves [n] more edges under it. *)
Theorem recorder_dedup (s : string) (v : Z) (i : Instruction) (ops : list recorderOp) :
  let fresh := mkXRef (Sprintf s [AInt v]) (Mnemonic i) (Address i) v in
  let recorded := (0x02 <? v) && negb (seen v i) in
  XRefs (Instruction_XRef s v i) =
    (if recorded then edgesPut (XRefs i) v (edgesAt (XRefs i) v ++ [fresh])
     else XRefs i)
  /\ (recorded = true <->
      2 < v /\ Forall (fun x => XRefFrom x <> Address i) (edgesAt (XRefs i) v))
  /\ xrefsOnce (Address i) (XRefs (runOps ops (set_XRefs None i)))
  /\ edgesAt (Calls (Instruction_Call s v i)) v =
       (edgesAt (Calls i) v ++
        [mkCall (Sprintf s [AInt v]) (Mnemonic i) (Address i) v])%list
  /\ edgesAt (Jumps (Instruction_Jump s v i)) v =
       (edgesAt (Jumps i) v ++
        [mkJump (Sprintf s [AInt v]) (Mnemonic i) (Address i) v])%list
  /\ length (edgesAt (Calls (runOps ops i)) v) =
       (length (edgesAt (Calls i) v) + countCalls v ops)%nat.
Proof.
  intros fresh recorded.
  assert (Hfresh : xrefsOnce (Address i) (XRefs (runOps ops (set_XRefs None i)))).
  { apply (runOps_once ops (set_XRefs None i)).
    intros w. cbn. split; [lia | constructor]. }
  split; [apply XRef_fields |].
  split; [| split; [exact Hfresh |]].
  - subst recorded. rewrite andb_true_iff, Z.ltb_lt, negb_true_iff.
    apply and_iff_compat_l. unfold seen. split.
    + intros Hno. apply Forall_forall. intros x Hx Heq.
      assert (Hex : existsb (fun ins => XRefFrom ins =? Address i)
                      (edgesAt (XRefs i) v) = true).
      { apply existsb_exists. exists x. split.
        - apply list_elem_of_In. exact Hx.
        - apply Z.eqb_eq. exact Heq. }
      congruence.
    + intros Hall.
      destruct (existsb _ _) eqn:Hex; [| reflexivity].
      apply existsb_exists in Hex as (x & Hx & Heq).
      apply Z.eqb_eq in Heq. rewrite Forall_forall in Hall.
      apply list_elem_of_In in Hx. destruct (Hall x Hx Heq).
  - split; [| split].
    + unfold Instruction_Call. cbn [Calls set_Calls]. apply edgesAt_put_eq.
    + unfold Instruction_Jump. cbn [Jumps set_Jumps]. apply edgesAt_put_eq.
    + apply runOps_calls.
Qed.

(** ** The decoder, opcode by opcode *)

Lemma bind_returns {A B : Type} (r : result A) (k : A -> result B) (y : B) :
  r ≫= k = Ok y -> exists x, r = Ok x /\ k x = Ok y.
Proof.
  destruct r as [a |]; intros H; [exists a; split; [reflexivity | exact H] |].
  discriminate H.
Qed.

Lemma returns_true {A : Type} (r : result A) :
  returns r = true <-> exists a, r = Ok a.
Proof.
  destruct r as [a |]; cbn; split.
  - intros _. exists a. reflexivity.
  - reflexivity.
  - discriminate.
  - intros [a H]. discriminate H.
Qed.

Lemma returns_false {A : Type} (r : result A) :
  returns r = false <-> r = Panic.
Proof. destruct r; cbn; split; (reflexivity || discriminate). Qed.

Lemma Ok_intro {A : Type} (r : result A) (P : A -> Prop) :
  match r with
  | Ok a => P a
  | Panic => False
  end -> exists a, r = Ok a /\ P a.
Proof.
  destruct r as [a |]; [| intros []]. intros H. exists a. split; [reflexivity | exact H].
Qed.

Lemma decoded_intro (r : result (Instruction * option string))
    (P : Instruction -> Prop) :
  match r with
  | Ok (i, None) => P i
  | _ => False
  end -> exists i, r = Ok (i, None) /\ P i.
Proof.
  destruct r as [[i [e |]] |]; try (intros []).
  intros H. exists i. split; [reflexivity | exact H].
Qed.

Lemma atLeast_spec {A : Type} (n : nat) (l : list A) :
  atLeast n l = true <-> (n <= length l)%nat.
Proof.
  revert l. induction n as [| n IH]; intros l; cbn [atLeast].
  - split; [lia | reflexivity].
  - destruct l as [| x l]; cbn [length].
    + split; [discriminate | lia].
    + rewrite IH. lia.
Qed.

Lemma indexedMode_secondBit (input : list byte) (i : Instruction) :
  indexedMode input i = indexedModeWith (secondBit input) input i.
Proof.
  unfold indexedMode, indexedModeWith, secondBit.
  destruct (isMode i "indexed" && VariableLength i); [| reflexivity].
  destruct (index input 1); reflexivity.
Qed.

Lemma indirectMode_secondBit (input : list byte) (i : Instruction) :
  indirectMode input i = indirectModeWith (secondBit input) input i.
Proof.
  unfold indirectMode, indirectModeWith, secondBit.
  destruct (isMode i "indirect"); [| reflexivity].
  destruct (index input 1); reflexivity.
Qed.

Lemma header_secondBit (input : list byte) :
  header input = headerWith (secondBit input) input.
Proof.
  unfold header, headerWith.
  destruct (index input 0) as [b0 |]; [| reflexivity].
  cbn [mbind result_bind].
  destruct (if Byte.eqb b0 xfe then _ else _) as [[[signed b] table] |];
    [| reflexivity].
  cbn [mbind result_bind]. destruct (table b) as [t |]; [| reflexivity].
  rewrite indexedMode_secondBit.
  destruct (indexedModeWith _ _ _) as [i |]; [| reflexivity].
  cbn [mbind result_bind]. rewrite indirectMode_secondBit. reflexivity.
Qed.

(** The decoder reads its input through [in[0]], [in[1]] and the
    backing array only. *)
Lemma ParseWith_reads (regName : string -> Z -> string) (bit : bool)
    (input beyond input' beyond' : list byte) (address : Z) :
  index input 0 = index input' 0 ->
  index input 1 = index input' 1 ->
  (input ++ beyond = input' ++ beyond')%list ->
  ParseWith regName bit input beyond address
  = ParseWith regName bit input' beyond' address.
Proof.
  intros H0 H1 Happ.
  unfold ParseWith, indexedModeWith, indirectModeWith, signedAdjust, slice.
  rewrite H0, H1, Happ. reflexivity.
Qed.

Lemma headerWith_reads (bit : bool) (input input' : list byte) :
  index input 0 = index input' 0 ->
  index input 1 = index input' 1 ->
  headerWith bit input = headerWith bit input'.
Proof.
  intros H0 H1. unfold headerWith, indexedModeWith, indirectModeWith.
  rewrite H0, H1. reflexivity.
Qed.

Lemma outcomeOk_reads (bit : bool) (input beyond input' beyond' : list byte)
    (r : result (Instruction * option string)) :
  index input 0 = index input' 0 ->
  index input 1 = index input' 1 ->
  (input ++ beyond = input' ++ beyond')%list ->
  outcomeOk bit input beyond r = outcomeOk bit input' beyond' r.
Proof.
  intros H0 H1 Happ. unfold outcomeOk, fitsWith, secondBit.
  rewrite (headerWith_reads bit input input' H0 H1), H1, Happ. reflexivity.
Qed.

Section Exhaustive.

Variable regName : string -> Z -> string.

Lemma Parse_secondBit (input beyond : list byte) (address : Z) :
  Parse regName input beyond address
  = ParseWith regName (secondBit input) input beyond address.
Proof.
  unfold Parse, ParseWith.
  destruct (index input 0) as [b0 |]; [| reflexivity].
  cbn [mbind result_bind].
  destruct (if Byte.eqb b0 xfe then _ else _) as [[[signed b] table] |];
    [| reflexivity].
  cbn [mbind result_bind]. destruct (table b) as [t |]; [| reflexivity].
  cbv zeta. rewrite indexedMode_secondBit.
  destruct (indexedModeWith _ _ _) as [i |]; [| reflexivity].
  cbn [mbind result_bind]. rewrite indirectMode_secondBit. reflexivity.
Qed.

(** What lies behind the first byte, or behind the first two, one case
    for each length up to the longest instruction. *)
Ltac shapes rest :=
  destruct rest as [| ?b2 rest];
  [| destruct rest as [| ?b3 rest];
     [| destruct rest as [| ?b4 rest];
        [| destruct rest as [| ?b5 rest];
           [| destruct rest as [| ?b6 rest];
              [| destruct rest as [| ?b7 rest] ] ] ] ] ].

Ltac settle := vm_compute; reflexivity.

(** Every opcode of the two tables, at every length of the backing array
    and both values of the bit, on an input of two bytes. [BR]/[EBR]
    ([0xE3]) branches on its operand byte, which is taken value by
    value. *)
Lemma ParseWith_outcome_two (bit : bool) (b0 b1 : byte) (beyond : list byte)
    (address : Z) :
  outcomeOk bit [b0; b1] beyond (ParseWith regName bit [b0; b1] beyond address)
  = true.
Proof.
  destruct (Byte.eqb b0 xe3) eqn:He3.
  - destruct b0; try discriminate He3. clear He3.
    destruct bit; shapes beyond; destruct b1; settle.
  - destruct (Byte.eqb b0 xfe) eqn:Hfe.
    + destruct b0; try discriminate Hfe. clear Hfe He3.
      destruct bit; destruct b1; shapes beyond; settle.
    + destruct bit; destruct b0; try discriminate He3; try discriminate Hfe;
        clear He3 Hfe; shapes beyond; settle.
Qed.

(** The same on every input: an input of one byte by its opcode and the
    length of the backing array, and a longer one as its first two bytes
    with the others behind them. *)
Lemma ParseWith_outcome (bit : bool) (input beyond : list byte) (address : Z) :
  outcomeOk bit input beyond (ParseWith regName bit input beyond address) = true.
Proof.
  destruct input as [| b0 rest]; [destruct bit; settle |].
  destruct rest as [| b1 rest].
  { destruct (Byte.eqb b0 xe3) eqn:He3.
    - destruct b0; try discriminate He3. clear He3.
      destruct beyond as [| b1 beyond]; [destruct bit; settle |].
      destruct bit; shapes beyond; destruct b1; settle.
    - destruct bit; destruct b0; try discriminate He3; clear He3;
        shapes beyond; settle. }
  rewrite (ParseWith_reads regName bit (b0 :: b1 :: rest) beyond
             [b0; b1] (rest ++ beyond) address) by reflexivity.
  rewrite (outcomeOk_reads bit (b0 :: b1 :: rest) beyond
             [b0; b1] (rest ++ beyond)) by reflexivity.
  apply ParseWith_outcome_two.
Qed.

Lemma fitsWith_fits (input beyond : list byte) :
  fitsWith (secondBit input) input beyond = true <-> fits input beyond.
Proof.
  unfold fitsWith, fits, headerLength. rewrite <- header_secondBit.
  destruct (header input) as [[h |] |].
  - rewrite atLeast_spec. unfold len. rewrite length_app.
    destruct (Z.le_gt_cases 0 (ByteLength h)); lia.
  - split; [intros _; exact I | reflexivity].
  - split; [discriminate | intros []].
Qed.

(** [Parse] returns exactly on the inputs that cover the reads of its
    header and whose capacity covers the final byte length: no resolver
    reads beyond the operand bytes that the length announces. *)
Lemma Parse_returns_iff (input beyond : list byte) (address : Z) :
  returns (Parse regName input beyond address) = true <-> fits input beyond.
Proof.
  rewrite <- fitsWith_fits, Parse_secondBit.
  pose proof (ParseWith_outcome (secondBit input) input beyond address) as H.
  unfold outcomeOk in H.
  destruct (ParseWith regName (secondBit input) input beyond address) as [r |];
    cbn [returns].
  - apply andb_prop in H as [H _]. apply andb_prop in H as [H _].
    rewrite H. tauto.
  - apply negb_true_iff in H. rewrite H. tauto.
Qed.

Lemma Parse_outcome (input beyond : list byte) (address : Z)
    (r : Instruction * option string) :
  Parse regName input beyond address = Ok r ->
  outcomeChecks (header input) r = true /\ longWhenSigned (fst r) = true.
Proof.
  rewrite Parse_secondBit, header_secondBit. intros HP.
  pose proof (ParseWith_outcome (secondBit input) input beyond address) as H.
  rewrite HP in H. unfold outcomeOk in H.
  apply andb_prop in H as [H Hs]. apply andb_prop in H as [_ H].
  split; [exact H |].
  rewrite eqb_reflx in Hs. cbn [negb] in Hs. rewrite orb_false_r in Hs. exact Hs.
Qed.

End Exhaustive.

(** ** The decoder *)

Section Decoder_properties.

Variable regName : string -> Z -> string.

(** The three ways out of the table lookup of [Parse]: a fault while the
    opcode byte is read, a miss, and a hit. *)
Lemma Parse_lookup_faults (input beyond : list byte) (address : Z) :
  selected input = Panic -> Parse regName input beyond address = Panic.
Proof.
  unfold selected, Parse.
  destruct (index input 0) as [b0 |]; [| reflexivity].
  cbn [mbind result_bind].
  destruct (Byte.eqb b0 xfe); [| discriminate].
  destruct (index input 1) as [b1 |]; [discriminate | reflexivity].
Qed.

Lemma Parse_miss (input beyond : list byte) (address : Z) :
  selected input = Ok None ->
  Parse regName input beyond address
  = Ok (placeholder, Some "Unable to find instruction!").
Proof.
  unfold selected, Parse.
  destruct (index input 0) as [b0 |]; [| discriminate].
  cbn [mbind result_bind].
  destruct (Byte.eqb b0 xfe).
  - destruct (index input 1) as [b1 |]; [| discriminate].
    cbn [mbind result_bind]. intros H. injection H as ->. reflexivity.
  - cbn [mbind result_bind]. intros H. injection H as ->. reflexivity.
Qed.

Lemma Parse_hit (input beyond : list byte) (address : Z) (t : Instruction)
    (r : Instruction * option string) :
  selected input = Ok (Some t) ->
  Parse regName input beyond address = Ok r -> snd r = None.
Proof.
  unfold selected, Parse.
  destruct (index input 0) as [b0 |]; [| discriminate].
  cbn [mbind result_bind].
  destruct (Byte.eqb b0 xfe).
  - destruct (index input 1) as [b1 |]; [| discriminate].
    cbn [mbind result_bind]. intros H. injection H as ->. intros H.
    repeat (apply bind_returns in H; destruct H as (? & _ & H)).
    injection H as <-. reflexivity.
  - cbn [mbind result_bind]. intros H. injection H as ->. intros H.
    repeat (apply bind_returns in H; destruct H as (? & _ & H)).
    injection H as <-. reflexivity.
Qed.

(** An error comes with the placeholder only. *)
Lemma Parse_error_placeholder (input beyond : list byte) (address : Z)
    (i : Instruction) (err : string) :
  Parse regName input beyond address = Ok (i, Some err) ->
  selected input = Ok None /\ i = placeholder.
Proof.
  intros HP. destruct (selected input) as [[t |] |] eqn:Hsel.
  - apply (Parse_hit _ _ _ _ _ Hsel) in HP. discriminate HP.
  - rewrite (Parse_miss _ beyond address Hsel) in HP. injection HP as <- _.
    split; reflexivity.
  - rewrite (Parse_lookup_faults _ beyond address Hsel) in HP. discriminate HP.
Qed.

(** C8. When the opcode byte (the first byte, or the second after the
    prefix [0xFE]) has no entry in its table, [Parse] returns an error
    with an instruction of byte length 1. Every other return of [Parse]
    carries no error: a non-nil error means that the opcode is unknown,
    and on a table hit the error is nil. *)
Theorem Parse_error_unknown_opcode (input beyond : list byte) (address : Z) :
  match selected input with
  | Ok None =>
      exists err : string,
        Parse regName input beyond address = Ok (placeholder, Some err)
        /\ ByteLength placeholder = 1
  | Ok (Some _) =>
      forall r, Parse regName input beyond address = Ok r -> snd r = None
  | Panic => Parse regName input beyond address = Panic
  end
  /\ (forall i err, Parse regName input beyond address = Ok (i, Some err) ->
        selected input = Ok None /\ ByteLength i = 1).
Proof.
  split.
  - destruct (selected input) as [[t |] |] eqn:Hsel.
    + intros r. apply (Parse_hit _ _ _ _ _ Hsel).
    + exists "Unable to find instruction!".
      split; [apply Parse_miss; exact Hsel | reflexivity].
    + apply Parse_lookup_faults. exact Hsel.
  - intros i err HP. apply Parse_error_placeholder in HP as [Hsel ->].
    split; [exact Hsel | reflexivity].
Qed.


(** ** The flag [Checked] *)






(** [doC0] alone does set the flag on a mode that none of its cases
    takes. *)
Lemma doC0_checks_eagerly (instr : Instruction) :
  isOp instr xc1 = false -> isOp instr xc5 = false ->
  modeIn instr ["direct"; "immediate"; "indirect"; "indirect+"; "indexed";
                "short-indexed"; "long-indexed"] = false ->
  exists instr', doC0 regName instr = Ok instr' /\ Checked instr' = true.
Proof.
  intros H1 H5 Hm. unfold doC0.
  assert (Hop : forall b, isOp (set_Checked true instr) b = isOp instr b)
    by reflexivity.
  assert (Hmode : forall m, isMode (set_Checked true instr) m = isMode instr m)
    by reflexivity.
  cbv zeta. rewrite !Hop, !Hmode, H1, H5.
  unfold modeIn in Hm. cbn [existsb] in Hm. fold (isMode instr) in Hm.
  repeat (apply orb_false_elim in Hm; destruct Hm as [?Hm Hm]).
  unfold isMode in *.
  repeat match goal with H : String.eqb _ _ = false |- _ => rewrite H; clear H end.
  cbn [orb mbind result_bind]. eexists. split; reflexivity.
Qed.

Lemma headerLength_faults (input : list byte) :
  headerLength input = Panic <->
  ~ (1 <= len input /\ (readsSecondByte (hd x00 input) = true -> 2 <= len input)).
Proof.
  destruct input as [| b0 [| b1 rest]].
  - split; [intros _ [H _]; unfold len in H; cbn in H; lia | reflexivity].
  - destruct b0;
      match goal with
      | |- headerLength ?l = _ <-> ~ (_ /\ (readsSecondByte ?b = _ -> _)) =>
          let h := eval vm_compute in (headerLength l) in
          let r := eval vm_compute in (readsSecondByte b) in
          change (headerLength l) with h; change (readsSecondByte b) with r
      end; unfold len; cbn [length]; split;
      first [ discriminate
            | intros H; exfalso; apply H; split; [lia | discriminate]
            | intros _ [_ H]; specialize (H eq_refl); lia
            | reflexivity ].
  - split.
    + intros H. exfalso.
      assert (Hh : header (b0 :: b1 :: rest) = Panic).
      { unfold headerLength in H.
        destruct (header (b0 :: b1 :: rest)) as [[h |] |];
          [discriminate H | discriminate H | reflexivity]. }
      clear H. unfold header in Hh.
      change (index (b0 :: b1 :: rest) 0) with (Ok b0) in Hh.
      change (index (b0 :: b1 :: rest) 1) with (Ok b1) in Hh.
      cbn [mbind result_bind] in Hh.
      destruct (Byte.eqb b0 xfe); cbn [mbind result_bind] in Hh;
        match type of Hh with
        | context [match ?table ?b with _ => _ end] =>
            destruct (table b) as [t |]; [| discriminate Hh]
        end;
        unfold indexedMode, indirectMode in Hh;
        change (index (b0 :: b1 :: rest) 1) with (Ok b1) in Hh;
        destruct (isMode t "indexed" && VariableLength t);
        cbn [mbind result_bind] in Hh;
        try destruct (Z.land (u8 b1) 1 =? 1);
        cbn [mbind result_bind] in Hh;
        match type of Hh with
        | context [isMode ?i "indirect"] => destruct (isMode i "indirect")
        end;
        cbn [mbind result_bind] in Hh;
        try destruct (Z.land (u8 b1) 1 =? 1);
        discriminate Hh.
    + intros H. exfalso. apply H. unfold len. cbn [length]. split; intros; lia.
Qed.

(** C2. After the prefix [0xFE] the opcode [0x4C] is looked up in the
    signed table ([MUL], where the unsigned table has [MULU]); the
    instruction is one byte longer than the unsigned template of [0x4C]
    (5 and not 4), its mnemonic is [SGN MUL], its operand bytes are
    [in[2:5]] and its raw bytes [in[0:5]]. The input holds the five bytes
    of the instruction. *)
Theorem signed_prefix_selects_MUL (rest beyond : list byte) (address : Z) :
  3 <= len rest ->
  exists i t u,
    Parse regName (xfe :: x4c :: rest) beyond address = Ok (i, None)
    /\ signedInstructions x4c = Some t /\ unsignedInstructions x4c = Some u
    /\ Mnemonic t = "MUL" /\ Mnemonic u = "MULU"
    /\ Op i = x4c /\ Signed i = true
    /\ Description i = Description t /\ VarStrings i = VarStrings t
    /\ ByteLength u = 4 /\ ByteLength i = ByteLength u + 1 /\ ByteLength i = 5
    /\ Mnemonic i = "SGN MUL"
    /\ slice (xfe :: x4c :: rest) beyond 2 (ByteLength i) = Ok (RawOps i)
    /\ slice (xfe :: x4c :: rest) beyond 0 (ByteLength i) = Ok (Raw i)
    /\ RawOps i = firstn 3 rest
    /\ Raw i = xfe :: x4c :: firstn 3 rest.
Proof.
  intros Hlen.
  destruct rest as [| b2 [| b3 [| b4 rest]]];
    try (unfold len in Hlen; cbn [length] in Hlen; lia).
  cut (exists r, Parse regName (xfe :: x4c :: b2 :: b3 :: b4 :: rest) beyond address = Ok r
                 /\ snd r = None /\ Op (fst r) = x4c /\ Signed (fst r) = true
                 /\ Description (fst r) = "MULTIPLY INTEGERS."
                 /\ VarStrings (fst r) = ["lreg"; "wreg"; "waop"]
                 /\ ByteLength (fst r) = 5 /\ Mnemonic (fst r) = "SGN MUL"
                 /\ RawOps (fst r) = [b2; b3; b4]
                 /\ Raw (fst r) = [xfe; x4c; b2; b3; b4]).
  { intros ([i e] & HP & He & Hop & Hs & Hd & Hv & Hb & Hm & Hro & Hr).
    cbn [fst snd] in *. subst e.
    exists i. eexists. eexists.
    split; [exact HP |]. split; [reflexivity |]. split; [reflexivity |].
    rewrite Hop, Hs, Hd, Hv, Hb, Hm, Hro, Hr.
    repeat (split; [first [reflexivity | vm_compute; reflexivity] |]).
    reflexivity. }
  apply Ok_intro. vm_compute. repeat (split; [reflexivity |]). reflexivity.
Qed.

(** C6. [0x20 0x05] at address [0x100] is a short jump of two bytes with
    displacement 5: the operand [cadd] is [0x107], and the recorder
    holds one jump edge, from [0x100] to [0x107], and no other edge. *)
Theorem short_jump_scenario (beyond : list byte) :
  exists i,
    Parse regName [x20; x05] beyond 0x100 = Ok (i, None)
    /\ Mnemonic i = "SJMP" /\ ByteLength i = 2
    /\ getOffset [Op i; x05] = Ok 5
    /\ Var_Value (varsAt (Vars i) "cadd") = "0x107"
    /\ Jumps i = Some {[ 0x107 := [mkJump "0x107" "SJMP" 0x100 0x107] ]}
    /\ 0x107 = Address i + ByteLength i + 5
    /\ Calls i = None /\ XRefs i = None.
Proof.
  apply decoded_intro. vm_compute.
  repeat (split; [reflexivity |]). reflexivity.
Qed.


(** *** Where the decoder departs from the claims *)

(** On an opcode of the unsigned table whose template is indexed and of
    variable length, bit 0 of the second byte decides between the long
    and the short form, and the long form is one byte longer. *)
Lemma unsigned_indexed_disambiguation (op b1 : byte) (rest beyond : list byte)
    (address : Z) (t : Instruction) :
  Byte.eqb op xfe = false ->
  unsignedInstructions op = Some t ->
  isMode t "indexed" = true -> VariableLength t = true ->
  fits (op :: b1 :: rest) beyond ->
  exists i,
    Parse regName (op :: b1 :: rest) beyond address = Ok (i, None)
    /\ AddressingMode i =
         (if Z.land (u8 b1) 1 =? 1 then "long-indexed" else "short-indexed")
    /\ ByteLength i =
         (if Z.land (u8 b1) 1 =? 1 then ByteLength t + 1 else ByteLength t).
Proof.
  intros Hop Ht Hmode Hvl Hfit.
  apply (Parse_returns_iff regName _ beyond address) in Hfit.
  apply returns_true in Hfit as [[i e] HP].
  assert (Hsel : selected (op :: b1 :: rest) = Ok (Some t)).
  { unfold selected. change (index (op :: b1 :: rest) 0) with (Ok op).
    cbn [mbind result_bind]. rewrite Hop, Ht. reflexivity. }
  pose proof (Parse_hit _ _ _ _ _ Hsel HP) as He. cbn [snd] in He. subst e.
  exists i. split; [exact HP |].
  destruct (Parse_outcome regName _ beyond address _ HP) as [Hchk _].
  assert (Hhdr : header (op :: b1 :: rest) =
                 Ok (Some (if Z.land (u8 b1) 1 =? 1
                           then set_AddressingMode "long-indexed"
                                  (set_ByteLength (ByteLength t + 1) t)
                           else set_AddressingMode "short-indexed" t))).
  { unfold header. change (index (op :: b1 :: rest) 0) with (Ok op).
    cbn [mbind result_bind]. rewrite Hop. cbn [mbind result_bind]. rewrite Ht.
    unfold indexedMode. rewrite Hmode, Hvl. cbn [andb].
    change (index (op :: b1 :: rest) 1) with (Ok b1). cbn [mbind result_bind].
    destruct (Z.land (u8 b1) 1 =? 1); reflexivity. }
  rewrite Hhdr in Hchk. unfold outcomeChecks in Hchk.
  repeat match goal with
         | Hc : _ && _ = true |- _ => apply andb_prop in Hc; destruct Hc
         end.
  destruct (Z.land (u8 b1) 1 =? 1);
    cbn [AddressingMode ByteLength set_AddressingMode set_ByteLength] in *;
    match goal with
    | Hm : String.eqb ?m (AddressingMode i) || String.eqb ?m _ = true,
      Hb : (?n =? ByteLength i) = true |- _ =>
        match n with context [ByteLength t] => idtac end;
        apply Z.eqb_eq in Hb; rewrite <- Hb;
        change (String.eqb m "extended-indirect") with false in Hm;
        rewrite orb_false_r in Hm; apply String.eqb_eq in Hm; rewrite <- Hm
    end; split; reflexivity.
Qed.

(** No instruction behind the prefix [0xFE] is decoded short-indexed:
    the bit that [Parse] tests there is bit 0 of the opcode byte, which
    is set in every indexed opcode of the signed table. *)
Lemma signed_never_short_indexed (input beyond : list byte) (address : Z)
    (i : Instruction) (e : option string) :
  Parse regName input beyond address = Ok (i, e) ->
  Signed i = true -> AddressingMode i <> "short-indexed".
Proof.
  intros HP Hs Hm.
  destruct (Parse_outcome regName input beyond address _ HP) as [_ H].
  unfold longWhenSigned in H. cbn [fst] in H. rewrite Hs, Hm in H.
  discriminate H.
Qed.

(** C3 (the code departs from the claim on the signed table). The signed
    template of [0x4F] is indexed and of variable length, with nominal
    length 5. Behind the prefix, the second byte of the input is the
    opcode itself: whatever the operand bytes are, also with bit 0 of the
    first operand byte clear, the instruction is long-indexed and 7 bytes
    long; the input with bit 0 of the second byte cleared is the opcode
    [0x4E], decoded indirect and 5 bytes long, not short-indexed. *)
Theorem signed_indexed_tests_opcode_byte (b2 b3 b4 b5 b6 : byte)
    (beyond : list byte) (address : Z) :
  (exists t, signedInstructions x4f = Some t
             /\ AddressingMode t = "indexed" /\ VariableLength t = true
             /\ ByteLength t = 5)
  /\ (exists i, Parse regName [xfe; x4f; b2; b3; b4; b5; b6] beyond address = Ok (i, None)
                /\ AddressingMode i = "long-indexed" /\ ByteLength i = 7
                /\ RawOps i = [b2; b3; b4; b5; b6])
  /\ (exists i, Parse regName [xfe; x4e; b2; b3; b4; b5; b6] beyond address = Ok (i, None)
                /\ AddressingMode i = "indirect" /\ ByteLength i = 5).
Proof.
  split; [| split].
  - eexists. split; [reflexivity |]. repeat split; reflexivity.
  - apply decoded_intro. vm_compute. repeat split; reflexivity.
  - apply decoded_intro. vm_compute. repeat split; reflexivity.
Qed.

(** The resolver of the conditional jumps adds the operand byte as a
    number between 0 and 255 to the address behind the instruction, in
    64-bit arithmetic, and files one jump edge, under that target. Where
    the sum does not wrap, the target is not before the end of the
    instruction, and at most 255 bytes behind it. *)
Lemma doCONDJMP_forward_only (instr : Instruction) (r0 : byte) (ops : list byte)
    (t0 : string) (ts : list string) :
  RawOps instr = r0 :: ops -> VarTypes instr = t0 :: ts ->
  - 2 ^ 63 <= Address instr + ByteLength instr ->
  Address instr + ByteLength instr + u8 r0 < 2 ^ 63 ->
  exists instr' target,
    doCONDJMP instr = Ok instr'
    /\ target = Address instr + ByteLength instr + u8 r0
    /\ Address instr + ByteLength instr <= target
       <= Address instr + ByteLength instr + 255
    /\ edgesAt (Jumps instr') target =
         (edgesAt (Jumps instr) target ++
          [mkJump (Sprintf "0x%X" [AInt target]) (Mnemonic instr) (Address instr)
             target])%list
    /\ (forall v, v <> target ->
          edgesAt (Jumps instr') v = edgesAt (Jumps instr) v).
Proof.
  intros Hr Ht Hlo Hhi. pose proof (u8_range r0) as Hu.
  assert (Hval : int (int (Address instr + ByteLength instr) + u8 r0)
                 = Address instr + ByteLength instr + u8 r0).
  { rewrite (int_small (Address instr + ByteLength instr)) by lia.
    apply int_small. lia. }
  unfold doCONDJMP. rewrite Hr.
  change (index (r0 :: ops) 0) with (Ok r0). cbn [mbind result_bind].
  cbv zeta. rewrite Hval.
  set (target := Address instr + ByteLength instr + u8 r0).
  assert (Hvt : VarTypes (Instruction_Jump "0x%X" target instr) = t0 :: ts)
    by exact Ht.
  rewrite Hvt. change (index (t0 :: ts) 0) with (Ok t0).
  cbn [mbind result_bind]. eexists. exists target.
  split; [reflexivity |]. split; [reflexivity |]. split; [unfold target; lia |].
  split.
  - cbn [Jumps set_Checked set_Vars Instruction_Jump set_Jumps].
    apply edgesAt_put_eq.
  - intros v Hv. cbn [Jumps set_Checked set_Vars Instruction_Jump set_Jumps].
    apply edgesAt_put_ne. intros E. apply Hv. symmetry. exact E.
Qed.


(** C4 (the code departs from the claim on the one-byte and two-byte
    displacements). The operand bytes are read unsigned. [JNE] with the
    displacement byte [0xFE] at [0x100] jumps to [0x100 + 2 + 254], not to
    [0x100 + 2 - 2]; so do [JBC] and [DJNZ] from the end of their three
    bytes; [LJMP] with the bytes [0xFE 0xFF] at [0x1000] jumps to
    [0x1000 + 3 + 65534], not to [0x1000 + 3 - 2]. The extended forms
    do as the claim says: [EJMP] and [ECALL] with the bytes
    [0xFE 0xFF 0xFF] at [0x1000] go to [0x1000 + 4 - 2], the mask to 21
    bits hiding that the three bytes are read unsigned too. *)
Theorem branch_displacement_read_unsigned (beyond : list byte) :
  (exists i, Parse regName [xd7; xfe] beyond 0x100 = Ok (i, None)
             /\ Jumps i = Some {[ 0x200 := [mkJump "0x200" "JNE" 0x100 0x200] ]}
             /\ 0x200 = 0x100 + ByteLength i + 254
             /\ wrap_signed 8 (u8 xfe) = -2)
  /\ (exists i, Parse regName [x30; x10; xfe] beyond 0x100 = Ok (i, None)
                /\ map JumpTo (edgesAt (Jumps i) (0x100 + 3 + 254)) = [0x100 + 3 + 254]
                /\ edgesAt (Jumps i) (0x100 + 3 - 2) = [])
  /\ (exists i, Parse regName [xe0; x10; xfe] beyond 0x100 = Ok (i, None)
                /\ map JumpTo (edgesAt (Jumps i) (0x100 + 3 + 254)) = [0x100 + 3 + 254]
                /\ edgesAt (Jumps i) (0x100 + 3 - 2) = [])
  /\ (exists i, Parse regName [xe7; xfe; xff] beyond 0x1000 = Ok (i, None)
                /\ map JumpTo (edgesAt (Jumps i) (0x1000 + 3 + 65534))
                   = [0x1000 + 3 + 65534]
                /\ edgesAt (Jumps i) (0x1000 + 3 - 2) = []
                /\ wrap_signed 16 (le16 xfe xff) = -2)
  /\ (exists i, Parse regName [xe6; xfe; xff; xff] beyond 0x1000 = Ok (i, None)
                /\ map JumpTo (edgesAt (Jumps i) (0x1000 + 4 - 2)) = [0x1000 + 4 - 2]
                /\ wrap_signed 24 (le24 xfe xff xff) = -2)
  /\ (exists i, Parse regName [xf1; xfe; xff; xff] beyond 0x1000 = Ok (i, None)
                /\ map CallTo (edgesAt (Calls i) (0x1000 + 4 - 2)) = [0x1000 + 4 - 2]).
Proof.
  split; [| split; [| split; [| split; [| split]]]]; apply decoded_intro; vm_compute;
    repeat (split; [reflexivity |]); reflexivity.
Qed.

(** The indirect loop of [doMIDDLE] at an operand position other than
    [0]: the byte is masked with [0xFE] before it is named and
    cross-referenced. *)
Lemma middleIndirectBody_operand (i : Z) (varStr : string) (instr : Instruction)
    (vars : gmap string VariableT) (b : positive) :
  middleIndirectBody regName i varStr (mkLoop instr vars (Z.pos b))
  = (r ← index (RawOps instr) (Z.pos b);
     let v := Z.land (u8 r) 0xFE in
     t ← index (VarTypes instr) i;
     Ok (mkLoop (Instruction_XRef (regName "R_%02X" v) v instr)
           (<[varStr := resolved varStr (Sprintf (regName "R_%02X" v) [AInt v]) t]> vars)
           (Z.pos b - 1))).
Proof.
  unfold middleIndirectBody. cbn [ls_instr ls_b ls_vars].
  destruct (index (RawOps instr) (Z.pos b)) as [r|]; reflexivity.
Qed.

(** The same position in the indirect loop of [doC0]: masked as well,
    and no edge recorded. *)
Lemma c0IndirectBody_operand (i : Z) (varStr : string) (instr : Instruction)
    (vars : gmap string VariableT) (b : positive) :
  c0IndirectBody regName i varStr (mkLoop instr vars (Z.pos b))
  = (r ← index (RawOps instr) (Z.pos b);
     let v := Z.land (u8 r) 0xFE in
     t ← index (VarTypes instr) i;
     Ok (mkLoop instr
           (<[varStr := resolved varStr (Sprintf (regName "R_%02X" v) [AInt v]) t]> vars)
           (Z.pos b - 1))).
Proof.
  unfold c0IndirectBody. cbn [ls_instr ls_b ls_vars].
  destruct (index (RawOps instr) (Z.pos b)) as [r|]; reflexivity.
Qed.

(** The pointer, at position [0], with the autoincrement flag: [doMIDDLE]
    closes the bracket after the [+], [doC0] before it. *)
Lemma indirect_pointer_formats (i : Z) (varStr : string) (instr : Instruction)
    (vars : gmap string VariableT) :
  AutoIncrement instr = true ->
  middleIndirectBody regName i varStr (mkLoop instr vars 0)
  = (r ← index (RawOps instr) 0;
     let v := Z.land (Z.land (u8 r) 0xFE) 0xFE in
     let str := regName "[R_%02X+" v +:+ "]" in
     t ← index (VarTypes instr) i;
     Ok (mkLoop (Instruction_XRef str v instr)
           (<[varStr := resolved varStr (Sprintf str [AInt v]) t]> vars) (-1)))
  /\ c0IndirectBody regName i varStr (mkLoop instr vars 0)
     = (r ← index (RawOps instr) 0;
        let v := Z.land (Z.land (u8 r) 0xFE) 0xFE in
        let str := regName "[R_%02X]+" v in
        t ← index (VarTypes instr) i;
        Ok (mkLoop instr
              (<[varStr := resolved varStr (Sprintf str [AInt v]) t]> vars) (-1))).
Proof.
  intros Hauto. unfold middleIndirectBody, c0IndirectBody.
  cbn [ls_instr ls_b ls_vars]. rewrite Hauto.
  split; destruct (index (RawOps instr) 0) as [r|]; reflexivity.
Qed.

(** C7 (the code departs from the claim). In indirect mode every operand
    byte is masked with [0xFE], not only the pointer. [ADDB] with the
    pointer register [0x10] and the byte register [0x21] is decoded in
    mode [indirect] and cross-references the registers [0x10] and [0x20];
    nothing refers to [0x21]. [STB] with the same bytes is decoded in the
    same mode by [doC0], which records no edge. In both resolvers the
    loop body at any operand position other than [0] names the register
    [byte & 0xFE]. *)
Theorem indirect_masks_every_operand_byte (beyond : list byte) :
  (exists i, Parse regName [x76; x10; x21] beyond 0 = Ok (i, None)
             /\ AddressingMode i = "indirect"
             /\ RawOps i = [x10; x21]
             /\ map XRefTo (edgesAt (XRefs i) 0x10) = [0x10]
             /\ map XRefTo (edgesAt (XRefs i) 0x20) = [0x20]
             /\ edgesAt (XRefs i) 0x21 = [])
  /\ (exists i, Parse regName [xc6; x10; x21] beyond 0 = Ok (i, None)
                /\ AddressingMode i = "indirect"
                /\ RawOps i = [x10; x21]
                /\ XRefs i = None)
  /\ (forall i varStr instr vars b,
        middleIndirectBody regName i varStr (mkLoop instr vars (Z.pos b))
        = (r ← index (RawOps instr) (Z.pos b);
           let v := Z.land (u8 r) 0xFE in
           t ← index (VarTypes instr) i;
           Ok (mkLoop (Instruction_XRef (regName "R_%02X" v) v instr)
                 (<[varStr := resolved varStr
                                (Sprintf (regName "R_%02X" v) [AInt v]) t]> vars)
                 (Z.pos b - 1))))
  /\ (forall i varStr instr vars b,
        c0IndirectBody regName i varStr (mkLoop instr vars (Z.pos b))
        = (r ← index (RawOps instr) (Z.pos b);
           let v := Z.land (u8 r) 0xFE in
           t ← index (VarTypes instr) i;
           Ok (mkLoop instr
                 (<[varStr := resolved varStr
                                (Sprintf (regName "R_%02X" v) [AInt v]) t]> vars)
                 (Z.pos b - 1)))).
Proof.
  split; [| split; [| split]].
  - apply decoded_intro; vm_compute; repeat (split; [reflexivity |]); reflexivity.
  - apply decoded_intro; vm_compute; repeat (split; [reflexivity |]); reflexivity.
  - apply middleIndirectBody_operand.
  - apply c0IndirectBody_operand.
Qed.

(** The slices that [Parse] stores have the lengths that the byte length
    announces: [Raw] is the whole instruction, [RawOps] is what follows
    the opcode, and the prefix when there is one. The byte length is
    within the capacity of the input; it may exceed its length. *)
Lemma Parse_raw_lengths (input beyond : list byte) (address : Z)
    (i : Instruction) :
  Parse regName input beyond address = Ok (i, None) ->
  len (Raw i) = ByteLength i
  /\ len (RawOps i) = ByteLength i - (if Signed i then 2 else 1)
  /\ ByteLength i <= len input + len beyond.
Proof.
  intros HP.
  destruct (Parse_outcome regName input beyond address _ HP) as [H _].
  assert (Hfit : fits input beyond).
  { apply (Parse_returns_iff regName input beyond address). rewrite HP.
    reflexivity. }
  unfold outcomeChecks in H. unfold fits, headerLength in Hfit.
  destruct (header input) as [[h |] |];
    repeat match goal with
           | Hc : _ && _ = true |- _ => apply andb_prop in Hc; destruct Hc
           end;
    try discriminate.
  repeat match goal with
         | Hc : (_ =? _) = true |- _ => apply Z.eqb_eq in Hc
         end.
  repeat split; try assumption. lia.
Qed.


(** ** The fields of a decoded instruction *)

(** What lies behind the first byte of the input, or behind its first
    two, one case for each length up to the longest instruction. *)
Ltac lengths rest :=
  destruct rest as [| ?b2 rest];
  [| destruct rest as [| ?b3 rest];
     [| destruct rest as [| ?b4 rest];
        [| destruct rest as [| ?b5 rest];
           [| destruct rest as [| ?b6 rest];
              [| destruct rest as [| ?b7 rest] ] ] ] ] ].

(** The case analysis on the opcode, the length of the backing array and
    the bit that the header tests, on an input of two bytes and on an
    input of one; [BR]/[EBR] by the value of its operand. *)
Ltac opcodes_two bit b0 b1 beyond tac :=
  let He3 := fresh "He3" in
  let Hfe := fresh "Hfe" in
  destruct (Byte.eqb b0 xe3) eqn:He3;
  [ destruct b0; try discriminate He3; clear He3;
    destruct bit; lengths beyond; destruct b1; tac
  | destruct (Byte.eqb b0 xfe) eqn:Hfe;
    [ destruct b0; try discriminate Hfe; clear Hfe He3;
      destruct bit; destruct b1; lengths beyond; tac
    | destruct bit; destruct b0; try discriminate He3; try discriminate Hfe;
      clear He3 Hfe; lengths beyond; tac ] ].

Ltac opcodes_one bit b0 beyond tac :=
  let He3 := fresh "He3" in
  let b1 := fresh "b1" in
  destruct (Byte.eqb b0 xe3) eqn:He3;
  [ destruct b0; try discriminate He3; clear He3;
    destruct beyond as [| b1 beyond];
    [ destruct bit; tac | destruct bit; lengths beyond; destruct b1; tac ]
  | destruct bit; destruct b0; try discriminate He3; clear He3;
    lengths beyond; tac ].

Lemma shapeOk_reads (input beyond input' beyond' : list byte)
    (r : result (Instruction * option string)) :
  opcodeOf input = opcodeOf input' -> prefixed input = prefixed input' ->
  index input 0 = index input' 0 -> index input 1 = index input' 1 ->
  (input ++ beyond = input' ++ beyond')%list ->
  shapeOk input beyond r = shapeOk input' beyond' r.
Proof.
  intros Ho Hp H0 H1 Happ.
  unfold shapeOk, shapeChecks, selected.
  rewrite Ho, Hp, H0, H1, Happ. reflexivity.
Qed.

Lemma ParseWith_shape_two (bit : bool) (b0 b1 : byte) (beyond : list byte)
    (address : Z) :
  shapeOk [b0; b1] beyond (ParseWith regName bit [b0; b1] beyond address)
  = true.
Proof. opcodes_two bit b0 b1 beyond ltac:(vm_compute; reflexivity). Qed.

Lemma ParseWith_shape (bit : bool) (input beyond : list byte) (address : Z) :
  shapeOk input beyond (ParseWith regName bit input beyond address) = true.
Proof.
  destruct input as [| b0 [| b1 rest]].
  - destruct bit; vm_compute; reflexivity.
  - opcodes_one bit b0 beyond ltac:(vm_compute; reflexivity).
  - rewrite (ParseWith_reads regName bit (b0 :: b1 :: rest) beyond
               [b0; b1] (rest ++ beyond) address) by reflexivity.
    rewrite (shapeOk_reads (b0 :: b1 :: rest) beyond [b0; b1] (rest ++ beyond))
      by reflexivity.
    apply ParseWith_shape_two.
Qed.

Lemma Parse_shape (input beyond : list byte) (address : Z) (i : Instruction) :
  Parse regName input beyond address = Ok (i, None) ->
  exists t,
    selected input = Ok (Some t) /\ shapeChecks input beyond t i = true.
Proof.
  intros HP.
  pose proof (ParseWith_shape (secondBit input) input beyond address) as H.
  rewrite <- Parse_secondBit, HP in H. unfold shapeOk in H.
  destruct (selected input) as [[t |] |]; try discriminate H.
  exists t. split; [reflexivity | exact H].
Qed.

(** Taking a conjunction of boolean checks apart. *)
Ltac checks H :=
  repeat match type of H with
         | _ && _ = true =>
             let H' := fresh "Hc" in
             apply andb_prop in H; destruct H as [H H']
         end.

Ltac all_checks :=
  repeat match goal with
         | H : _ && _ = true |- _ => apply andb_prop in H; destruct H
         end.

(** [Parse] returns the template of the opcode with its operand count,
    its operand types and its flags; the mnemonic is the template's,
    behind [SGN ] after the prefix, and [BR] for [0xE3] with an even
    operand byte, the one case where a resolver rewrites the names and
    the description as well. *)
Lemma Parse_keeps_template (input beyond : list byte) (address : Z)
    (i : Instruction) :
  Parse regName input beyond address = Ok (i, None) ->
  exists t,
    selected input = Ok (Some t)
    /\ Op i = opcodeOf input /\ Signed i = prefixed input
    /\ VarCount i = VarCount t /\ VarTypes i = VarTypes t
    /\ Ignore i = Ignore t /\ Reserved i = Reserved t
    /\ VariableLength i = VariableLength t
    /\ PseudoString i = ""
    /\ Mnemonic i =
         (if prefixed input then "SGN " +:+ Mnemonic t
          else if branchIndirect (input ++ beyond) then "BR" else Mnemonic t)
    /\ VarStrings i
       = (if branchIndirect (input ++ beyond) then ["wreg"] else VarStrings t)
    /\ Description i =
         (if branchIndirect (input ++ beyond) then "BRANCH INDIRECT."
          else Description t).
Proof.
  intros HP. destruct (Parse_shape _ _ _ _ HP) as (t & Hsel & H).
  exists t. split; [exact Hsel |]. unfold shapeChecks in H. cbv zeta in H.
  checks H.
  repeat match goal with
         | Hb : Byte.eqb _ _ = true |- _ => apply Byte.byte_dec_bl in Hb
         | Hb : Bool.eqb _ _ = true |- _ => apply Bool.eqb_prop in Hb
         | Hb : String.eqb _ _ = true |- _ => apply String.eqb_eq in Hb
         | Hb : (_ =? _) = true |- _ => apply Z.eqb_eq in Hb
         | Hb : bool_decide _ = true |- _ => apply bool_decide_eq_true_1 in Hb
         end.
  repeat split; assumption.
Qed.

(** An instruction without operands comes back checked, with no
    variables, no pseudo-code and no edge. *)
Lemma Parse_without_operands (input beyond : list byte) (address : Z)
    (i : Instruction) :
  Parse regName input beyond address = Ok (i, None) ->
  VarCount i = 0 ->
  Checked i = true /\ Vars i = None /\ PseudoCode i = ""
  /\ XRefs i = None /\ Calls i = None /\ Jumps i = None.
Proof.
  intros HP Hv.
  destruct (Parse_outcome regName input beyond address _ HP) as [Ho _].
  destruct (Parse_shape _ _ _ _ HP) as (t & _ & H).
  unfold outcomeChecks in Ho. unfold shapeChecks in H. cbv zeta in H.
  rewrite Hv in Ho, H. cbn [Z.eqb Z.ltb Z.compare negb orb] in Ho, H.
  checks H. checks Ho. all_checks.
  repeat match goal with
         | Hb : Bool.eqb _ _ = true |- _ => apply Bool.eqb_prop in Hb
         | Hb : String.eqb _ _ = true |- _ => apply String.eqb_eq in Hb
         | Hb : negb _ = true |- _ => apply negb_true_iff in Hb
         end.
  repeat match goal with
         | Hb : present ?m = false |- _ => destruct m; [discriminate Hb | clear Hb]
         end.
  repeat split; assumption.
Qed.

(** [Parse] leaves a call map exactly on [SCALL], [LCALL] and [ECALL],
    and a jump map exactly on the jumps and branches of [jumpMnemonics];
    [TIJMP] records no jump. *)
Lemma Parse_edge_kinds (input beyond : list byte) (address : Z)
    (i : Instruction) :
  Parse regName input beyond address = Ok (i, None) ->
  (Calls i <> None <-> In (Mnemonic i) callMnemonics)
  /\ (Jumps i <> None <-> In (Mnemonic i) jumpMnemonics).
Proof.
  intros HP. destruct (Parse_shape _ _ _ _ HP) as (t & _ & H).
  unfold shapeChecks in H. cbv zeta in H. checks H.
  assert (Hin : forall l, memberOf (Mnemonic i) l = true <-> In (Mnemonic i) l).
  { intros l. unfold memberOf. rewrite existsb_exists. split.
    - intros (x & Hx & He). apply String.eqb_eq in He. subst x. exact Hx.
    - intros Hx. exists (Mnemonic i). split; [exact Hx | apply String.eqb_refl]. }
  assert (Hp : forall A (m : option A), present m = true <-> m <> None).
  { intros A [a |]; cbn; split; congruence. }
  repeat match goal with
         | Hb : Bool.eqb (present _) (memberOf _ _) = true |- _ =>
             apply Bool.eqb_prop in Hb
         end.
  split; rewrite <- Hin, <- Hp; match goal with
                                 | Hb : present _ = _ |- _ => rewrite Hb; tauto
                                 end.
Qed.

(** A checked instruction with operands has one variable for each
    declared name, of the declared type, and no other; but for [DJNZW],
    whose word register is filed under [breg] and whose declared name
    [wreg] has no variable. *)
Lemma Parse_resolves_declared_operands (input beyond : list byte)
    (address : Z) (i : Instruction) :
  Parse regName input beyond address = Ok (i, None) ->
  Checked i = true -> 0 < VarCount i ->
  exists m,
    Vars i = Some m
    /\ (Mnemonic i <> "DJNZW" ->
        size m = length (VarStrings i)
        /\ Forall2 (fun name type =>
                      exists v, m !! name = Some v /\ Var_Type v = type)
             (VarStrings i) (VarTypes i))
    /\ (Mnemonic i = "DJNZW" ->
        m !! "wreg" = None /\ m !! "breg" <> None /\ m !! "cadd" <> None).
Proof.
  intros HP Hc Hv. destruct (Parse_shape _ _ _ _ HP) as (t & _ & H).
  unfold shapeChecks in H. cbv zeta in H. checks H.
  apply Z.ltb_lt in Hv. rewrite Hc, Hv in *.
  cbn [andb negb orb] in *.
  destruct (Vars i) as [m |]; [| discriminate].
  exists m. split; [reflexivity |]. split.
  - intros Hm. apply String.eqb_neq in Hm.
    match goal with
    | Hb : String.eqb (Mnemonic i) "DJNZW" || _ = true |- _ =>
        rewrite Hm in Hb; cbn [orb] in Hb;
        apply andb_prop in Hb; destruct Hb as [Ht Hs]
    end.
    split; [apply Z.eqb_eq in Hs; unfold len in Hs; lia |].
    clear -Ht. revert Ht. generalize (VarTypes i).
    induction (VarStrings i) as [| n ns IH]; intros [| ty tys] Ht;
      try discriminate Ht; [constructor |].
    cbn [typed] in Ht. apply andb_prop in Ht as [Hn Ht].
    constructor; [| apply IH; exact Ht].
    destruct (m !! n) as [v |]; [| discriminate Hn].
    exists v. split; [reflexivity | apply String.eqb_eq; exact Hn].
  - intros Hm. apply String.eqb_eq in Hm.
    match goal with
    | Hb : negb (String.eqb (Mnemonic i) "DJNZW") || _ = true |- _ =>
        rewrite Hm in Hb; cbn [negb orb] in Hb; checks Hb
    end.
    repeat match goal with
           | Hb : negb _ = true |- _ => apply negb_true_iff in Hb
           end.
    repeat match goal with
           | Hb : present (m !! ?k) = _ |- _ =>
               destruct (m !! k); try discriminate Hb; clear Hb
           end.
    repeat split; congruence.
Qed.

(** ** The flag [Checked] on the returns of the decoder *)



(** ** The bytes of a decoded instruction *)

Lemma ParseWith_core_two (bit : bool) (b0 b1 : byte) (beyond : list byte)
    (address : Z) :
  coreOk [b0; b1] beyond address (ParseWith regName bit [b0; b1] beyond address).
Proof.
  opcodes_two bit b0 b1 beyond
    ltac:(vm_compute; first [exact I | repeat split; reflexivity]).
Qed.

Lemma ParseWith_core (bit : bool) (input beyond : list byte) (address : Z) :
  coreOk input beyond address (ParseWith regName bit input beyond address).
Proof.
  destruct input as [| b0 [| b1 rest]].
  - destruct bit; vm_compute; exact I.
  - opcodes_one bit b0 beyond
      ltac:(vm_compute; first [exact I | repeat split; reflexivity]).
  - rewrite (ParseWith_reads regName bit (b0 :: b1 :: rest) beyond
               [b0; b1] (rest ++ beyond) address) by reflexivity.
    change (coreOk (b0 :: b1 :: rest) beyond)
      with (coreOk [b0; b1] (rest ++ beyond)).
    apply ParseWith_core_two.
Qed.

(** [Parse] files the instruction at the address it was given; [Raw] is
    the first [ByteLength] bytes of the backing array of the input, which
    are bytes of the input as far as the input goes, and [RawOps] is
    [Raw] without the opcode, and without the prefix when there is one.
    No resolver changes them. *)
Lemma Parse_raw_bytes (input beyond : list byte) (address : Z)
    (i : Instruction) :
  Parse regName input beyond address = Ok (i, None) ->
  Address i = address
  /\ Raw i = firstn (Z.to_nat (ByteLength i)) (input ++ beyond)
  /\ RawOps i = skipn (if Signed i then 2 else 1) (Raw i)
  /\ (ByteLength i <= len input ->
      Raw i = firstn (Z.to_nat (ByteLength i)) input).
Proof.
  intros HP.
  pose proof (ParseWith_core (secondBit input) input beyond address) as H.
  rewrite <- Parse_secondBit, HP in H. destruct H as (Ha & Hr & Ho).
  split; [exact Ha |]. split; [exact Hr |]. split; [exact Ho |].
  intros Hl. rewrite Hr. apply take_app_le. unfold len in Hl. lia.
Qed.

(** Every byte has a template in the unsigned table: only the signed
    table can miss. *)
Lemma unsignedInstructions_total (b : byte) : unsignedInstructions b <> None.
Proof. destruct b; discriminate. Qed.

(** [Parse] returns its error exactly on the prefix [0xFE] followed by a
    byte that is no opcode of the signed table; the instruction is then
    the placeholder. Without the prefix every byte is decoded. *)
Lemma Parse_error_only_behind_prefix (input beyond : list byte) (address : Z)
    (i : Instruction) (err : string) :
  Parse regName input beyond address = Ok (i, Some err) <->
  exists b rest,
    input = xfe :: b :: rest /\ signedInstructions b = None
    /\ i = placeholder /\ err = "Unable to find instruction!".
Proof.
  split.
  - intros HP. pose proof HP as HP'.
    apply Parse_error_placeholder in HP as [Hsel ->].
    rewrite (Parse_miss _ beyond address Hsel) in HP'. injection HP' as <-.
    unfold selected in Hsel.
    destruct input as [| b0 rest]; [discriminate Hsel |].
    change (index (b0 :: rest) 0) with (Ok b0) in Hsel.
    cbn [mbind result_bind] in Hsel.
    destruct (Byte.eqb b0 xfe) eqn:Hfe.
    + apply Byte.byte_dec_bl in Hfe. subst b0.
      destruct rest as [| b1 rest]; [discriminate Hsel |].
      change (index (xfe :: b1 :: rest) 1) with (Ok b1) in Hsel.
      cbn [mbind result_bind] in Hsel. injection Hsel as Hs.
      exists b1, rest. repeat split; [exact Hs].
    + injection Hsel as Hs. destruct (unsignedInstructions_total b0 Hs).
  - intros (b & rest & -> & Hs & -> & ->).
    apply Parse_miss. unfold selected.
    change (index (xfe :: b :: rest) 0) with (Ok xfe).
    cbn [mbind result_bind]. change (Byte.eqb xfe xfe) with true. cbv iota.
    change (index (xfe :: b :: rest) 1) with (Ok b).
    cbn [mbind result_bind]. rewrite Hs. reflexivity.
Qed.

(** Reading a longer slice at a position that the shorter one has. *)
Lemma index_app {A : Type} (s e : list A) (k : Z) (x : A) :
  index s k = Ok x -> index (s ++ e) k = Ok x.
Proof.
  unfold index. destruct (k <? 0); [discriminate |].
  destruct (s !! Z.to_nat k) as [y |] eqn:Hy; [| discriminate].
  intros H. rewrite (lookup_app_l_Some _ _ _ _ Hy). exact H.
Qed.

(** A longer window on the same backing array: [Parse] reads [in[0]] and
    [in[1]] where the shorter window has them, and slices the same bytes
    of the backing array. So a result that it returns on a window is the
    result on every longer one. (Not the other way round: on the opcode
    alone, [Parse] may fault on [in[1]].) *)
Lemma Parse_longer_window (input extra beyond : list byte) (address : Z)
    (r : Instruction * option string) :
  Parse regName input (extra ++ beyond) address = Ok r ->
  Parse regName (input ++ extra) beyond address = Ok r.
Proof.
  unfold Parse. intros H.
  apply bind_returns in H as (b0 & H0 & H).
  rewrite (index_app _ extra _ _ H0). cbn [mbind result_bind].
  apply bind_returns in H as ([[signed op] table] & Ht & H).
  assert (Ht' : (if Byte.eqb b0 xfe
                 then b ← index (input ++ extra) 1; Ok (true, b, signedInstructions)
                 else Ok (false, b0, unsignedInstructions))
                = Ok (signed, op, table)).
  { destruct (Byte.eqb b0 xfe); [| exact Ht].
    apply bind_returns in Ht as (b & Hb & Ht).
    rewrite (index_app _ extra _ _ Hb). exact Ht. }
  rewrite Ht'. cbn [mbind result_bind].
  destruct (table op) as [t |]; [| exact H].
  cbv zeta in *.
  apply bind_returns in H as (i1 & H1 & H).
  assert (H1' : indexedMode (input ++ extra)
                  (set_Address address (set_Signed signed (set_Op op t))) = Ok i1).
  { unfold indexedMode in *.
    destruct (isMode _ "indexed" && VariableLength _); [| exact H1].
    apply bind_returns in H1 as (b & Hb & H1).
    rewrite (index_app _ extra _ _ Hb). exact H1. }
  rewrite H1'. cbn [mbind result_bind].
  apply bind_returns in H as (i2 & H2 & H).
  assert (H2' : indirectMode (input ++ extra) i1 = Ok i2).
  { unfold indirectMode in *.
    destruct (isMode i1 "indirect"); [| exact H2].
    apply bind_returns in H2 as (b & Hb & H2).
    rewrite (index_app _ extra _ _ Hb). exact H2. }
  rewrite H2'. cbn [mbind result_bind].
  unfold signedAdjust, slice in *. rewrite <- app_assoc. exact H.
Qed.

(** ** The inputs that the decoder returns on *)

(** Of the opcodes whose header reads [in[1]], only [RET] is one byte
    long. *)
Lemma second_byte_reads (b0 : byte) (t : Instruction) :
  unsignedInstructions b0 = Some t -> readsSecondByte b0 = true ->
  b0 <> xf0 -> b0 <> xfe -> 2 <= ByteLength t.
Proof.
  intros Ht Hr H0 He.
  destruct b0; vm_compute in Hr; try discriminate Hr;
    try (exfalso; apply H0; reflexivity); try (exfalso; apply He; reflexivity);
    vm_compute in Ht; injection Ht as <-; vm_compute; discriminate.
Qed.

Lemma readsSecondByte_template (b0 : byte) :
  readsSecondByte b0 = true -> b0 <> xfe ->
  exists t, unsignedInstructions b0 = Some t.
Proof.
  unfold readsSecondByte. intros Hr He.
  destruct (Byte.eqb b0 xfe) eqn:E.
  - apply Byte.byte_dec_bl in E. contradiction.
  - cbn [orb] in Hr. destruct (unsignedInstructions b0) as [t |];
      [exists t; reflexivity | discriminate Hr].
Qed.

(** C10. [Parse] checks no length. It reads [in[1]] whenever the first
    byte is [0xFE] or the template of the first byte is variable-length
    indexed or indirect, and it takes its slices up to the final byte
    length, which the capacity of the input bounds and not its length.
    So it returns exactly when the input has its first byte, has its
    second byte where the header reads it, and has the capacity of the
    final byte length; it faults on the one-byte input [0xFE], and where
    it returns on an input shorter than the byte length, the bytes that
    it stores beyond the input are those that lie behind it in its
    backing array. The condition of the claim, an input as long as the
    final byte length and of two bytes behind the prefix, is enough for
    every first byte but one: [RET] ([0xF0]) is one byte long and has no
    operand, but its template is indirect, so that [Parse] reads
    [in[1]], which is no byte of the instruction. On the input [0xF0]
    alone it faults, whatever the capacity is, and on a longer input
    bit 0 of the byte that follows [RET] sets its addressing mode and
    its autoincrement flag. *)
Theorem Parse_total_but_for_RET (input beyond : list byte) (address : Z) :
  (returns (Parse regName input beyond address) = true <->
     1 <= len input
     /\ (readsSecondByte (hd x00 input) = true -> 2 <= len input)
     /\ (forall n, headerLength input = Ok (Some n) ->
           n <= len input + len beyond))
  /\ (forall i, Parse regName input beyond address = Ok (i, None) ->
        headerLength input = Ok (Some (ByteLength i))
        /\ Raw i = firstn (Z.to_nat (ByteLength i)) (input ++ beyond))
  /\ Parse regName [xfe] beyond address = Panic
  /\ (hd x00 input <> xf0 ->
      1 <= len input -> (hd x00 input = xfe -> 2 <= len input) ->
      (forall t, unsignedInstructions (hd x00 input) = Some t ->
         ByteLength t <= len input) ->
      (forall n, headerLength input = Ok (Some n) -> n <= len input) ->
      returns (Parse regName input beyond address) = true)
  /\ (exists t, unsignedInstructions xf0 = Some t /\ Mnemonic t = "RET"
                /\ ByteLength t = 1 /\ VarCount t = 0
                /\ AddressingMode t = "indirect")
  /\ Parse regName [xf0] beyond address = Panic
  /\ (forall b : byte,
        exists i, Parse regName [xf0; b] beyond address = Ok (i, None)
                  /\ ByteLength i = 1 /\ Raw i = [xf0]
                  /\ AutoIncrement i = (Z.land (u8 b) 1 =? 1)
                  /\ AddressingMode i
                     = (if Z.land (u8 b) 1 =? 1 then "indirect+" else "indirect")).
Proof.
  pose proof (Parse_returns_iff regName input beyond address) as Hfit.
  pose proof (headerLength_faults input) as Hfault.
  assert (Hiff : returns (Parse regName input beyond address) = true <->
            1 <= len input
            /\ (readsSecondByte (hd x00 input) = true -> 2 <= len input)
            /\ (forall n, headerLength input = Ok (Some n) ->
                  n <= len input + len beyond)).
  { rewrite Hfit. unfold fits in *.
    destruct (headerLength input) as [[n |] |].
    + split.
      * intros Hn. split; [| split].
        -- destruct (Z.le_gt_cases 1 (len input)) as [H | H]; [exact H |].
           exfalso. assert (Hp : Ok (Some n) = @Panic (option Z)).
           { apply Hfault. intros [H1 _]. lia. }
           discriminate Hp.
        -- intros Hr. destruct (Z.le_gt_cases 2 (len input)) as [H | H]; [exact H |].
           exfalso. assert (Hp : Ok (Some n) = @Panic (option Z)).
           { apply Hfault. intros [_ H2]. specialize (H2 Hr). lia. }
           discriminate Hp.
        -- intros m Hm. injection Hm as <-. exact Hn.
      * intros (_ & _ & H). apply H. reflexivity.
    + split; [| intros _; exact I].
      intros _. split; [| split].
      * destruct (Z.le_gt_cases 1 (len input)) as [H | H]; [exact H |].
        exfalso. assert (Hp : Ok None = @Panic (option Z)).
        { apply Hfault. intros [H1 _]. lia. }
        discriminate Hp.
      * intros Hr. destruct (Z.le_gt_cases 2 (len input)) as [H | H]; [exact H |].
        exfalso. assert (Hp : Ok None = @Panic (option Z)).
        { apply Hfault. intros [_ H2]. specialize (H2 Hr). lia. }
        discriminate Hp.
      * intros m Hm. discriminate Hm.
    + split; [intros [] |].
      intros (H1 & H2 & _). apply (proj1 Hfault eq_refl). split; assumption. }
  split; [exact Hiff |]. split; [| split; [| split; [| split; [| split]]]].
  - intros i HP. destruct (Parse_outcome regName input beyond address _ HP) as [H _].
    unfold outcomeChecks in H. unfold headerLength.
    destruct (header input) as [[h |] |];
      repeat match goal with
             | Hc : _ && _ = true |- _ => apply andb_prop in Hc; destruct Hc
             end;
      try discriminate.
    repeat match goal with
           | Hn : (_ =? _) = true |- _ => apply Z.eqb_eq in Hn
           end.
    split; [f_equal; f_equal; assumption |].
    pose proof (ParseWith_core (secondBit input) input beyond address) as Hc.
    rewrite <- Parse_secondBit, HP in Hc. exact (proj1 (proj2 Hc)).
  - reflexivity.
  - intros Hret H1 Hpre Ht Hn. apply Hiff. split; [exact H1 |]. split.
    + intros Hr. destruct (Byte.byte_eq_dec (hd x00 input) xfe) as [He | He];
        [apply Hpre; exact He |].
      destruct (readsSecondByte_template _ Hr He) as (t & Hsel).
      pose proof (second_byte_reads _ _ Hsel Hr Hret He) as H2.
      specialize (Ht t Hsel). lia.
    + intros n Hh. specialize (Hn n Hh). unfold len in *. lia.
  - eexists. split; [reflexivity |]. repeat split.
  - reflexivity.
  - intros b. apply decoded_intro.
    destruct b; vm_compute; repeat (split; [reflexivity |]); reflexivity.
Qed.


(** ** Branches through a register *)

(** [0xE3] is [BR] with an even operand byte and [EBR] with an odd one,
    two bytes long in both cases. The jump edge that [doE0] records for
    it goes to the number of the register that holds the target (the
    operand byte without bit 0), not to an address of the code; the same
    number is cross-referenced when it is above 2. *)
Lemma branch_indirect_edges (b1 : byte) (rest beyond : list byte)
    (address : Z) :
  let even := Z.land (u8 b1) 1 =? 0 in
  let r := Z.land (u8 b1) 0xFE in
  exists i,
    Parse regName (xe3 :: b1 :: rest) beyond address = Ok (i, None)
    /\ Mnemonic i = (if even then "BR" else "EBR")
    /\ AddressingMode i = (if even then "indirect" else "extended-indirect")
    /\ ByteLength i = 2
    /\ map (fun j => (JumpFrom j, JumpTo j)) (edgesAt (Jumps i) r) = [(address, r)]
    /\ map XRefTo (edgesAt (XRefs i) r) = (if 2 <? r then [r] else [])
    /\ Calls i = None.
Proof.
  intros even r. subst even r.
  destruct b1; apply decoded_intro; vm_compute;
    repeat (split; [reflexivity |]); reflexivity.
Qed.

(** ** The short displacement *)

(** [getOffset] reads the 11-bit field of its two bytes. *)
Lemma getOffset_field (b1 b2 : byte) :
  getOffset [b1; b2] = Ok (disp11 (Z.land (u8 b1) 0x07) (u8 b2)).
Proof.
  pose proof (u8_range b1) as H1. pose proof (u8_range b2) as H2.
  rewrite getOffset_unfold. cbv zeta.
  assert (Hm : In (Z.land (u8 b1) 0x07) [0; 1; 2; 3; 4; 5; 6; 7])
    by (apply low3_cases; lia).
  set (m := Z.land (u8 b1) 0x07) in *. f_equal.
  assert (Hr : forall h k,
             int16 (Z.shiftl (int16 h) 8) = 256 * k -> -128 <= k < 128 ->
             k = (if m <? 4 then m else m - 8) ->
             int (Z.lor (int16 (Z.shiftl (int16 h) 8)) (int16 (u8 b2)))
             = disp11 m (u8 b2)).
  { intros h k Hs Hk Hkm. rewrite Hs, (int16_small (u8 b2)) by lia.
    rewrite lor_mult256;
      [| rewrite Z.mul_comm; apply Z.mod_mul; lia | lia].
    unfold disp11. cbv zeta.
    cbn [In] in Hm.
    destruct (Z.ltb_spec m 4); destruct (Z.ltb_spec (256 * m + u8 b2) 1024);
      try lia; rewrite int_small; lia. }
  cbn [In] in Hm.
  destruct Hm as [E|[E|[E|[E|[E|[E|[E|[E|[]]]]]]]]]; rewrite <- E in *;
    match goal with
    | |- int (Z.lor (int16 (Z.shiftl (int16 ?h) 8)) _) = _ =>
        let v := eval vm_compute in (int16 (Z.shiftl (int16 h) 8) / 256) in
        apply (Hr h v); [reflexivity | lia | reflexivity]
    end.
Qed.

Lemma disp11_range (hi lo : Z) :
  0 <= hi < 8 -> 0 <= lo < 256 -> -1024 <= disp11 hi lo <= 1023.
Proof.
  intros Hh Hl. unfold disp11. cbv zeta.
  destruct (Z.ltb_spec (256 * hi + lo) 1024); lia.
Qed.

Lemma disp11_inj (h1 l1 h2 l2 : Z) :
  0 <= h1 < 8 -> 0 <= l1 < 256 -> 0 <= h2 < 8 -> 0 <= l2 < 256 ->
  disp11 h1 l1 = disp11 h2 l2 -> h1 = h2 /\ l1 = l2.
Proof.
  intros Hh1 Hl1 Hh2 Hl2. unfold disp11. cbv zeta.
  destruct (Z.ltb_spec (256 * h1 + l1) 1024);
    destruct (Z.ltb_spec (256 * h2 + l2) 1024); lia.
Qed.

Lemma low3_range (x : Z) : 0 <= Z.land x 0x07 < 8.
Proof.
  change 0x07 with (Z.ones 3). rewrite Z.land_ones by lia.
  apply Z.mod_pos_bound. lia.
Qed.

Lemma byte_high5 (b : byte) : Z.land (u8 b) 0xF8 = 8 * (u8 b / 8).
Proof. destruct b; reflexivity. Qed.

Lemma u8_inj (b c : byte) : u8 b = u8 c -> b = c.
Proof.
  unfold u8. intros H. apply N2Z.inj in H.
  pose proof (Byte.of_to_N b) as Hb. rewrite H, Byte.of_to_N in Hb.
  congruence.
Qed.

Lemma u8_onto (z : Z) : 0 <= z < 256 -> exists b, u8 b = z.
Proof.
  intros Hz. destruct (Byte.of_N (Z.to_N z)) as [b |] eqn:Hb.
  - exists b. unfold u8. rewrite (Byte.to_of_N _ Hb). lia.
  - apply Byte.of_N_None_iff in Hb. lia.
Qed.

(** [getOffset] faults on less than two bytes and reads no third one.
    On two bytes it is a one-to-one map from the low three bits of the
    first byte and the second byte onto the displacements from -1024 to
    1023: every short jump within that distance has one encoding for
    each opcode of its group. *)
Lemma getOffset_bijective :
  getOffset [] = Panic
  /\ (forall b, getOffset [b] = Panic)
  /\ (forall b1 b2 rest, getOffset (b1 :: b2 :: rest) = getOffset [b1; b2])
  /\ (forall b1 b2 c1 c2,
        getOffset [b1; b2] = getOffset [c1; c2] <->
        Z.land (u8 b1) 0x07 = Z.land (u8 c1) 0x07 /\ b2 = c2)
  /\ (forall d op,
        -1024 <= d <= 1023 <->
        exists b1 b2,
          Z.land (u8 b1) 0xF8 = Z.land (u8 op) 0xF8
          /\ getOffset [b1; b2] = Ok d).
Proof.
  split; [reflexivity |]. split; [reflexivity |]. split; [reflexivity |].
  split.
  - intros b1 b2 c1 c2. rewrite !getOffset_field. split.
    + intros H. injection H as H.
      apply disp11_inj in H;
        try apply low3_range; try apply u8_range.
      destruct H as [Hh Hl]. split; [exact Hh | apply u8_inj; exact Hl].
    + intros [Hh ->]. rewrite Hh. reflexivity.
  - intros d op. split.
    + intros Hd.
      set (u := d mod 2048).
      assert (Hu : 0 <= u < 2048) by (apply Z.mod_pos_bound; lia).
      assert (Hdu : d = if u <? 1024 then u else u - 2048).
      { subst u. destruct (Z.ltb_spec (d mod 2048) 1024) as [H | H].
        - destruct (Z.le_gt_cases 0 d) as [Hp | Hn].
          + rewrite Z.mod_small by lia. reflexivity.
          + replace d with (d + 2048 + -1 * 2048) in H by ring.
            rewrite Z.mod_add in H by lia. rewrite Z.mod_small in H by lia. lia.
        - destruct (Z.le_gt_cases 0 d) as [Hp | Hn].
          + rewrite Z.mod_small in H by lia. lia.
          + replace d with (d + 2048 + -1 * 2048) at 2 by ring.
            rewrite Z.mod_add by lia. rewrite Z.mod_small by lia. lia. }
      pose proof (Z.div_mod u 256 ltac:(lia)) as Hdm.
      pose proof (Z.mod_pos_bound u 256 ltac:(lia)) as Hlo.
      assert (Hhi : 0 <= u / 256 < 8).
      { split; [apply Z.div_pos; lia | apply Z.div_lt_upper_bound; lia]. }
      pose proof (u8_range op) as Hop.
      pose proof (Z.div_mod (u8 op) 8 ltac:(lia)) as Hq.
      pose proof (Z.mod_pos_bound (u8 op) 8 ltac:(lia)) as Hq8.
      destruct (u8_onto (8 * (u8 op / 8) + u / 256) ltac:(lia)) as [b1 Hb1].
      destruct (u8_onto (u mod 256) Hlo) as [b2 Hb2].
      assert (H7 : Z.land (u8 b1) 0x07 = u / 256).
      { change 0x07 with (Z.ones 3). rewrite Z.land_ones by lia.
        rewrite Hb1, Z.add_comm, Z.mul_comm, Z.mod_add by lia.
        apply Z.mod_small. exact Hhi. }
      assert (H8 : Z.land (u8 b1) 0xF8 = Z.land (u8 op) 0xF8).
      { rewrite !byte_high5. f_equal. rewrite Hb1.
        rewrite Z.add_comm, Z.mul_comm, Z.div_add by lia.
        rewrite Z.div_small by lia. reflexivity. }
      exists b1, b2. split; [exact H8 |].
      rewrite getOffset_field, Hb2, H7. f_equal. unfold disp11. cbv zeta.
      rewrite <- Hdm. symmetry. exact Hdu.
    + intros (b1 & b2 & _ & H). rewrite getOffset_field in H.
      injection H as <-. apply disp11_range; [apply low3_range | apply u8_range].
Qed.

(** ** Short jumps and calls *)

Lemma bind_Ok {A B : Type} (a : A) (k : A -> result B) : Ok a ≫= k = k a.
Proof. reflexivity. Qed.

Lemma VarTypes_Jump (s : string) (v : Z) (i : Instruction) :
  VarTypes (Instruction_Jump s v i) = VarTypes i.
Proof. reflexivity. Qed.

Lemma VarTypes_Call (s : string) (v : Z) (i : Instruction) :
  VarTypes (Instruction_Call s v i) = VarTypes i.
Proof. reflexivity. Qed.

Lemma VarTypes_XRef (s : string) (v : Z) (i : Instruction) :
  VarTypes (Instruction_XRef s v i) = VarTypes i.
Proof. reflexivity. Qed.

(** The two resolvers on an instruction that has its operand byte and
    its operand type. *)
Lemma doSJMP_eq (instr : Instruction) (r0 : byte) (off : Z) (t0 : string) :
  index (RawOps instr) 0 = Ok r0 -> getOffset [Op instr; r0] = Ok off ->
  index (VarTypes instr) 0 = Ok t0 ->
  let target := int (int (Address instr + ByteLength instr) + off) in
  doSJMP instr =
  Ok (set_Checked true
        (set_Vars
           (Some (<["cadd" := resolved "cadd" (Sprintf "0x%X" [AInt target]) t0]> ∅))
           (Instruction_Jump "0x%X" target instr))).
Proof.
  intros H0 Ho Ht target. unfold doSJMP.
  rewrite H0, bind_Ok, Ho, bind_Ok. cbv zeta.
  rewrite VarTypes_Jump, Ht, bind_Ok. reflexivity.
Qed.

Lemma doSCALL_eq (instr : Instruction) (r0 : byte) (off : Z) (t0 : string) :
  index (RawOps instr) 0 = Ok r0 -> getOffset [Op instr; r0] = Ok off ->
  index (VarTypes instr) 0 = Ok t0 ->
  let target := int (int (Address instr + ByteLength instr) + off) in
  doSCALL instr =
  Ok (set_Checked true
        (set_Vars
           (Some (<["cadd" := resolved "cadd" (Sprintf "0x%X" [AInt target]) t0]> ∅))
           (Instruction_Call "0x%X" target instr))).
Proof.
  intros H0 Ho Ht target. unfold doSCALL.
  rewrite H0, bind_Ok, Ho, bind_Ok. cbv zeta.
  rewrite VarTypes_Call, Ht, bind_Ok. reflexivity.
Qed.

(** [doSJMP] takes the displacement from the low three bits of the
    opcode and the operand byte, signed, and adds it to the end of the
    instruction: the target lies within 1024 bytes of it, on either
    side. It appends one jump edge, names the target in [cadd], and
    leaves the calls and the cross-references as they were. [doSCALL]
    does the same with a call edge. *)
Lemma short_jump_and_call (instr : Instruction) (r0 : byte) (ops : list byte)
    (t0 : string) (ts : list string) :
  RawOps instr = r0 :: ops -> VarTypes instr = t0 :: ts ->
  let off := disp11 (Z.land (u8 (Op instr)) 0x07) (u8 r0) in
  let target := int (int (Address instr + ByteLength instr) + off) in
  let cadd := resolved "cadd" (Sprintf "0x%X" [AInt target]) t0 in
  -1024 <= off <= 1023
  /\ (exists instr',
        doSJMP instr = Ok instr'
        /\ edgesAt (Jumps instr') target =
             (edgesAt (Jumps instr) target ++
              [mkJump (Sprintf "0x%X" [AInt target]) (Mnemonic instr)
                 (Address instr) target])%list
        /\ (forall v, v <> target ->
              edgesAt (Jumps instr') v = edgesAt (Jumps instr) v)
        /\ Calls instr' = Calls instr /\ XRefs instr' = XRefs instr
        /\ Vars instr' = Some {[ "cadd" := cadd ]}
        /\ Checked instr' = true)
  /\ (exists instr',
        doSCALL instr = Ok instr'
        /\ edgesAt (Calls instr') target =
             (edgesAt (Calls instr) target ++
              [mkCall (Sprintf "0x%X" [AInt target]) (Mnemonic instr)
                 (Address instr) target])%list
        /\ (forall v, v <> target ->
              edgesAt (Calls instr') v = edgesAt (Calls instr) v)
        /\ Jumps instr' = Jumps instr /\ XRefs instr' = XRefs instr
        /\ Vars instr' = Some {[ "cadd" := cadd ]}
        /\ Checked instr' = true).
Proof.
  intros Hr Ht off target cadd.
  assert (H0 : index (RawOps instr) 0 = Ok r0) by (rewrite Hr; reflexivity).
  assert (H1 : index (VarTypes instr) 0 = Ok t0) by (rewrite Ht; reflexivity).
  split; [apply disp11_range; [apply low3_range | apply u8_range] |].
  split.
  - eexists. split; [exact (doSJMP_eq _ _ _ _ H0 (getOffset_field _ _) H1) |].
    split; [apply edgesAt_put_eq |].
    split; [intros v Hv; apply edgesAt_put_ne; intros E; apply Hv; symmetry; exact E |].
    split; [reflexivity |]. split; [reflexivity |].
    split; [| reflexivity].
    cbn [Vars set_Checked set_Vars]. rewrite insert_empty. reflexivity.
  - eexists. split; [exact (doSCALL_eq _ _ _ _ H0 (getOffset_field _ _) H1) |].
    split; [apply edgesAt_put_eq |].
    split; [intros v Hv; apply edgesAt_put_ne; intros E; apply Hv; symmetry; exact E |].
    split; [reflexivity |]. split; [reflexivity |].
    split; [| reflexivity].
    cbn [Vars set_Checked set_Vars]. rewrite insert_empty. reflexivity.
Qed.

(** ** Listings sorted by address *)

Lemma index_lookup {A : Type} (s : list A) (i : Z) (x : A) :
  index s i = Ok x <-> 0 <= i /\ s !! Z.to_nat i = Some x.
Proof.
  unfold index. destruct (Z.ltb_spec i 0) as [H | H].
  - split; [discriminate | intros [? _]; lia].
  - destruct (s !! Z.to_nat i) as [y |]; split.
    + intros [= ->]. split; [exact H | reflexivity].
    + intros [_ [= ->]]. reflexivity.
    + discriminate.
    + intros [_ ?]. discriminate.
Qed.

Lemma index_faults {A : Type} (s : list A) (i : Z) :
  index s i = Panic <-> ~ (0 <= i < len s).
Proof.
  unfold index, len. destruct (Z.ltb_spec i 0) as [H | H].
  - split; [lia | reflexivity].
  - destruct (s !! Z.to_nat i) as [y |] eqn:Hy.
    + apply lookup_lt_Some in Hy. split; [discriminate | lia].
    + apply lookup_ge_None in Hy. split; [lia | reflexivity].
Qed.

Lemma Instructions_Swap_ok (inst inst' : Instructions) (i j : Z) :
  Instructions_Swap inst i j = Ok inst' ->
  Instructions_Len inst' = Instructions_Len inst
  /\ inst' ≡ₚ inst
  /\ index inst' i = index inst j
  /\ index inst' j = index inst i
  /\ (forall k, k <> i -> k <> j -> index inst' k = index inst k)
  /\ Instructions_Swap inst' i j = Ok inst
  /\ Instructions_Less inst' i j = Instructions_Less inst j i.
Proof.
  unfold Instructions_Swap, Instructions in *. intros H.
  apply bind_returns in H as (a & Ha & H).
  apply bind_returns in H as (b & Hb & H).
  injection H as <-.
  apply index_lookup in Ha as [Hj Ha]. apply index_lookup in Hb as [Hi Hb].
  pose proof (lookup_lt_Some _ _ _ Ha) as Hlj.
  pose proof (lookup_lt_Some _ _ _ Hb) as Hli.
  assert (Hi' : index (<[Z.to_nat j:=b]> (<[Z.to_nat i:=a]> inst)) i = Ok a).
  { apply index_lookup. split; [exact Hi |].
    destruct (decide (Z.to_nat i = Z.to_nat j)) as [E | E].
    - rewrite E in Hb |- *. rewrite list_lookup_insert_eq
        by (rewrite length_insert; exact Hlj). congruence.
    - rewrite list_lookup_insert_ne by congruence.
      apply list_lookup_insert_eq. exact Hli. }
  assert (Hj' : index (<[Z.to_nat j:=b]> (<[Z.to_nat i:=a]> inst)) j = Ok b).
  { apply index_lookup. split; [exact Hj |].
    apply list_lookup_insert_eq. rewrite length_insert. exact Hlj. }
  assert (Hia : index inst j = Ok a) by (apply index_lookup; split; assumption).
  assert (Hib : index inst i = Ok b) by (apply index_lookup; split; assumption).
  split; [unfold Instructions_Len, len; rewrite !length_insert; reflexivity |].
  split; [apply Permutation_insert_swap; assumption |].
  split; [congruence |]. split; [congruence |]. split.
  - intros k Hki Hkj. unfold index. destruct (Z.ltb_spec k 0); [reflexivity |].
    rewrite !list_lookup_insert_ne by lia. reflexivity.
  - split.
    + rewrite Hi', Hj'. cbn [mbind result_bind]. f_equal.
      destruct (decide (Z.to_nat i = Z.to_nat j)) as [E | E].
      * rewrite E in Hb |- *. rewrite !list_insert_insert_eq.
        apply list_insert_id. exact Ha.
      * rewrite (list_insert_insert_ne _ (Z.to_nat i) (Z.to_nat j)) by exact E.
        rewrite !list_insert_insert_eq.
        rewrite (list_insert_id inst (Z.to_nat i) b Hb).
        apply list_insert_id. exact Ha.
    + unfold Instructions_Less. rewrite Hi', Hj', Hia, Hib. reflexivity.
Qed.

Lemma Instructions_Swap_faults (inst : Instructions) (i j : Z) :
  Instructions_Swap inst i j = Panic <->
  ~ (0 <= i < Instructions_Len inst /\ 0 <= j < Instructions_Len inst).
Proof.
  unfold Instructions_Swap, Instructions_Len.
  destruct (index inst i) as [b |] eqn:Hb.
  - destruct (index inst j) as [a |] eqn:Ha.
    + cbn [mbind result_bind]. split; [discriminate |].
      intros H. exfalso. apply H. split.
      * destruct (Z.le_gt_cases 0 i); [destruct (Z.lt_ge_cases i (len inst)) |];
          [lia | |]; assert (index inst i = Panic) by (apply index_faults; lia);
          congruence.
      * destruct (Z.le_gt_cases 0 j); [destruct (Z.lt_ge_cases j (len inst)) |];
          [lia | |]; assert (index inst j = Panic) by (apply index_faults; lia);
          congruence.
    + cbn [mbind result_bind]. split; [| reflexivity].
      intros _ [_ H]. apply index_faults in Ha. exact (Ha H).
  - split; [| destruct (index inst j); reflexivity].
    intros _ [H _]. apply index_faults in Hb. exact (Hb H).
Qed.

(** [Swap] faults exactly when a position is outside the slice. Else it
    exchanges the two elements and nothing else: the slice keeps its
    length and its elements, a second [Swap] of the same positions
    restores it, and [Less] of the two positions is turned around. *)
Lemma Instructions_Swap_exchanges (inst : Instructions) (i j : Z) :
  match Instructions_Swap inst i j with
  | Ok inst' =>
      (0 <= i < Instructions_Len inst /\ 0 <= j < Instructions_Len inst)
      /\ Instructions_Len inst' = Instructions_Len inst
      /\ inst' ≡ₚ inst
      /\ index inst' i = index inst j
      /\ index inst' j = index inst i
      /\ (forall k, k <> i -> k <> j -> index inst' k = index inst k)
      /\ Instructions_Swap inst' i j = Ok inst
      /\ Instructions_Less inst' i j = Instructions_Less inst j i
  | Panic =>
      ~ (0 <= i < Instructions_Len inst /\ 0 <= j < Instructions_Len inst)
  end.
Proof.
  pose proof (Instructions_Swap_faults inst i j) as Hf.
  destruct (Instructions_Swap inst i j) as [inst' |] eqn:Hs.
  - split; [| apply Instructions_Swap_ok; exact Hs].
    assert (Hd : (0 <= i < Instructions_Len inst /\ 0 <= j < Instructions_Len inst)
                 \/ ~ (0 <= i < Instructions_Len inst
                        /\ 0 <= j < Instructions_Len inst)) by lia.
    destruct Hd as [Hd | Hd]; [exact Hd |].
    apply Hf in Hd. discriminate Hd.
  - apply Hf. reflexivity.
Qed.

(** [Less] is the strict order of the addresses: it faults exactly when
    a position is outside the slice, no position is below itself, of
    two positions at most one is below the other, and it is transitive;
    two positions neither of which is below the other hold the same
    address. *)
Lemma Instructions_Less_strict_order (inst : Instructions) (i j k : Z) :
  (Instructions_Less inst i j = Panic <->
   ~ (0 <= i < Instructions_Len inst /\ 0 <= j < Instructions_Len inst))
  /\ Instructions_Less inst i i <> Ok true
  /\ (Instructions_Less inst i j = Ok true ->
      Instructions_Less inst j i = Ok false)
  /\ (Instructions_Less inst i j = Ok true ->
      Instructions_Less inst j k = Ok true ->
      Instructions_Less inst i k = Ok true)
  /\ (Instructions_Less inst i j = Ok false ->
      Instructions_Less inst j i = Ok false ->
      exists a b, index inst i = Ok a /\ index inst j = Ok b
                  /\ Address a = Address b).
Proof.
  unfold Instructions_Less, Instructions_Len.
  pose proof (index_faults inst i) as Fi.
  pose proof (index_faults inst j) as Fj.
  destruct (index inst i) as [a |]; destruct (index inst j) as [b |];
    cbn [mbind result_bind].
  - split.
    { split; [discriminate |]. intros H. exfalso. apply H. split.
      - destruct (Z.le_gt_cases 0 i); [destruct (Z.lt_ge_cases i (len inst)) |];
          [lia | |]; assert (Ok a = @Panic Instruction) by (apply Fi; lia);
          discriminate.
      - destruct (Z.le_gt_cases 0 j); [destruct (Z.lt_ge_cases j (len inst)) |];
          [lia | |]; assert (Ok b = @Panic Instruction) by (apply Fj; lia);
          discriminate. }
    split; [intros [= H]; apply Z.ltb_lt in H; lia |].
    split; [intros [= H]; apply Z.ltb_lt in H; f_equal; apply Z.ltb_ge; lia |].
    split.
    + intros [= H]. destruct (index inst k) as [c |]; cbn [mbind result_bind];
        [| discriminate].
      intros [= H']. apply Z.ltb_lt in H, H'. f_equal. apply Z.ltb_lt. lia.
    + intros [= H] [= H']. apply Z.ltb_ge in H, H'.
      exists a, b. repeat split; lia.
  - split; [split; [intros _ [_ H]; apply (proj1 Fj eq_refl H) | reflexivity] |].
    split; [intros [= H]; apply Z.ltb_lt in H; lia |].
    repeat split; discriminate.
  - split; [split; [intros _ [H _]; apply (proj1 Fi eq_refl H) | reflexivity] |].
    repeat split; discriminate.
  - split; [split; [intros _ [H _]; apply (proj1 Fi eq_refl H) | reflexivity] |].
    repeat split; discriminate.
Qed.

(** ** More on the recorder *)

Lemma seen_after_XRef (s : string) (v : Z) (i : Instruction) :
  (0x02 <? v) = true -> seen v (Instruction_XRef s v i) = true.
Proof.
  intros Hv. unfold seen. rewrite XRef_fields, Hv. cbn [andb].
  change (Address (Instruction_XRef s v i)) with (Address i).
  destruct (seen v i) eqn:Hs; cbn [negb].
  - exact Hs.
  - rewrite edgesAt_put_eq, existsb_app. cbn [existsb XRefFrom].
    rewrite Z.eqb_refl. rewrite orb_true_r. reflexivity.
Qed.

Lemma seen_kept (s : string) (v w : Z) (i : Instruction) :
  seen w i = true -> seen w (Instruction_XRef s v i) = true.
Proof.
  intros Hs. unfold seen in *. rewrite XRef_fields.
  change (Address (Instruction_XRef s v i)) with (Address i).
  destruct ((0x02 <? v) && negb _); [| exact Hs].
  destruct (Z.eq_dec v w) as [-> | Hne].
  - rewrite edgesAt_put_eq, existsb_app, Hs. reflexivity.
  - rewrite edgesAt_put_ne by exact Hne. exact Hs.
Qed.

Lemma Instruction_XRef_same (s : string) (v : Z) (i : Instruction) :
  XRefs (Instruction_XRef s v i) = XRefs i -> Instruction_XRef s v i = i.
Proof.
  intros H. unfold Instruction_XRef in *. cbn [XRefs set_XRefs] in H.
  rewrite H. destruct i; reflexivity.
Qed.

(** Recording the same cross-reference again changes nothing, whatever
    the format of the second call; and [XRef] touches no field but
    [XRefs], and there only the edges of its target. *)
Lemma XRef_idempotent (s s' : string) (v : Z) (i : Instruction) :
  Instruction_XRef s' v (Instruction_XRef s v i) = Instruction_XRef s v i
  /\ (forall w, w <> v ->
        edgesAt (XRefs (Instruction_XRef s v i)) w = edgesAt (XRefs i) w)
  /\ Calls (Instruction_XRef s v i) = Calls i
  /\ Jumps (Instruction_XRef s v i) = Jumps i
  /\ Vars (Instruction_XRef s v i) = Vars i
  /\ set_XRefs None (Instruction_XRef s v i) = set_XRefs None i.
Proof.
  split; [| split; [| repeat split; reflexivity]].
  - apply Instruction_XRef_same. rewrite (XRef_fields s').
    destruct (0x02 <? v) eqn:Hv; cbn [andb]; [| reflexivity].
    rewrite seen_after_XRef by exact Hv. reflexivity.
  - intros w Hw. rewrite XRef_fields.
    destruct ((0x02 <? v) && negb (seen v i)); [| reflexivity].
    apply edgesAt_put_ne. congruence.
Qed.

(** [Call] and [Jump] keep every edge: after a run of recorder
    operations the slice under a target is what it was, followed by one
    edge for each call to that target, in the order of the calls, from
    the address of the instruction. *)
Lemma recorder_keeps_order (ops : list recorderOp) (i : Instruction) (v : Z) :
  edgesAt (Calls (runOps ops i)) v =
    (edgesAt (Calls i) v ++ callsTo (Address i) (Mnemonic i) v ops)%list
  /\ edgesAt (Jumps (runOps ops i)) v =
       (edgesAt (Jumps i) v ++ jumpsTo (Address i) (Mnemonic i) v ops)%list.
Proof.
  revert i. induction ops as [| o ops IH]; intros i.
  - cbn. rewrite !app_nil_r. split; reflexivity.
  - cbn [runOps fold_left]. fold (runOps ops (runOp o i)).
    destruct (IH (runOp o i)) as [IHc IHj]. rewrite IHc, IHj.
    assert (Ha : Address (runOp o i) = Address i) by (destruct o; reflexivity).
    assert (Hm : Mnemonic (runOp o i) = Mnemonic i) by (destruct o; reflexivity).
    rewrite Ha, Hm.
    destruct o as [s w | s w | s w]; cbn [runOp callsTo jumpsTo].
    + split; reflexivity.
    + split; [| reflexivity].
      cbn [Calls Instruction_Call set_Calls].
      destruct (Z.eqb_spec w v) as [-> | Hne].
      * rewrite edgesAt_put_eq, <- app_assoc. reflexivity.
      * rewrite edgesAt_put_ne by exact Hne. reflexivity.
    + split; [reflexivity |].
      cbn [Jumps Instruction_Jump set_Jumps].
      destruct (Z.eqb_spec w v) as [-> | Hne].
      * rewrite edgesAt_put_eq, <- app_assoc. reflexivity.
      * rewrite edgesAt_put_ne by exact Hne. reflexivity.
Qed.

(** ** The operands of the direct mode *)

Lemma index_in_range {A : Type} (s : list A) (k : Z) :
  0 <= k < len s -> exists x, index s k = Ok x.
Proof.
  intros Hk. destruct (index s k) as [x |] eqn:Hx; [exists x; reflexivity |].
  apply index_faults in Hx. contradiction.
Qed.

Lemma directBody_eq (i : Z) (varStr : string) (instr : Instruction)
    (vars : gmap string VariableT) (b : Z) (r : byte) (t : string) :
  index (RawOps instr) b = Ok r -> index (VarTypes instr) i = Ok t ->
  directBody regName i varStr (mkLoop instr vars b)
  = Ok (mkLoop (Instruction_XRef (regName "R_%02X" (u8 r)) (u8 r) instr)
          (<[varStr := resolved varStr
                         (Sprintf (regName "R_%02X" (u8 r)) [AInt (u8 r)]) t]> vars)
          (b - 1)).
Proof.
  intros Hr Ht. unfold directBody. cbn [ls_instr ls_vars ls_b].
  rewrite Hr, bind_Ok. cbv zeta. rewrite VarTypes_XRef, Ht, bind_Ok.
  reflexivity.
Qed.

(** The loop of the direct mode from the operand position [b] and the
    type position [i0]. *)
Lemma directLoop (names : list string) :
  forall (i0 : Z) (instr : Instruction) (vars : gmap string VariableT) (b : Z),
    0 <= i0 -> len names <= b + 1 <= len (RawOps instr) ->
    i0 + len names <= len (VarTypes instr) ->
    exists st,
      forRange names i0 (directBody regName) (mkLoop instr vars b) = Ok st
      /\ set_XRefs None (ls_instr st) = set_XRefs None instr
      /\ ls_b st = b - len names
      /\ (forall w, seen w instr = true -> seen w (ls_instr st) = true)
      /\ (forall name, name ∉ names -> ls_vars st !! name = vars !! name)
      /\ (NoDup names ->
          forall (k : nat) name, names !! k = Some name ->
            exists r t,
              index (RawOps instr) (b - Z.of_nat k) = Ok r
              /\ index (VarTypes instr) (i0 + Z.of_nat k) = Ok t
              /\ ((0x02 <? u8 r) = true -> seen (u8 r) (ls_instr st) = true)
              /\ ls_vars st !! name =
                   Some (resolved name
                           (Sprintf (regName "R_%02X" (u8 r)) [AInt (u8 r)]) t)).
Proof.
  induction names as [| x names IH]; intros i0 instr vars b Hi Hb Ht.
  - exists (mkLoop instr vars b). unfold len in *. cbn [length] in *.
    split; [reflexivity |]. split; [reflexivity |].
    split; [cbn [ls_b]; lia |]. split; [intros w Hw; exact Hw |].
    split; [reflexivity |].
    intros _ k name Hk. discriminate Hk.
  - unfold len in Hb, Ht. cbn [length] in Hb, Ht.
    destruct (index_in_range (RawOps instr) b ltac:(unfold len; lia)) as [r Hr].
    destruct (index_in_range (VarTypes instr) i0 ltac:(unfold len; lia)) as [t Hty].
    cbn [forRange]. rewrite (directBody_eq _ _ _ _ _ _ _ Hr Hty), bind_Ok.
    set (instr1 := Instruction_XRef (regName "R_%02X" (u8 r)) (u8 r) instr).
    set (v := resolved x (Sprintf (regName "R_%02X" (u8 r)) [AInt (u8 r)]) t).
    assert (Hro : RawOps instr1 = RawOps instr) by reflexivity.
    assert (Hvt : VarTypes instr1 = VarTypes instr) by reflexivity.
    destruct (IH (i0 + 1) instr1 (<[x := v]> vars) (b - 1)) as
      (st & Hst & Hfr & Hbst & Hseen & Hout & Hin).
    { lia. }
    { rewrite Hro. unfold len. lia. }
    { rewrite Hvt. unfold len. lia. }
    exists st. split; [exact Hst |].
    split; [rewrite Hfr; reflexivity |].
    split; [unfold len in *; cbn [length]; lia |].
    split; [intros w Hw; apply Hseen, seen_kept; exact Hw |].
    split.
    + intros name Hn. apply not_elem_of_cons in Hn as [Hx Hn].
      rewrite (Hout name Hn). apply lookup_insert_ne. congruence.
    + intros Hnd k name Hk. apply NoDup_cons in Hnd as [Hx Hnd].
      destruct k as [| k].
      * cbn in Hk. injection Hk as <-.
        exists r, t. rewrite Z.sub_0_r, Z.add_0_r.
        split; [exact Hr |]. split; [exact Hty |].
        split; [intros H2; apply Hseen, seen_after_XRef; exact H2 |].
        rewrite (Hout x Hx). apply lookup_insert_eq.
      * cbn in Hk.
        destruct (Hin Hnd k name Hk) as (r' & t' & Hr' & Ht' & Hs' & Hv).
        exists r', t'. rewrite Hro in Hr'. rewrite Hvt in Ht'.
        replace (b - Z.of_nat (S k)) with (b - 1 - Z.of_nat k) by lia.
        replace (i0 + Z.of_nat (S k)) with (i0 + 1 + Z.of_nat k) by lia.
        split; [exact Hr' |]. split; [exact Ht' |].
        split; [exact Hs' | exact Hv].
Qed.

(** In direct mode [doMIDDLE] reads the operand bytes back to front:
    the declared operand at position [k] is the register whose number is
    the operand byte at position [k] from the end, with the type
    declared at position [k]; the instruction comes back checked, and
    but for its cross-references, its variables and that flag it is
    unchanged. The operand bytes and the types must suffice for the
    declared names. *)
Lemma direct_operands_back_to_front (instr : Instruction) :
  isMode instr "direct" = true ->
  len (VarStrings instr) <= len (RawOps instr) ->
  len (VarStrings instr) <= len (VarTypes instr) ->
  NoDup (VarStrings instr) ->
  exists instr' vars,
    doMIDDLE regName instr = Ok instr'
    /\ Vars instr' = Some vars /\ Checked instr' = true
    /\ set_XRefs None (set_Vars None (set_Checked false instr'))
       = set_XRefs None (set_Vars None (set_Checked false instr))
    /\ (forall name, vars !! name <> None <-> name ∈ VarStrings instr)
    /\ forall (k : nat) name,
         VarStrings instr !! k = Some name ->
         exists r t,
           index (RawOps instr) (len (RawOps instr) - 1 - Z.of_nat k) = Ok r
           /\ index (VarTypes instr) (Z.of_nat k) = Ok t
           /\ vars !! name =
                Some (resolved name
                        (Sprintf (regName "R_%02X" (u8 r)) [AInt (u8 r)]) t)
           /\ (2 < u8 r ->
               exists x, In x (edgesAt (XRefs instr') (u8 r))
                         /\ XRefFrom x = Address instr).
Proof.
  intros Hm Hr Ht Hnd.
  destruct (directLoop (VarStrings instr) 0 instr ∅ (len (RawOps instr) - 1))
    as (st & Hst & Hfr & _ & _ & Hout & Hin); [lia | lia | lia |].
  unfold doMIDDLE. cbv zeta. rewrite Hm, Hst, !bind_Ok.
  cbn [ls_instr ls_vars ls_b].
  eexists. exists (ls_vars st). split; [reflexivity |].
  split; [reflexivity |]. split; [reflexivity |].
  split.
  { destruct st as [i1 v1 b1]. cbn [ls_instr ls_vars] in *.
    destruct i1, instr. cbn in Hfr |- *. injection Hfr as -> -> -> -> -> -> -> ->
      -> -> -> -> -> -> -> -> -> -> -> -> -> ->.
    reflexivity. }
  split.
  - intros name. split.
    + intros Hn. destruct (decide (name ∈ VarStrings instr)) as [H | H];
        [exact H |]. rewrite (Hout name H), lookup_empty in Hn.
      contradiction.
    + intros Hn. apply list_elem_of_lookup in Hn as [k Hk].
      destruct (Hin Hnd k name Hk) as (r & t & _ & _ & _ & Hv). rewrite Hv.
      discriminate.
  - intros k name Hk.
    destruct (Hin Hnd k name Hk) as (r & t & Hr' & Ht' & Hs & Hv).
    exists r, t. rewrite Z.add_0_l in Ht'.
    split; [exact Hr' |]. split; [exact Ht' |]. split; [exact Hv |].
    intros H2. apply Z.ltb_lt in H2. specialize (Hs H2).
    unfold seen in Hs. apply existsb_exists in Hs as (x & Hx & Ha).
    exists x. split; [exact Hx |]. apply Z.eqb_eq in Ha. rewrite Ha.
    change (Address (ls_instr st) = Address instr).
    change (Address (set_XRefs None (ls_instr st)) = Address instr).
    rewrite Hfr. reflexivity.
Qed.

(** ** The tables *)

Lemma unsigned_templates (b : byte) :
  match unsignedInstructions b with
  | Some t => templateChecks t
  | None => true
  end = true.
Proof. destruct b; vm_compute; reflexivity. Qed.

Lemma signed_templates (b : byte) :
  match signedInstructions b with
  | Some t => templateChecks t
  | None => true
  end = true.
Proof. destruct b; vm_compute; reflexivity. Qed.

Lemma memberOf_In (s : string) (l : list string) :
  memberOf s l = true <-> In s l.
Proof.
  unfold memberOf. rewrite existsb_exists. split.
  - intros (x & Hx & He). apply String.eqb_eq in He. subst x. exact Hx.
  - intros Hx. exists s. split; [exact Hx | apply String.eqb_refl].
Qed.

(** Every template of the two tables is between 1 and 6 bytes long,
    declares as many operand types as operand names and no name twice,
    and counts no more operands than it names: as many, but for [SKIP],
    [DJNZ] and [DJNZW]. Its names have an entry in the catalog
    [VarObjs], with five exceptions, whose variables are made from the
    zero value that the map returns for a missing key. *)
Lemma templates_well_formed (b : byte) (t : Instruction) :
  unsignedInstructions b = Some t \/ signedInstructions b = Some t ->
  1 <= ByteLength t <= 6
  /\ len (VarTypes t) = len (VarStrings t)
  /\ NoDup (VarStrings t)
  /\ 0 <= VarCount t <= len (VarStrings t)
  /\ (VarCount t = len (VarStrings t)
      \/ In (Mnemonic t) ["SKIP"; "DJNZ"; "DJNZW"])
  /\ Signed t = false /\ AutoIncrement t = false
  /\ (forall name, In name (VarStrings t) ->
        (VarObjs !! name = None <-> In name uncatalogued)).
Proof.
  intros Ht.
  assert (H : templateChecks t = true).
  { destruct Ht as [Ht | Ht].
    - pose proof (unsigned_templates b) as H. rewrite Ht in H. exact H.
    - pose proof (signed_templates b) as H. rewrite Ht in H. exact H. }
  clear Ht. unfold templateChecks in H. all_checks.
  repeat match goal with
         | Hb : (_ <=? _) = true |- _ => apply Z.leb_le in Hb
         | Hb : (_ =? _) = true |- _ => apply Z.eqb_eq in Hb
         | Hb : negb _ = true |- _ => apply negb_true_iff in Hb
         | Hb : bool_decide _ = true |- _ => apply bool_decide_eq_true_1 in Hb
         end.
  repeat (split; [first [assumption | lia] |]).
  split.
  { match goal with
    | Hb : _ || _ = true |- _ => apply orb_prop in Hb as [Hb | Hb]
    end; [left; apply Z.eqb_eq; assumption | right; apply memberOf_In; assumption]. }
  split; [assumption |]. split; [assumption |].
  intros name Hn.
  match goal with
  | Hb : forallb _ _ = true |- _ =>
      rewrite forallb_forall in Hb; specialize (Hb name Hn);
      apply Bool.eqb_prop in Hb
  end.
  rewrite <- memberOf_In.
  match goal with
  | Hb : negb (present _) = _ |- _ => rewrite <- Hb
  end.
  destruct (VarObjs !! name); cbn; split; congruence.
Qed.

(** [Parse] always tells its caller to advance: the byte length it
    returns, with or without an error, is between 1 and 7. It is within
    the capacity of the input, not always within its length; with an
    error it is 1, and the input has that byte. *)
Lemma Parse_advances (input beyond : list byte) (address : Z) (i : Instruction)
    (e : option string) :
  Parse regName input beyond address = Ok (i, e) ->
  1 <= ByteLength i <= 7 /\ ByteLength i <= len input + len beyond
  /\ (e <> None -> ByteLength i <= len input).
Proof.
  intros HP. destruct e as [err |].
  - apply Parse_error_placeholder in HP as [Hsel ->].
    change (ByteLength placeholder) with 1.
    destruct input as [| b0 rest]; [discriminate Hsel |].
    unfold len. cbn [length]. lia.
  - destruct (Parse_shape _ _ _ _ HP) as (t & _ & H).
    assert (Hl : ByteLength i <= len input + len beyond).
    { destruct (Parse_outcome regName input beyond address _ HP) as [Ho _].
      assert (Hfit : fits input beyond).
      { apply (Parse_returns_iff regName input beyond address). rewrite HP.
        reflexivity. }
      unfold outcomeChecks in Ho. unfold fits, headerLength in Hfit.
      destruct (header input) as [[h |] |]; all_checks; try discriminate.
      match goal with
      | Hb : (ByteLength h =? ByteLength i) = true |- _ =>
          apply Z.eqb_eq in Hb; lia
      end. }
    unfold shapeChecks in H. cbv zeta in H. all_checks.
    repeat match goal with
           | Hb : (_ <=? _) = true |- _ => apply Z.leb_le in Hb
           end.
    split; [lia |]. split; [lia |]. intros He. contradiction He. reflexivity.
Qed.

(** The description and the size of every variable of a decoded
    instruction are those that the catalog [VarObjs] has for its name;
    for a name that the catalog lacks they are empty and 0. *)
Lemma Parse_variables_from_catalog (input beyond : list byte) (address : Z)
    (i : Instruction) (m : gmap string VariableT) (name : string)
    (v : VariableT) :
  Parse regName input beyond address = Ok (i, None) ->
  Vars i = Some m -> m !! name = Some v ->
  Var_Description v = Var_Description (VarObjs_at name)
  /\ Var_Bits v = Var_Bits (VarObjs_at name)
  /\ (VarObjs !! name = None -> Var_Description v = "" /\ Var_Bits v = 0).
Proof.
  intros HP Hm Hv. destruct (Parse_shape _ _ _ _ HP) as (t & _ & H).
  unfold shapeChecks in H. cbv zeta in H. rewrite Hm in H. all_checks.
  match goal with
  | Hb : fromCatalog m = true |- _ => rename Hb into Hcat
  end.
  unfold fromCatalog in Hcat. rewrite forallb_forall in Hcat.
  assert (Hin : In (name, v) (map_to_list m)).
  { apply list_elem_of_In, elem_of_map_to_list. exact Hv. }
  specialize (Hcat (name, v) Hin). cbn [fst snd] in Hcat.
  apply andb_prop in Hcat as [Hd Hb].
  apply String.eqb_eq in Hd. apply Z.eqb_eq in Hb.
  split; [exact Hd |]. split; [exact Hb |].
  intros Hn. rewrite Hd, Hb. unfold VarObjs_at. rewrite Hn. split; reflexivity.
Qed.

(** ** Shift counts, bit tests and extended calls *)

(** The shifts of [do00] ([SHR], [SHL], [SHRA], [SHRL], [SHLL], [SHRAL]
    and their byte forms) take their count from the first operand byte:
    a count below [0x10] is printed as an immediate, [#0c]. The walk
    tests bit 3 of the opcode, so it prints the pointer of the
    extended-indirect [EST] ([0x1C]) and [ESTB] ([0x1E]) the same way. *)
Lemma low_group_count_operand (op c r : byte) (rest beyond : list byte)
    (address : Z) :
  In op [x08; x09; x0a; x0c; x0d; x0e; x18; x19; x1a; x1c; x1e] ->
  u8 c < 0x10 ->
  exists i name,
    Parse regName (op :: c :: r :: rest) beyond address = Ok (i, None)
    /\ ByteLength i = 3 /\ Checked i = true
    /\ last (VarStrings i) = Some name
    /\ Var_Value (varsAt (Vars i) name) = Sprintf "#%02X" [AInt (u8 c)].
Proof.
  intros Hop Hc.
  assert (Hcs : In c [x00; x01; x02; x03; x04; x05; x06; x07;
                      x08; x09; x0a; x0b; x0c; x0d; x0e; x0f]).
  { destruct c; try (exfalso; vm_compute in Hc; discriminate Hc);
      cbn [In]; tauto. }
  clear Hc.
  assert (H : exists i,
            Parse regName (op :: c :: r :: rest) beyond address = Ok (i, None)
            /\ ByteLength i = 3 /\ Checked i = true
            /\ match last (VarStrings i) with
               | Some name =>
                   Var_Value (varsAt (Vars i) name)
                   = Sprintf "#%02X" [AInt (u8 c)]
               | None => False
               end).
  { apply decoded_intro. cbn [In] in Hop, Hcs.
    repeat (destruct Hop as [<- | Hop]; [| try contradiction]);
      repeat (destruct Hcs as [<- | Hcs]; [| try contradiction]);
      vm_compute; repeat (split; [reflexivity |]); reflexivity. }
  destruct H as (i & HP & Hb & Hk & Hl).
  destruct (last (VarStrings i)) as [name |] eqn:El; [| contradiction].
  exists i, name. repeat split; assumption.
Qed.

(** The sixteen bit tests: [JBC] for the opcodes [0x30] to [0x37], [JBS]
    for [0x38] to [0x3F], three bytes long; the variable [bitno] is the
    low three bits of the opcode, in decimal. *)
Lemma bit_test_operands (op b1 b2 : byte) (rest beyond : list byte)
    (address : Z) :
  Z.land (u8 op) 0xF0 = 0x30 ->
  exists i,
    Parse regName (op :: b1 :: b2 :: rest) beyond address = Ok (i, None)
    /\ Mnemonic i = (if Z.testbit (u8 op) 3 then "JBS" else "JBC")
    /\ ByteLength i = 3 /\ Checked i = true
    /\ VarStrings i = ["breg"; "bitno"; "cadd"]
    /\ Var_Value (varsAt (Vars i) "bitno")
       = Sprintf "%d" [AInt (Z.land (u8 op) 0x07)]
    /\ Calls i = None.
Proof.
  intros Hop.
  destruct op; try (exfalso; vm_compute in Hop; discriminate Hop);
    apply decoded_intro; vm_compute;
    repeat (split; [reflexivity |]); reflexivity.
Qed.

Lemma land_21_range (z : Z) : 0 <= Z.land z 0x1FFFFF < 0x200000.
Proof.
  change 0x1FFFFF with (Z.ones 21). rewrite Z.land_ones by lia.
  apply Z.mod_pos_bound. lia.
Qed.

Lemma doF0_eq (instr : Instruction) (b1 b2 b3 : byte) (t0 : string) :
  index (RawOps instr) 0 = Ok b1 -> index (RawOps instr) 1 = Ok b2 ->
  index (RawOps instr) 2 = Ok b3 -> index (VarTypes instr) 0 = Ok t0 ->
  let target :=
    Z.land (int (int (Address instr + ByteLength instr) + le24 b1 b2 b3))
      0x1FFFFF in
  doF0 instr =
  Ok (set_Checked true
        (set_Vars
           (Some (<["cadd" := resolved "cadd" (Sprintf "0x%X" [AInt target]) t0]> ∅))
           (if String.eqb (Mnemonic instr) "ECALL"
            then Instruction_Call "0x%X" target instr
            else Instruction_XRef "0x%X" target instr))).
Proof.
  intros H0 H1 H2 Ht target. unfold doF0.
  rewrite H0, bind_Ok, H1, bind_Ok, H2, bind_Ok. cbv zeta. fold target.
  destruct (String.eqb (Mnemonic instr) "ECALL").
  - rewrite VarTypes_Call, Ht, bind_Ok. reflexivity.
  - rewrite VarTypes_XRef, Ht, bind_Ok. reflexivity.
Qed.

(** [doF0] reads three operand bytes, adds them to the end of the
    instruction and keeps 21 bits: the target is an address of the
    2-Mbyte space whatever the bytes are. [ECALL] gets a call edge to
    it; any other instruction of the group gets a cross-reference
    instead, and no call. *)
Lemma extended_call_target (instr : Instruction) (b1 b2 b3 : byte)
    (ops : list byte) (t0 : string) (ts : list string) :
  RawOps instr = b1 :: b2 :: b3 :: ops -> VarTypes instr = t0 :: ts ->
  let target :=
    Z.land (int (int (Address instr + ByteLength instr) + le24 b1 b2 b3))
      0x1FFFFF in
  exists instr',
    doF0 instr = Ok instr'
    /\ 0 <= target < 0x200000
    /\ Checked instr' = true
    /\ Vars instr'
       = Some {[ "cadd" := resolved "cadd" (Sprintf "0x%X" [AInt target]) t0 ]}
    /\ Jumps instr' = Jumps instr
    /\ (Mnemonic instr = "ECALL" ->
        edgesAt (Calls instr') target =
          (edgesAt (Calls instr) target ++
           [mkCall (Sprintf "0x%X" [AInt target]) (Mnemonic instr)
              (Address instr) target])%list
        /\ XRefs instr' = XRefs instr)
    /\ (Mnemonic instr <> "ECALL" ->
        Calls instr' = Calls instr
        /\ instr' = set_Checked true
                      (set_Vars (Vars instr')
                         (Instruction_XRef "0x%X" target instr))).
Proof.
  intros Hr Ht target.
  assert (H0 : index (RawOps instr) 0 = Ok b1) by (rewrite Hr; reflexivity).
  assert (H1 : index (RawOps instr) 1 = Ok b2) by (rewrite Hr; reflexivity).
  assert (H2 : index (RawOps instr) 2 = Ok b3) by (rewrite Hr; reflexivity).
  assert (H3 : index (VarTypes instr) 0 = Ok t0) by (rewrite Ht; reflexivity).
  eexists. split; [exact (doF0_eq _ _ _ _ _ H0 H1 H2 H3) |].
  fold target. split; [apply land_21_range |].
  split; [reflexivity |].
  split; [cbn [Vars set_Checked set_Vars]; rewrite insert_empty; reflexivity |].
  split; [destruct (String.eqb (Mnemonic instr) "ECALL"); reflexivity |].
  split.
  - intros Hm.
    assert (He : String.eqb (Mnemonic instr) "ECALL" = true)
      by (apply String.eqb_eq; exact Hm).
    rewrite He. split; [apply edgesAt_put_eq | reflexivity].
  - intros Hm. apply String.eqb_neq in Hm. rewrite Hm.
    split; reflexivity.
Qed.
End Decoder_properties.

(** ** Decodings with plain register names *)

(** [signed_prefix_selects_MUL] at the five bytes [FE 4C 10 20 30]. *)
Lemma signed_prefix_selects_MUL_witness :
  3 <= len [x10; x20; x30]
  /\ exists i,
       Parse plainRegName [xfe; x4c; x10; x20; x30] [] 0 = Ok (i, None)
       /\ Mnemonic i = "SGN MUL" /\ ByteLength i = 5
       /\ RawOps i = [x10; x20; x30].
Proof.
  assert (Hlen : 3 <= len [x10; x20; x30]) by (vm_compute; discriminate).
  split; [exact Hlen |].
  destruct (signed_prefix_selects_MUL plainRegName [x10; x20; x30] [] 0 Hlen)
    as (i & t & u & HP & _ & _ & _ & _ & _ & _ & _ & _ & _ & _ & Hb & Hm & _ & _ & Hro & _).
  exists i. repeat split; assumption.
Defined.

(** The names that the indirect loops print, with plain register names:
    the byte register [0x21] of [ADDB] and of [STB] is printed [R_20];
    with the autoincrement bit in the pointer byte, [doMIDDLE] prints
    the pointer [[R_10+]] and [doC0] prints it [[R_10]+]. *)
Lemma indirect_operands_plain :
  (exists i, Parse plainRegName [x76; x10; x21] [] 0 = Ok (i, None)
             /\ Var_Value (varsAt (Vars i) "breg") = "R_20"
             /\ Var_Value (varsAt (Vars i) "baop") = "[R_10]")
  /\ (exists i, Parse plainRegName [xc6; x10; x21] [] 0 = Ok (i, None)
                /\ Var_Value (varsAt (Vars i) "breg") = "R_20"
                /\ Var_Value (varsAt (Vars i) "baop") = "[R_10]")
  /\ (exists i, Parse plainRegName [x76; x11; x21] [] 0 = Ok (i, None)
                /\ AddressingMode i = "indirect+"
                /\ Var_Value (varsAt (Vars i) "baop") = "[R_10+]")
  /\ (exists i, Parse plainRegName [xc6; x11; x21] [] 0 = Ok (i, None)
                /\ AddressingMode i = "indirect+"
                /\ Var_Value (varsAt (Vars i) "baop") = "[R_10]+").
Proof.
  split; [| split; [| split]]; apply decoded_intro; vm_compute;
    repeat (split; [reflexivity |]); reflexivity.
Qed.

(** [unsigned_indexed_disambiguation] at [SUB] with three operands,
    [0x4B], and the first operand byte [0x11], whose bit 0 is set. *)
Lemma unsigned_indexed_disambiguation_witness :
  exists t i,
    unsignedInstructions x4b = Some t
    /\ Parse plainRegName [x4b; x11; x20; x30; x40; x50] [] 0 = Ok (i, None)
    /\ AddressingMode i = "long-indexed"
    /\ ByteLength i = ByteLength t + 1.
Proof.
  set (t := match unsignedInstructions x4b with
            | Some t => t
            | None => zeroInstruction
            end).
  assert (Hop : Byte.eqb x4b xfe = false) by reflexivity.
  assert (Ht : unsignedInstructions x4b = Some t) by (vm_compute; reflexivity).
  assert (Hm : isMode t "indexed" = true) by (vm_compute; reflexivity).
  assert (Hv : VariableLength t = true) by (vm_compute; reflexivity).
  assert (Hf : fits [x4b; x11; x20; x30; x40; x50] [])
    by (vm_compute; discriminate).
  destruct (unsigned_indexed_disambiguation plainRegName x4b x11
              [x20; x30; x40; x50] [] 0 t Hop Ht Hm Hv Hf) as (i & HP & Ha & Hb).
  exists t, i. split; [exact Ht |]. split; [exact HP |].
  split; [exact Ha | exact Hb].
Defined.

(** [signed_never_short_indexed] at the prefixed [MUL] of [0x4F]. *)
Lemma signed_never_short_indexed_witness :
  exists i,
    Parse plainRegName [xfe; x4f; x10; x20; x30; x40; x50] [] 0 = Ok (i, None)
    /\ Signed i = true /\ AddressingMode i <> "short-indexed".
Proof.
  assert (H : exists i,
            Parse plainRegName [xfe; x4f; x10; x20; x30; x40; x50] [] 0
            = Ok (i, None) /\ Signed i = true).
  { apply decoded_intro. vm_compute. split; reflexivity. }
  destruct H as (i & HP & Hs). exists i.
  split; [exact HP |]. split; [exact Hs |].
  exact (signed_never_short_indexed plainRegName _ [] 0 i None HP Hs).
Defined.

(** [Parse_raw_lengths] at the prefixed [MUL] of [0x4C], on an input
    that ends behind the opcode, the operand bytes lying behind it in
    its backing array. *)
Lemma Parse_raw_lengths_witness :
  exists i,
    Parse plainRegName [xfe; x4c] [x10; x20; x30; x40] 0 = Ok (i, None)
    /\ len (Raw i) = ByteLength i
    /\ len (RawOps i) = ByteLength i - (if Signed i then 2 else 1)
    /\ ByteLength i <= len [xfe; x4c] + len [x10; x20; x30; x40].
Proof.
  assert (H : exists i,
            Parse plainRegName [xfe; x4c] [x10; x20; x30; x40] 0 = Ok (i, None)
            /\ True).
  { apply decoded_intro. vm_compute. exact I. }
  destruct H as (i & HP & _). exists i. split; [exact HP |].
  exact (Parse_raw_lengths plainRegName _ _ 0 i HP).
Defined.

(** [doCONDJMP_forward_only] at [JNE] with the operand byte [0xFE], at
    the address [0x100]. *)
Lemma doCONDJMP_forward_only_witness :
  exists t instr',
    unsignedInstructions xd7 = Some t
    /\ doCONDJMP (set_RawOps [xfe] (set_Address 0x100 t)) = Ok instr'
    /\ map JumpTo (edgesAt (Jumps instr') 0x200) = [0x200]
    /\ edgesAt (Jumps instr') 0x100 = [].
Proof.
  set (t := match unsignedInstructions xd7 with
            | Some t => t
            | None => zeroInstruction
            end).
  assert (Ht : unsignedInstructions xd7 = Some t) by (vm_compute; reflexivity).
  assert (Hr : RawOps (set_RawOps [xfe] (set_Address 0x100 t)) = [xfe])
    by reflexivity.
  assert (Hv : VarTypes (set_RawOps [xfe] (set_Address 0x100 t)) = ["ADDR"])
    by (vm_compute; reflexivity).
  assert (Hlo : - 2 ^ 63 <= Address (set_RawOps [xfe] (set_Address 0x100 t))
                            + ByteLength (set_RawOps [xfe] (set_Address 0x100 t)))
    by (vm_compute; discriminate).
  assert (Hhi : Address (set_RawOps [xfe] (set_Address 0x100 t))
                + ByteLength (set_RawOps [xfe] (set_Address 0x100 t))
                + u8 xfe < 2 ^ 63)
    by (vm_compute; reflexivity).
  destruct (doCONDJMP_forward_only (set_RawOps [xfe] (set_Address 0x100 t))
              xfe [] "ADDR" [] Hr Hv Hlo Hhi)
    as (instr' & target & Hd & Htgt & _ & He & Hne).
  assert (Etgt : target = 0x200) by (rewrite Htgt; vm_compute; reflexivity).
  subst target. exists t, instr'. split; [exact Ht |]. split; [exact Hd |].
  split.
  - rewrite Etgt in He. rewrite He. vm_compute. reflexivity.
  - rewrite (Hne 0x100) by (rewrite Etgt; discriminate). vm_compute. reflexivity.
Defined.

(** [doC0_checks_eagerly] at an instruction of a mode that [doC0] has no
    case for. *)
Lemma doC0_checks_eagerly_witness :
  exists instr',
    doC0 plainRegName (set_AddressingMode "extended-indirect" zeroInstruction)
    = Ok instr'
    /\ Checked instr' = true.
Proof.
  apply (doC0_checks_eagerly plainRegName
           (set_AddressingMode "extended-indirect" zeroInstruction));
    reflexivity.
Defined.

(** [indirect_pointer_formats] at the template of [ADDB] with the
    autoincrement flag and the pointer byte [0x11]: [[R_10+]] from
    [doMIDDLE], [[R_10]+] from [doC0]. *)
Lemma indirect_pointer_formats_witness :
  let instr :=
    set_AutoIncrement true
      (set_RawOps [x11; x21]
         (match unsignedInstructions x76 with
          | Some t => t
          | None => zeroInstruction
          end)) in
  (exists st, middleIndirectBody plainRegName 1 "baop" (mkLoop instr ∅ 0) = Ok st
              /\ Var_Value (varsAt (Some (ls_vars st)) "baop") = "[R_10+]")
  /\ (exists st, c0IndirectBody plainRegName 1 "baop" (mkLoop instr ∅ 0) = Ok st
                 /\ Var_Value (varsAt (Some (ls_vars st)) "baop") = "[R_10]+").
Proof.
  intros instr.
  destruct (indirect_pointer_formats plainRegName 1 "baop" instr ∅ eq_refl)
    as [Hm Hc].
  split; [rewrite Hm | rewrite Hc]; apply Ok_intro; vm_compute; reflexivity.
Defined.

(** ** Further decodings with plain register names *)

(** [Parse_keeps_template] at the prefixed [MUL] of [0x4C]. *)
Lemma Parse_keeps_template_witness :
  exists i t,
    Parse plainRegName [xfe; x4c; x10; x20; x30] [] 0 = Ok (i, None)
    /\ selected [xfe; x4c; x10; x20; x30] = Ok (Some t)
    /\ Op i = x4c /\ Signed i = true
    /\ VarCount i = VarCount t /\ VarTypes i = VarTypes t
    /\ Mnemonic i = "SGN " +:+ Mnemonic t.
Proof.
  assert (H : exists i,
            Parse plainRegName [xfe; x4c; x10; x20; x30] [] 0 = Ok (i, None)
            /\ True).
  { apply decoded_intro. vm_compute. exact I. }
  destruct H as (i & HP & _).
  destruct (Parse_keeps_template plainRegName _ _ 0 i HP)
    as (t & Hsel & Hop & Hs & Hc & Hty & _ & _ & _ & _ & Hm & _).
  exists i, t. repeat split; assumption.
Defined.

(** [Parse_without_operands] at [NOP]. *)
Lemma Parse_without_operands_witness :
  exists i,
    Parse plainRegName [xfd] [] 0 = Ok (i, None)
    /\ Mnemonic i = "NOP" /\ VarCount i = 0
    /\ Checked i = true /\ Vars i = None /\ PseudoCode i = ""
    /\ XRefs i = None /\ Calls i = None /\ Jumps i = None.
Proof.
  assert (H : exists i,
            Parse plainRegName [xfd] [] 0 = Ok (i, None)
            /\ Mnemonic i = "NOP" /\ VarCount i = 0).
  { apply decoded_intro. vm_compute. split; reflexivity. }
  destruct H as (i & HP & Hm & Hv). exists i.
  split; [exact HP |]. split; [exact Hm |]. split; [exact Hv |].
  exact (Parse_without_operands plainRegName _ _ 0 i HP Hv).
Defined.

(** [Parse_edge_kinds] at [SCALL]: a call map and no jump map. *)
Lemma Parse_edge_kinds_witness :
  exists i,
    Parse plainRegName [x28; x05] [] 0x100 = Ok (i, None)
    /\ Mnemonic i = "SCALL" /\ Calls i <> None /\ ~ Jumps i <> None.
Proof.
  assert (H : exists i,
            Parse plainRegName [x28; x05] [] 0x100 = Ok (i, None)
            /\ Mnemonic i = "SCALL").
  { apply decoded_intro. vm_compute. reflexivity. }
  destruct H as (i & HP & Hm). exists i.
  destruct (Parse_edge_kinds plainRegName _ _ 0x100 i HP) as [Hc Hj].
  split; [exact HP |]. split; [exact Hm |]. rewrite Hc, Hj, Hm. split.
  - left. reflexivity.
  - cbn [In jumpMnemonics]. intros H.
    repeat (destruct H as [H | H]; [discriminate H |]). exact H.
Defined.

(** [Parse_resolves_declared_operands] at [ADD] with two operands in
    direct mode. *)
Lemma Parse_resolves_declared_operands_witness :
  exists i m,
    Parse plainRegName [x64; x10; x20] [] 0 = Ok (i, None)
    /\ VarStrings i = ["wreg"; "waop"] /\ VarTypes i = ["DEST"; "SRC"]
    /\ Vars i = Some m /\ size m = 2%nat
    /\ (exists v, m !! "wreg" = Some v /\ Var_Type v = "DEST")
    /\ (exists v, m !! "waop" = Some v /\ Var_Type v = "SRC").
Proof.
  assert (H : exists i,
            Parse plainRegName [x64; x10; x20] [] 0 = Ok (i, None)
            /\ VarStrings i = ["wreg"; "waop"] /\ VarTypes i = ["DEST"; "SRC"]
            /\ Checked i = true /\ 0 < VarCount i /\ Mnemonic i = "ADD").
  { apply decoded_intro. vm_compute. repeat (split; [reflexivity |]).
    reflexivity. }
  destruct H as (i & HP & Hn & Hty & Hc & Hv & Hmn).
  destruct (Parse_resolves_declared_operands plainRegName _ _ 0 i HP Hc Hv)
    as (m & Hm & Hall & _).
  destruct Hall as [Hsz Hall]; [rewrite Hmn; discriminate |].
  rewrite Hn, Hty in Hall. rewrite Hn in Hsz.
  apply Forall2_cons in Hall as [H1 Hall].
  apply Forall2_cons in Hall as [H2 _].
  exists i, m. repeat split; assumption.
Defined.

(** [Parse_raw_bytes] at [ADD] on an input of two bytes, with its last
    operand byte and one more byte behind the input in its backing
    array. *)
Lemma Parse_raw_bytes_witness :
  exists i,
    Parse plainRegName [x64; x10] [x20; x99] 0x2000 = Ok (i, None)
    /\ ByteLength i = 3 /\ Address i = 0x2000
    /\ Raw i = [x64; x10; x20] /\ RawOps i = [x10; x20].
Proof.
  assert (H : exists i,
            Parse plainRegName [x64; x10] [x20; x99] 0x2000 = Ok (i, None)
            /\ ByteLength i = 3 /\ Signed i = false).
  { apply decoded_intro. vm_compute. split; reflexivity. }
  destruct H as (i & HP & Hb & Hs). exists i.
  destruct (Parse_raw_bytes plainRegName _ _ 0x2000 i HP) as (Ha & Hr & Ho & _).
  rewrite Hs in Ho. rewrite Hb in Hr. rewrite Hr in Ho.
  repeat split; assumption.
Defined.

(** [Parse_longer_window] at the short jump [20 05] with two more bytes
    behind it. *)
Lemma Parse_longer_window_witness :
  exists r,
    Parse plainRegName [x20; x05] ([x99; xfe] ++ []) 0x100 = Ok r
    /\ Parse plainRegName ([x20; x05] ++ [x99; xfe]) [] 0x100 = Ok r.
Proof.
  destruct (Parse plainRegName [x20; x05] ([x99; xfe] ++ []) 0x100)
    as [r |] eqn:HP.
  - exists r. split; [reflexivity |].
    exact (Parse_longer_window plainRegName _ [x99; xfe] [] 0x100 r HP).
  - vm_compute in HP. discriminate HP.
Defined.

(** [short_jump_and_call] at the opcode [0x27] with the operand byte
    [0xFE]: the displacement is -2, and the jump from [0x100] goes to
    [0x100]. *)
Lemma short_jump_and_call_witness :
  let instr :=
    set_RawOps [xfe]
      (set_Address 0x100
         (set_Op x27
            (match unsignedInstructions x27 with
             | Some t => t
             | None => zeroInstruction
             end))) in
  disp11 (Z.land (u8 (Op instr)) 0x07) (u8 xfe) = -2
  /\ exists instr',
       doSJMP instr = Ok instr'
       /\ map JumpTo (edgesAt (Jumps instr') 0x100) = [0x100].
Proof.
  intros instr.
  assert (Hr : RawOps instr = [xfe]) by reflexivity.
  assert (Ht : VarTypes instr = ["ADDR"]) by (vm_compute; reflexivity).
  destruct (short_jump_and_call instr xfe [] "ADDR" [] Hr Ht)
    as (_ & (instr' & Hd & He & _) & _).
  split; [vm_compute; reflexivity |].
  exists instr'. split; [exact Hd |].
  change 0x100 with
    (int (int (Address instr + ByteLength instr)
          + disp11 (Z.land (u8 (Op instr)) 0x07) (u8 xfe))) at 1.
  rewrite He. vm_compute. reflexivity.
Defined.

(** [direct_operands_back_to_front] at [ADD] with the operand bytes
    [0x10 0x20]: the first declared operand, [wreg], is register [0x20]. *)
Lemma direct_operands_back_to_front_witness :
  let instr :=
    set_RawOps [x10; x20]
      (match unsignedInstructions x64 with
       | Some t => t
       | None => zeroInstruction
       end) in
  exists instr' vars,
    doMIDDLE plainRegName instr = Ok instr'
    /\ Vars instr' = Some vars
    /\ Var_Value <$> vars !! "wreg" = Some "R_20"
    /\ Var_Value <$> vars !! "waop" = Some "R_10".
Proof.
  intros instr.
  assert (Hm : isMode instr "direct" = true) by (vm_compute; reflexivity).
  assert (Hr : len (VarStrings instr) <= len (RawOps instr))
    by (vm_compute; discriminate).
  assert (Ht : len (VarStrings instr) <= len (VarTypes instr))
    by (vm_compute; discriminate).
  assert (Hn : VarStrings instr = ["wreg"; "waop"]) by (vm_compute; reflexivity).
  assert (Hnd : NoDup (VarStrings instr)).
  { rewrite Hn. apply (bool_decide_unpack _). vm_compute. exact I. }
  destruct (direct_operands_back_to_front plainRegName instr Hm Hr Ht Hnd)
    as (instr' & vars & Hd & Hv & _ & _ & _ & Hall).
  exists instr', vars. split; [exact Hd |]. split; [exact Hv |].
  rewrite Hn in Hall.
  destruct (Hall 0%nat "wreg" eq_refl) as (r0 & t0 & Hr0 & _ & Hv0 & _).
  destruct (Hall 1%nat "waop" eq_refl) as (r1 & t1 & Hr1 & _ & Hv1 & _).
  vm_compute in Hr0. injection Hr0 as <-.
  vm_compute in Hr1. injection Hr1 as <-.
  rewrite Hv0, Hv1. split; reflexivity.
Defined.

(** [templates_well_formed] at the template of [TIJMP], whose three
    names are not in the catalog. *)
Lemma templates_well_formed_witness :
  exists t,
    unsignedInstructions xe2 = Some t
    /\ Mnemonic t = "TIJMP" /\ ByteLength t = 4
    /\ NoDup (VarStrings t)
    /\ Forall (fun name => VarObjs !! name = None) (VarStrings t).
Proof.
  set (t := match unsignedInstructions xe2 with
            | Some t => t
            | None => zeroInstruction
            end).
  assert (Ht : unsignedInstructions xe2 = Some t) by (vm_compute; reflexivity).
  destruct (templates_well_formed xe2 t (or_introl Ht))
    as (_ & _ & Hnd & _ & _ & _ & _ & Hcat).
  exists t. split; [exact Ht |].
  split; [vm_compute; reflexivity |]. split; [vm_compute; reflexivity |].
  split; [exact Hnd |].
  apply Forall_forall. intros name Hn. apply list_elem_of_In in Hn.
  apply (Hcat name Hn).
  revert Hn. change (VarStrings t) with ["TBASE"; "INDEX"; "#MASK"].
  unfold uncatalogued. cbn [In]. tauto.
Defined.

(** [Parse_advances] at the unknown opcode behind the prefix and at a
    long-indexed prefixed [MUL]. *)
Lemma Parse_advances_witness :
  (exists i e, Parse plainRegName [xfe; x00; x00] [] 0 = Ok (i, Some e)
               /\ ByteLength i = 1)
  /\ (exists i, Parse plainRegName [xfe; x4f; x10; x20; x30; x40; x50; x60] [] 0
                = Ok (i, None)
                /\ ByteLength i = 7 /\ 1 <= ByteLength i <= 7
                /\ ByteLength i
                   <= len [xfe; x4f; x10; x20; x30; x40; x50; x60] + len (@nil byte)).
Proof.
  split.
  - eexists. eexists. split; reflexivity.
  - assert (H : exists i,
              Parse plainRegName [xfe; x4f; x10; x20; x30; x40; x50; x60] [] 0
              = Ok (i, None) /\ ByteLength i = 7).
    { apply decoded_intro. vm_compute. reflexivity. }
    destruct H as (i & HP & Hb). exists i.
    destruct (Parse_advances plainRegName _ _ 0 i None HP) as (Hr & Hl & _).
    split; [exact HP |]. split; [exact Hb |]. split; [exact Hr | exact Hl].
Defined.

(** [Parse_variables_from_catalog] at the shift [SHL], whose count is
    declared under a name that the catalog lacks. *)
Lemma Parse_variables_from_catalog_witness :
  exists i m v,
    Parse plainRegName [x09; x05; x20] [] 0 = Ok (i, None)
    /\ Vars i = Some m /\ m !! "breg/#count" = Some v
    /\ Var_Description v = "" /\ Var_Bits v = 0.
Proof.
  assert (H : exists i,
            Parse plainRegName [x09; x05; x20] [] 0 = Ok (i, None)
            /\ match Vars i with
               | Some m => present (m !! "breg/#count")
               | None => false
               end = true).
  { apply decoded_intro. vm_compute. reflexivity. }
  destruct H as (i & HP & Hv).
  destruct (Vars i) as [m |] eqn:Em; [| discriminate Hv].
  destruct (m !! "breg/#count") as [v |] eqn:Ev; [| discriminate Hv].
  exists i, m, v. split; [exact HP |]. split; [exact Em |].
  split; [exact Ev |].
  destruct (Parse_variables_from_catalog plainRegName _ _ 0 i m _ v HP Em Ev)
    as (_ & _ & Hz).
  apply Hz. vm_compute. reflexivity.
Defined.

(** [low_group_count_operand] at [SHL] with the count 5. *)
Lemma low_group_count_operand_witness :
  exists i name,
    Parse plainRegName [x09; x05; x20] [] 0 = Ok (i, None)
    /\ last (VarStrings i) = Some name
    /\ Var_Value (varsAt (Vars i) name) = "#05".
Proof.
  assert (Hop : In x09 [x08; x09; x0a; x0c; x0d; x0e; x18; x19; x1a; x1c; x1e])
    by (cbn [In]; tauto).
  assert (Hc : u8 x05 < 0x10) by (vm_compute; reflexivity).
  destruct (low_group_count_operand plainRegName x09 x05 x20 [] [] 0 Hop Hc)
    as (i & name & HP & _ & _ & Hl & Hv).
  exists i, name. split; [exact HP |]. split; [exact Hl |]. exact Hv.
Defined.

(** [bit_test_operands] at [JBS] on bit 5. *)
Lemma bit_test_operands_witness :
  exists i,
    Parse plainRegName [x3d; x10; x04] [] 0x100 = Ok (i, None)
    /\ Mnemonic i = "JBS"
    /\ Var_Value (varsAt (Vars i) "bitno") = "5".
Proof.
  assert (Hop : Z.land (u8 x3d) 0xF0 = 0x30) by reflexivity.
  destruct (bit_test_operands plainRegName x3d x10 x04 [] [] 0x100 Hop)
    as (i & HP & Hm & _ & _ & _ & Hv & _).
  exists i. split; [exact HP |]. split; [exact Hm | exact Hv].
Defined.

(** [extended_call_target] at [ECALL] with the bytes [FE FF FF] at
    [0x1000]: the call goes to [0x1002]. *)
Lemma extended_call_target_witness :
  let instr :=
    set_RawOps [xfe; xff; xff]
      (set_Address 0x1000
         (match unsignedInstructions xf1 with
          | Some t => t
          | None => zeroInstruction
          end)) in
  exists instr',
    doF0 instr = Ok instr'
    /\ map CallTo (edgesAt (Calls instr') 0x1002) = [0x1002].
Proof.
  intros instr.
  assert (Hr : RawOps instr = [xfe; xff; xff]) by reflexivity.
  assert (Ht : VarTypes instr = ["ADDR"]) by (vm_compute; reflexivity).
  assert (Hm : Mnemonic instr = "ECALL") by (vm_compute; reflexivity).
  destruct (extended_call_target instr xfe xff xff [] "ADDR" [] Hr Ht)
    as (instr' & Hd & _ & _ & _ & _ & Hc & _).
  destruct (Hc Hm) as [He _].
  exists instr'. split; [exact Hd |].
  change 0x1002 with
    (Z.land (int (int (Address instr + ByteLength instr) + le24 xfe xff xff))
       0x1FFFFF) at 1.
  rewrite He. vm_compute. reflexivity.
Defined.
